(** * Gold_Quant_Project: the multi-strategy channel consensus engine

    A shallow embedding of [analysis/strategies.py] and
    [analysis/channel_analyzer.py], and the properties of the channel
    strategies, the strategy registry, the time-frame consensus and the
    multi-time-frame summary.

    Numbers.  Python and numpy floats are modelled by exact rationals
    ([Q]) together with a not-a-number value ([num]); infinities and
    overflow are outside the model, and so is binary rounding error except
    where it is named below.  [round(x, n)] is round-half-to-even on the
    decimal expansion, as in Python.

    External libraries.  numpy's square root and the indicator classes of
    the [ta] package are not part of the repository; they enter through
    the class [External], as does the retrieval of bars.  So do the
    results of numpy on which floating-point rounding decides the class
    of a result: the coefficients fitted by [polyfit], and the two sums of
    squares and the quotient that give the coefficient of determination.
    numpy's [polyval], [mean], [max], [min] and pandas' [tail],
    [rolling(..).mean()], [median] and [resample(..).agg(..)] are
    modelled by their mathematical definitions.

    Strings are modelled by their UTF-8 encoding. *)

From Stdlib Require Import ZArith NArith QArith Qround Qabs Qminmax Lqa Lia List String Ascii Bool Sorted.
From stdpp Require Import gmap strings.

Import ListNotations.
Local Open Scope Q_scope.

(** ** Python values *)

Module Py.

(** A numpy/Python float: a rational or NaN. *)
Inductive num : Type :=
| Fin (q : Q)
| NaN.

(** Exceptions that the modelled code can raise. *)
Inductive exc : Type :=
| TypeError
| IndexError
| ValueError
| LinAlgError.

(** The outcome of a call: a returned value or a raised exception. *)
Inductive outcome (A : Type) : Type :=
| Returns (a : A)
| Raises (e : exc).
Arguments Returns {A} a.
Arguments Raises {A} e.

Definition bind {A B : Type} (m : outcome A) (k : A -> outcome B) : outcome B :=
  match m with
  | Returns a => k a
  | Raises e => Raises e
  end.

(** [try: m  except Exception: h] *)
Definition try_except {A : Type} (m : outcome A) (h : A) : A :=
  match m with
  | Returns a => a
  | Raises _ => h
  end.

(** *** Comparisons; every comparison with NaN is false *)

Definition Qltb (a b : Q) : bool := negb (Qle_bool b a).
Definition Qgtb (a b : Q) : bool := Qltb b a.
Definition Qgeb (a b : Q) : bool := Qle_bool b a.

Definition lt (a b : num) : bool :=
  match a, b with
  | Fin x, Fin y => Qltb x y
  | _, _ => false
  end.
Definition gt (a b : num) : bool := lt b a.
Definition le (a b : num) : bool :=
  match a, b with
  | Fin x, Fin y => Qle_bool x y
  | _, _ => false
  end.

Definition isnan (a : num) : bool :=
  match a with
  | NaN => true
  | Fin _ => false
  end.

(** *** Arithmetic; NaN propagates *)

Definition lift2 (f : Q -> Q -> Q) (a b : num) : num :=
  match a, b with
  | Fin x, Fin y => Fin (f x y)
  | _, _ => NaN
  end.
Definition add := lift2 Qplus.
Definition sub := lift2 Qminus.
Definition mul := lift2 Qmult.
Definition div := lift2 Qdiv.

(** The builtins [min(a, b)] and [max(a, b)]: the first argument is kept
    unless the second compares strictly smaller (larger). *)
Definition min (a b : num) : num := if lt b a then b else a.
Definition max (a b : num) : num := if gt b a then b else a.

(** *** Rounding *)

(** Round half to even. *)
Definition rint (x : Q) : Z :=
  let f := Qfloor x in
  match Qcompare (x - inject_Z f) (1 # 2) with
  | Lt => f
  | Gt => (f + 1)%Z
  | Eq => if Z.even f then f else (f + 1)%Z
  end.

Definition pow10 (n : nat) : Q := inject_Z (10 ^ Z.of_nat n).

(** [round(x, ndigits)] on a rational. *)
Definition Qround (x : Q) (ndigits : nat) : Q :=
  inject_Z (rint (x * pow10 ndigits)) / pow10 ndigits.

(** [round(x, ndigits)] on a float; [round(nan, n)] is [nan]. *)
Definition round (x : num) (ndigits : nat) : num :=
  match x with
  | Fin q => Fin (Qround q ndigits)
  | NaN => NaN
  end.

(** *** Sequences *)

(** [xs[-1]], [s.iloc[-1]] *)
Definition last_item {A : Type} (xs : list A) : outcome A :=
  match List.rev xs with
  | [] => Raises IndexError
  | x :: _ => Returns x
  end.

(** [xs[a:b]] for [0 <= a], [0 <= b] *)
Definition slice {A : Type} (a b : nat) (xs : list A) : list A :=
  firstn (b - a) (skipn a xs).

(** [df.tail(n)], [s.tail(n)] for [0 <= n] *)
Definition tail {A : Type} (n : nat) (xs : list A) : list A :=
  skipn (length xs - n) xs.

(** [s.dropna()] *)
Fixpoint dropna (xs : list num) : list Q :=
  match xs with
  | [] => []
  | Fin q :: r => q :: dropna r
  | NaN :: r => dropna r
  end.

(** [np.arange(n)] *)
Definition arange (n : nat) : list Q :=
  List.map (fun i => inject_Z (Z.of_nat i)) (seq 0 n).

Definition Qsum (xs : list Q) : Q := fold_right Qplus 0 xs.

Definition Qlen {A : Type} (xs : list A) : Q := inject_Z (Z.of_nat (length xs)).

(** [np.mean(xs)] of a non-empty array. *)
Definition np_mean (xs : list Q) : Q := Qsum xs / Qlen xs.

(** [np.max(xs)], [np.min(xs)]: an empty array raises [ValueError]. *)
Definition np_max (xs : list Q) : outcome Q :=
  match xs with
  | [] => Raises ValueError
  | x :: r => Returns (fold_left Qmax r x)
  end.
Definition np_min (xs : list Q) : outcome Q :=
  match xs with
  | [] => Raises ValueError
  | x :: r => Returns (fold_left Qmin r x)
  end.

End Py.

Notation "'let*' x ':=' m 'in' k" := (Py.bind m (fun x => k))
  (at level 10, x name, m at level 100, k at level 200).

Import Py.

(** *** numpy and pandas routines, by their mathematical definitions *)

Fixpoint zip_with {A B C : Type} (f : A -> B -> C) (xs : list A) (ys : list B) : list C :=
  match xs, ys with
  | x :: xs', y :: ys' => f x y :: zip_with f xs' ys'
  | _, _ => []
  end.

(** The least-squares line through the points [(x, y)], as
    [(slope, intercept)], from the normal equations: what [np.polyfit]
    computes, rounding aside. *)
Definition lstsq (x y : list Q) : Q * Q :=
  let n := Qlen x in
  let sx := Qsum x in
  let sy := Qsum y in
  let sxx := Qsum (zip_with Qmult x x) in
  let sxy := Qsum (zip_with Qmult x y) in
  let det := n * sxx - sx * sx in
  let slope := (n * sxy - sx * sy) / det in
  (slope, (sy - slope * sx) / n).

(** [np.polyval(coeffs, x)] for a line. *)
Definition polyval (coeffs : Q * Q) (x : Q) : Q := fst coeffs * x + snd coeffs.

(** [s.rolling(window=w).mean()]: the mean of the last [w] values at each
    position, NaN while fewer than [w] values are available (and for a
    window of zero). *)
Definition rolling_mean (w : nat) (xs : list Q) : list num :=
  List.map
    (fun i => if ((w =? 0) || (i + 1 <? w))%nat then NaN
              else Fin (np_mean (slice (i + 1 - w) (i + 1) xs)))
    (seq 0 (length xs)).

Fixpoint insert_sorted (x : Q) (xs : list Q) : list Q :=
  match xs with
  | [] => [x]
  | y :: r => if Qle_bool x y then x :: y :: r else y :: insert_sorted x r
  end.

Definition sort_values (xs : list Q) : list Q := fold_right insert_sorted [] xs.

(** [s.median()] of a non-empty series without NaN. *)
Definition median (xs : list Q) : Q :=
  let s := sort_values xs in
  let n := length s in
  if Nat.even n
  then (nth (n / 2 - 1) s 0 + nth (n / 2) s 0) / 2
  else nth (n / 2) s 0.

(** ** Data model *)

(** One OHLCV sample; [bar_time] is the timestamp in seconds. *)
Record Bar : Type := mkBar {
  bar_time : Z;
  bar_open : Q;
  bar_high : Q;
  bar_low : Q;
  bar_close : Q;
  bar_volume : Q
}.

(** A data frame with the columns time, open, high, low, close, volume and
    no missing value. *)
Definition DataFrame : Type := list Bar.

(** The channel type constants of [strategies.py]. *)
Inductive ChannelType : Type :=
| CHANNEL_UP          (* "📈 上涨通道" *)
| CHANNEL_DOWN        (* "📉 下跌通道" *)
| CHANNEL_SIDEWAYS    (* "↔️  横盘震荡" *)
| CHANNEL_TRANSITION. (* "🔄 趋势转换中" *)

Definition ChannelType_eqb (a b : ChannelType) : bool :=
  match a, b with
  | CHANNEL_UP, CHANNEL_UP
  | CHANNEL_DOWN, CHANNEL_DOWN
  | CHANNEL_SIDEWAYS, CHANNEL_SIDEWAYS
  | CHANNEL_TRANSITION, CHANNEL_TRANSITION => true
  | _, _ => false
  end.

(** A value of the [details] dictionary. *)
Inductive DetailVal : Type :=
| DNum (v : num)
| DInt (n : nat)
| DStr (s : string)
| DNone.

(** The result dictionary of a successful [analyze]. *)
Record ChannelResult : Type := mkChannelResult {
  strategy_name : string;
  channel_type : ChannelType;
  current_price : num;
  upper_band : num;
  lower_band : num;
  center : num;
  position_pct : num;
  sma_cross : string;
  details : list (string * DetailVal)
}.

(** The message f"数据不足：需要 {need} 根，实际 {actual} 根". *)
Inductive ErrorMsg : Type :=
| InsufficientBars (need actual : nat).

(** What [analyze] returns: a dictionary that holds only the key
    ["error"], or one that holds the nine keys of [ChannelResult]. *)
Inductive Result : Type :=
| ErrorResult (error : ErrorMsg)
| Channel (r : ChannelResult).

(** ["error" in r] *)
Definition has_error (r : Result) : bool :=
  match r with
  | ErrorResult _ => true
  | Channel _ => false
  end.

(** ** External libraries *)

(** The series of [ta.volatility.BollingerBands]. *)
Record BollingerBands : Type := mkBollingerBands {
  bollinger_hband : list num;
  bollinger_lband : list num;
  bollinger_mavg : list num;
  bollinger_wband : list num;
  bollinger_pband : list num
}.

(** The series of [ta.volatility.DonchianChannel]. *)
Record DonchianChannel : Type := mkDonchianChannel {
  donchian_channel_hband : list num;
  donchian_channel_lband : list num;
  donchian_channel_mband : list num;
  donchian_channel_wband : list num
}.

Class External : Type := {
  (** [np.sqrt], inside [np.std] *)
  np_sqrt : Q -> Q;
  (** the coefficients [(slope, intercept)] that [np.polyfit(x, y, 1)]
      returns, when it returns: those of the least-squares line, up to
      the rounding of the solver *)
  np_polyfit : list Q -> list Q -> Q * Q;
  (** [np.sum((y - line) ** 2)], as numpy evaluates it in floating point *)
  np_sum_sq_residuals : list Q -> list Q -> Q;
  (** [np.sum((y - np.mean(y)) ** 2)], likewise *)
  np_sum_sq_deviations : list Q -> Q;
  (** [1 - (ss_res / ss_tot)], likewise *)
  float_r_squared : Q -> Q -> Q;
  (** [ta.trend.ADXIndicator(high, low, close, window).adx()] *)
  ta_ADXIndicator_adx : list Q -> list Q -> list Q -> nat -> outcome (list num);
  (** [ta.volatility.BollingerBands(close, window, window_dev)] *)
  ta_BollingerBands : list Q -> nat -> Q -> BollingerBands;
  (** [ta.volatility.DonchianChannel(high, low, close, window)] *)
  ta_DonchianChannel : list Q -> list Q -> list Q -> nat -> DonchianChannel;
  (** [YFinanceDataFetcher(symbol).fetch_ohlcv(period, interval)]; [None]
      when the retrieval fails *)
  fetch_ohlcv : string -> string -> string -> option DataFrame
}.

(** [np.std(xs)]: the population standard deviation. *)
Definition np_std `{External} (xs : list Q) : Q :=
  let m := np_mean xs in
  np_sqrt (np_mean (List.map (fun x => (x - m) * (x - m)) xs)).

(** [np.polyfit(x, y, 1)].  numpy rejects an empty [x] and vectors of
    different lengths with [TypeError].  The abscissae in this program are
    [arange(n)] or the indices of at least three pivots, so the system is
    rank deficient only for the single abscissa 0; numpy's column scaling
    then divides 0 by 0 and the solver fails, which the model reports as
    [LinAlgError].  Otherwise the call returns the coefficients that the
    solver computes. *)
Definition polyfit `{External} (x y : list Q) : outcome (Q * Q) :=
  let n := Qlen x in
  let sx := Qsum x in
  let sxx := Qsum (zip_with Qmult x x) in
  let det := n * sxx - sx * sx in
  if (length x =? 0)%nat then Raises TypeError
  else if negb (length x =? length y)%nat then Raises TypeError
  else if Qeq_bool det 0 then Raises LinAlgError
  else Returns (np_polyfit x y).

(** ** Keyword arguments *)

(** [**kwargs]: a dictionary from parameter names to numbers.  A parameter
    annotated [int] is read as a natural number. *)
Definition as_int (q : Q) : nat := Z.to_nat (Qfloor q).

Definition of_int (n : nat) : Q := inject_Z (Z.of_nat n).

(** [kwargs.get(key, default)] *)
Definition kwargs_get (kwargs : gmap string Q) (key : string) (default : Q) : Q :=
  match kwargs !! key with
  | Some v => v
  | None => default
  end.

Definition kwargs_get_int (kwargs : gmap string Q) (key : string) (default : nat) : nat :=
  match kwargs !! key with
  | Some v => as_int v
  | None => default
  end.

(** ** strategies.py *)

(** A strategy instance: its class and the attributes set by [__init__]. *)
Inductive Strategy : Type :=
| LinearRegressionStrategy (adx_threshold r2_threshold : Q)
| BollingerBandStrategy (bb_period : nat) (bb_std : Q)
| DonchianChannelStrategy (dc_period : nat)
| TrendlineStrategy (pivot_window : nat).

(** The class attribute [name]. *)
Definition name (self : Strategy) : string :=
  match self with
  | LinearRegressionStrategy _ _ => "regression"
  | BollingerBandStrategy _ _ => "bollinger"
  | DonchianChannelStrategy _ => "donchian"
  | TrendlineStrategy _ => "trendline"
  end.

(** The class attribute [display_name]. *)
Definition display_name (self : Strategy) : string :=
  match self with
  | LinearRegressionStrategy _ _ => "线性回归"
  | BollingerBandStrategy _ _ => "布林带"
  | DonchianChannelStrategy _ => "唐奇安"
  | TrendlineStrategy _ => "高低点趋势线"
  end.

(** *** BaseChannelStrategy *)

Definition _calc_position_pct (price upper lower : num) : num :=
  let width := sub upper lower in
  if gt width (Fin 0) then
    let pct := mul (div (sub price lower) width) (Fin 100) in
    round (max (Fin 0) (min (Fin 100) pct)) 1
  else Fin 50.

Definition _calc_adx `{External} (df : DataFrame) (lookback : nat) : Q :=
  let adx_data := tail (lookback + 20) df in
  if (length adx_data <? 16)%nat then 0
  else
    try_except
      (let* adx_series :=
         ta_ADXIndicator_adx (List.map bar_high adx_data) (List.map bar_low adx_data)
                             (List.map bar_close adx_data) 14 in
       let* val := last_item adx_series in
       Returns (match val with
                | Fin v => Qround v 1
                | NaN => 0
                end))
      0.

(** The three labels of [_calc_sma_cross]. *)
Definition SMA_BULLISH : string := "多头排列".
Definition SMA_BEARISH : string := "空头排列".
Definition SMA_INSUFFICIENT : string := "数据不足".

Definition _calc_sma_cross (df : DataFrame) (short long : nat)
  : outcome (option Q * option Q * string) :=
  let close := List.map bar_close df in
  let* sma_s := last_item (rolling_mean short close) in
  let* sma_l := last_item (rolling_mean long close) in
  match sma_s, sma_l with
  | Fin s, Fin l =>
      let label := if Qgtb s l then SMA_BULLISH else SMA_BEARISH in
      Returns (Some (Qround s 2), Some (Qround l 2), label)
  | _, _ => Returns (None, None, SMA_INSUFFICIENT)
  end.

Definition opt_detail (v : option Q) : DetailVal :=
  match v with
  | Some q => DNum (Fin q)
  | None => DNone
  end.

(** *** LinearRegressionStrategy *)

Definition LinearRegressionStrategy_analyze `{External}
    (adx_threshold r2_threshold : Q)
    (df : DataFrame) (lookback : nat) (kwargs : gmap string Q) : outcome Result :=
  let sma_short := kwargs_get_int kwargs "sma_short" 20 in
  let sma_long := kwargs_get_int kwargs "sma_long" 60 in
  let min_bars := Nat.max lookback (sma_long + 10) in
  if (length df <? min_bars)%nat then
    Returns (ErrorResult (InsufficientBars min_bars (length df)))
  else
    let data := tail lookback df in
    let close := List.map bar_close data in
    (* linear regression *)
    let x := arange (length close) in
    let* coeffs := polyfit x close in
    let slope := fst coeffs in
    let regression_line := List.map (polyval coeffs) x in
    (* R² *)
    let ss_res := np_sum_sq_residuals close regression_line in
    let ss_tot := np_sum_sq_deviations close in
    let r_squared := if Qgtb ss_tot 0 then float_r_squared ss_res ss_tot else 0 in
    (* channel bounds *)
    let residuals := zip_with Qminus close regression_line in
    let std_dev := np_std residuals in
    let* center := last_item regression_line in
    let upper := center + (15 # 10) * std_dev in
    let lower := center - (15 # 10) * std_dev in
    (* ADX & SMA *)
    let adx := _calc_adx df lookback in
    let* sma := _calc_sma_cross df sma_short sma_long in
    let '(sma_s, sma_l, sma_cross) := sma in
    let* current_price := last_item close in
    let slope_pct := if Qgtb current_price 0 then slope / current_price * 100 else 0 in
    (* classification *)
    let channel_type :=
      if Qgeb r_squared r2_threshold && Qgeb adx adx_threshold then
        if Qgtb slope 0 then CHANNEL_UP else CHANNEL_DOWN
      else if Qgeb r_squared r2_threshold then CHANNEL_TRANSITION
      else CHANNEL_SIDEWAYS in
    (* moving-average override *)
    let channel_type :=
      if String.eqb sma_cross SMA_BULLISH && ChannelType_eqb channel_type CHANNEL_DOWN
      then CHANNEL_TRANSITION
      else if String.eqb sma_cross SMA_BEARISH && ChannelType_eqb channel_type CHANNEL_UP
      then CHANNEL_TRANSITION
      else channel_type in
    Returns (Channel {|
      strategy_name := "线性回归";
      channel_type := channel_type;
      current_price := Fin (Qround current_price 2);
      upper_band := Fin (Qround upper 2);
      lower_band := Fin (Qround lower 2);
      center := Fin (Qround center 2);
      position_pct := _calc_position_pct (Fin current_price) (Fin upper) (Fin lower);
      sma_cross := sma_cross;
      details := [
        ("slope", DNum (Fin (Qround slope 4)));
        ("slope_pct", DNum (Fin (Qround slope_pct 4)));
        ("r_squared", DNum (Fin (Qround r_squared 4)));
        ("adx", DNum (Fin adx));
        ("sma_short_val", opt_detail sma_s);
        ("sma_long_val", opt_detail sma_l);
        ("band_width", DNum (Fin (Qround (std_dev * 3) 2)))
      ]
    |}).

(** *** BollingerBandStrategy *)

Definition BollingerBandStrategy_analyze `{External}
    (self_bb_period : nat) (self_bb_std : Q)
    (df : DataFrame) (lookback : nat) (kwargs : gmap string Q) : outcome Result :=
  let bb_period := kwargs_get_int kwargs "bb_period" self_bb_period in
  let bb_std := kwargs_get kwargs "bb_std" self_bb_std in
  if (length df <? bb_period + 10)%nat then
    Returns (ErrorResult (InsufficientBars (bb_period + 10) (length df)))
  else
    let bb := ta_BollingerBands (List.map bar_close df) bb_period bb_std in
    let* upper := last_item (bollinger_hband bb) in
    let* lower := last_item (bollinger_lband bb) in
    let* middle := last_item (bollinger_mavg bb) in
    let* bandwidth := last_item (bollinger_wband bb) in
    let* pct_b := last_item (bollinger_pband bb) in
    let* current_price := last_item (List.map bar_close df) in
    (* slope of the middle band *)
    let ma_vals := tail lookback (dropna (bollinger_mavg bb)) in
    let* ma_slope :=
      if (10 <=? length ma_vals)%nat then
        let* c := polyfit (arange (length ma_vals)) ma_vals in Returns (fst c)
      else Returns 0 in
    let adx := _calc_adx df lookback in
    (* bandwidth against its median *)
    let bw_series := tail lookback (dropna (bollinger_wband bb)) in
    let bw_median := if (0 <? length bw_series)%nat then Fin (median bw_series) else bandwidth in
    let bw_is_narrow := lt bandwidth (mul bw_median (Fin (7 # 10))) in
    let channel_type :=
      if bw_is_narrow && Qltb adx 20 then CHANNEL_SIDEWAYS
      else if Qgtb ma_slope 0 && Qgeb adx 20 then CHANNEL_UP
      else if Qltb ma_slope 0 && Qgeb adx 20 then CHANNEL_DOWN
      else if Qgtb (Qabs ma_slope) 0 && Qltb adx 20 then CHANNEL_TRANSITION
      else CHANNEL_SIDEWAYS in
    Returns (Channel {|
      strategy_name := "布林带";
      channel_type := channel_type;
      current_price := Fin (Qround current_price 2);
      upper_band := round upper 2;
      lower_band := round lower 2;
      center := round middle 2;
      position_pct := _calc_position_pct (Fin current_price) upper lower;
      sma_cross := if gt (Fin current_price) middle then "中轨上方" else "中轨下方";
      details := [
        ("bandwidth", DNum (round bandwidth 4));
        ("pct_b", if negb (isnan pct_b) then DNum (round pct_b 4) else DInt 0);
        ("ma_slope", DNum (Fin (Qround ma_slope 4)));
        ("adx", DNum (Fin adx));
        ("bw_vs_median", DStr (if bw_is_narrow then "收窄" else "正常/扩张"))
      ]
    |}).

(** *** DonchianChannelStrategy *)

Definition DonchianChannelStrategy_analyze `{External}
    (self_dc_period : nat)
    (df : DataFrame) (lookback : nat) (kwargs : gmap string Q) : outcome Result :=
  let dc_period := kwargs_get_int kwargs "dc_period" self_dc_period in
  if (length df <? dc_period + 10)%nat then
    Returns (ErrorResult (InsufficientBars (dc_period + 10) (length df)))
  else
    let dc := ta_DonchianChannel (List.map bar_high df) (List.map bar_low df)
                                 (List.map bar_close df) dc_period in
    let* upper := last_item (donchian_channel_hband dc) in
    let* lower := last_item (donchian_channel_lband dc) in
    let* middle := last_item (donchian_channel_mband dc) in
    let* width := last_item (donchian_channel_wband dc) in
    let* current_price := last_item (List.map bar_close df) in
    (* slopes of the two bands *)
    let upper_series := tail lookback (dropna (donchian_channel_hband dc)) in
    let lower_series := tail lookback (dropna (donchian_channel_lband dc)) in
    let* upper_slope :=
      if (10 <=? length upper_series)%nat then
        let* c := polyfit (arange (length upper_series)) upper_series in Returns (fst c)
      else Returns 0 in
    let* lower_slope :=
      if (10 <=? length lower_series)%nat then
        let* c := polyfit (arange (length lower_series)) lower_series in Returns (fst c)
      else Returns 0 in
    let adx := _calc_adx df lookback in
    let channel_type :=
      if Qgtb upper_slope 0 && Qgtb lower_slope 0 && Qgeb adx 20 then CHANNEL_UP
      else if Qltb upper_slope 0 && Qltb lower_slope 0 && Qgeb adx 20 then CHANNEL_DOWN
      else if Qltb adx 15 then CHANNEL_SIDEWAYS
      else if negb (Bool.eqb (Qgtb upper_slope 0) (Qgtb lower_slope 0)) then CHANNEL_TRANSITION
      else CHANNEL_SIDEWAYS in
    (* proximity of the price to the bounds *)
    let dist_to_upper :=
      if gt (sub upper lower) (Fin 0)
      then div (sub upper (Fin current_price)) (sub upper lower)
      else Fin (1 # 2) in
    let proximity :=
      if lt dist_to_upper (Fin (1 # 10)) then "接近上轨（可能突破）"
      else if gt dist_to_upper (Fin (9 # 10)) then "接近下轨（可能跌破）"
      else "通道内部" in
    Returns (Channel {|
      strategy_name := "唐奇安";
      channel_type := channel_type;
      current_price := Fin (Qround current_price 2);
      upper_band := round upper 2;
      lower_band := round lower 2;
      center := round middle 2;
      position_pct := _calc_position_pct (Fin current_price) upper lower;
      sma_cross := proximity;
      details := [
        ("upper_slope", DNum (Fin (Qround upper_slope 4)));
        ("lower_slope", DNum (Fin (Qround lower_slope 4)));
        ("channel_width", if negb (isnan width) then DNum (round width 4) else DInt 0);
        ("adx", DNum (Fin adx));
        ("dc_period", DInt dc_period)
      ]
    |}).

(** *** TrendlineStrategy *)

(** One turn of the loop of [_find_pivots]: is bar [i] a pivot? *)
Definition pivot_test (values : list Q) (window : nat) (mode : string) (i : nat)
  : outcome bool :=
  let left := slice (i - window) i values in
  let right := slice (i + 1) (i + window + 1) values in
  let v := nth i values 0 in
  if String.eqb mode "high" then
    let* ml := np_max left in
    if Qgeb v ml then
      let* mr := np_max right in Returns (Qgeb v mr)
    else Returns false
  else
    let* ml := np_min left in
    if Qle_bool v ml then
      let* mr := np_min right in Returns (Qle_bool v mr)
    else Returns false.

Fixpoint find_pivots_loop (values : list Q) (window : nat) (mode : string)
    (range : list nat) : outcome (list nat * list Q) :=
  match range with
  | [] => Returns ([], [])
  | i :: rest =>
      let* p := pivot_test values window mode i in
      let* r := find_pivots_loop values window mode rest in
      Returns (if p then (i :: fst r, nth i values 0 :: snd r) else r)
  end.

Definition _find_pivots (values : list Q) (window : nat) (mode : string)
  : outcome (list nat * list Q) :=
  find_pivots_loop values window mode (seq window (length values - window - window)).

Definition NOTE_INSUFFICIENT_PIVOTS : string := "局部极值点不足，无法拟合趋势线".

Definition TrendlineStrategy_analyze `{External}
    (self_pivot_window : nat)
    (df : DataFrame) (lookback : nat) (kwargs : gmap string Q) : outcome Result :=
  let pivot_window := kwargs_get_int kwargs "pivot_window" self_pivot_window in
  if (length df <? lookback)%nat then
    Returns (ErrorResult (InsufficientBars lookback (length df)))
  else
    let data := tail lookback df in
    let high := List.map bar_high data in
    let low := List.map bar_low data in
    let close := List.map bar_close data in
    let* highs := _find_pivots high pivot_window "high" in
    let* lows := _find_pivots low pivot_window "low" in
    let '(highs_idx, highs_val) := highs in
    let '(lows_idx, lows_val) := lows in
    let* current_price := last_item close in
    if ((length highs_idx <? 3) || (length lows_idx <? 3))%nat then
      let* hi := np_max high in
      let* lo := np_min low in
      Returns (Channel {|
        strategy_name := "高低点趋势线";
        current_price := Fin (Qround current_price 2);
        channel_type := CHANNEL_SIDEWAYS;
        upper_band := Fin (Qround hi 2);
        lower_band := Fin (Qround lo 2);
        center := Fin (Qround (np_mean close) 2);
        position_pct := Fin 50;
        sma_cross := "极值点不足";
        details := [
          ("high_pivots", DInt (length highs_idx));
          ("low_pivots", DInt (length lows_idx));
          ("note", DStr NOTE_INSUFFICIENT_PIVOTS)
        ]
      |})
    else
      let* h_coeffs := polyfit (List.map of_int highs_idx) highs_val in
      let h_slope := fst h_coeffs in
      let upper_at_end := polyval h_coeffs (of_int (length data - 1)) in
      let* l_coeffs := polyfit (List.map of_int lows_idx) lows_val in
      let l_slope := fst l_coeffs in
      let lower_at_end := polyval l_coeffs (of_int (length data - 1)) in
      let center := (upper_at_end + lower_at_end) / 2 in
      let adx := _calc_adx df lookback in
      let both_up := Qgtb h_slope 0 && Qgtb l_slope 0 in
      let both_down := Qltb h_slope 0 && Qltb l_slope 0 in
      let channel_type :=
        if both_up && Qgeb adx 20 then CHANNEL_UP
        else if both_down && Qgeb adx 20 then CHANNEL_DOWN
        else if both_up || both_down then CHANNEL_TRANSITION
        else CHANNEL_SIDEWAYS in
      let pattern :=
        if Qgtb h_slope 0 && Qgtb l_slope 0 then "上升通道"
        else if Qltb h_slope 0 && Qltb l_slope 0 then "下降通道"
        else if Qltb h_slope 0 && Qgtb l_slope 0 then "收敛三角形"
        else if Qgtb h_slope 0 && Qltb l_slope 0 then "扩张形态"
        else "不明确" in
      Returns (Channel {|
        strategy_name := "高低点趋势线";
        current_price := Fin (Qround current_price 2);
        channel_type := channel_type;
        upper_band := Fin (Qround upper_at_end 2);
        lower_band := Fin (Qround lower_at_end 2);
        center := Fin (Qround center 2);
        position_pct := _calc_position_pct (Fin current_price) (Fin upper_at_end) (Fin lower_at_end);
        sma_cross := pattern;
        details := [
          ("high_slope", DNum (Fin (Qround h_slope 4)));
          ("low_slope", DNum (Fin (Qround l_slope 4)));
          ("high_pivots", DInt (length highs_idx));
          ("low_pivots", DInt (length lows_idx));
          ("pattern", DStr pattern);
          ("adx", DNum (Fin adx))
        ]
      |}).

(** The method [analyze], dispatched on the class of [self]. *)
Definition analyze `{External} (self : Strategy)
    (df : DataFrame) (lookback : nat) (kwargs : gmap string Q) : outcome Result :=
  match self with
  | LinearRegressionStrategy adx_threshold r2_threshold =>
      LinearRegressionStrategy_analyze adx_threshold r2_threshold df lookback kwargs
  | BollingerBandStrategy bb_period bb_std =>
      BollingerBandStrategy_analyze bb_period bb_std df lookback kwargs
  | DonchianChannelStrategy dc_period =>
      DonchianChannelStrategy_analyze dc_period df lookback kwargs
  | TrendlineStrategy pivot_window =>
      TrendlineStrategy_analyze pivot_window df lookback kwargs
  end.

(** The minimum number of bars stated by each class. *)
Definition min_bars (self : Strategy) (lookback : nat) (kwargs : gmap string Q) : nat :=
  match self with
  | LinearRegressionStrategy _ _ =>
      Nat.max lookback (kwargs_get_int kwargs "sma_long" 60 + 10)
  | BollingerBandStrategy bb_period _ =>
      kwargs_get_int kwargs "bb_period" bb_period + 10
  | DonchianChannelStrategy dc_period =>
      kwargs_get_int kwargs "dc_period" dc_period + 10
  | TrendlineStrategy _ => lookback
  end.

(** *** The strategy registry *)

(** Calling a class with keyword arguments: every keyword must be a parameter of [__init__],
    otherwise the call raises [TypeError]. *)
Definition construct (params : gset string) (init : gmap string Q -> Strategy)
    (kwargs : gmap string Q) : outcome Strategy :=
  if decide (dom kwargs ⊆ params) then Returns (init kwargs) else Raises TypeError.

Definition new_LinearRegressionStrategy : gmap string Q -> outcome Strategy :=
  construct {[ "adx_threshold"; "r2_threshold" ]}
    (fun kw => LinearRegressionStrategy (kwargs_get kw "adx_threshold" 25)
                                        (kwargs_get kw "r2_threshold" (1 # 2))).

Definition new_BollingerBandStrategy : gmap string Q -> outcome Strategy :=
  construct {[ "bb_period"; "bb_std" ]}
    (fun kw => BollingerBandStrategy (kwargs_get_int kw "bb_period" 20)
                                     (kwargs_get kw "bb_std" 2)).

Definition new_DonchianChannelStrategy : gmap string Q -> outcome Strategy :=
  construct {[ "dc_period" ]}
    (fun kw => DonchianChannelStrategy (kwargs_get_int kw "dc_period" 20)).

Definition new_TrendlineStrategy : gmap string Q -> outcome Strategy :=
  construct {[ "pivot_window" ]}
    (fun kw => TrendlineStrategy (kwargs_get_int kw "pivot_window" 5)).

Definition ALL_STRATEGIES : gmap string (gmap string Q -> outcome Strategy) :=
  {[ "regression" := new_LinearRegressionStrategy;
     "bollinger" := new_BollingerBandStrategy;
     "donchian" := new_DonchianChannelStrategy;
     "trendline" := new_TrendlineStrategy ]}.

Definition DEFAULT_STRATEGY_NAMES : list string :=
  ["regression"; "bollinger"; "donchian"; "trendline"].

(** Strings.  A Python string is represented by its UTF-8 encoding, one
    [ascii] per byte.

    [str.strip()] removes the white-space characters at both ends.  These
    are, with their encodings: U+0009 to U+000D, U+001C to U+001F and
    U+0020 (one byte each); U+0085 and U+00A0 (C2 85, C2 A0); U+1680
    (E1 9A 80); U+2000 to U+200A, U+2028, U+2029 and U+202F (E2 80 80 to
    E2 80 8A, E2 80 A8, E2 80 A9, E2 80 AF); U+205F (E2 81 9F); and U+3000
    (E3 80 80).  In an encoded string a character ends where the next
    begins, so that removing these byte sequences at the two ends removes
    exactly these characters. *)
Definition is_space (c : ascii) : bool :=
  let n := nat_of_ascii c in
  ((n =? 32) || ((9 <=? n) && (n <=? 13)) || ((28 <=? n) && (n <=? 31)))%nat.

Definition is_space2 (a b : ascii) : bool :=
  let a := nat_of_ascii a in
  let b := nat_of_ascii b in
  ((a =? 194) && ((b =? 133) || (b =? 160)))%nat.

Definition is_space3 (a b c : ascii) : bool :=
  let a := nat_of_ascii a in
  let b := nat_of_ascii b in
  let c := nat_of_ascii c in
  (((a =? 225) && (b =? 154) && (c =? 128))
   || ((a =? 226) && (b =? 128)
       && (((128 <=? c) && (c <=? 138)) || (c =? 168) || (c =? 169) || (c =? 175)))
   || ((a =? 226) && (b =? 129) && (c =? 159))
   || ((a =? 227) && (b =? 128) && (c =? 128)))%nat.

(** [str.lstrip()] on the bytes of a string. *)
Fixpoint lstrip (s : list ascii) : list ascii :=
  match s with
  | a :: r1 =>
      if is_space a then lstrip r1
      else
        match r1 with
        | b :: r2 =>
            if is_space2 a b then lstrip r2
            else
              match r2 with
              | c :: r3 => if is_space3 a b c then lstrip r3 else s
              | [] => s
              end
        | [] => s
        end
  | [] => []
  end.

(** [str.rstrip()] on the bytes of a string in reverse order. *)
Fixpoint rstrip_rev (s : list ascii) : list ascii :=
  match s with
  | c :: r1 =>
      if is_space c then rstrip_rev r1
      else
        match r1 with
        | b :: r2 =>
            if is_space2 b c then rstrip_rev r2
            else
              match r2 with
              | a :: r3 => if is_space3 a b c then rstrip_rev r3 else s
              | [] => s
              end
        | [] => s
        end
  | [] => []
  end.

Definition strip (s : string) : string :=
  string_of_list_ascii
    (List.rev (rstrip_rev (List.rev (lstrip (list_ascii_of_string s))))).

(** The no-break space U+00A0, encoded. *)
Definition NBSP : string := String "194" (String "160" "").

(** [str.lower()].  Python lowers a string character by character with
    the lower-case mapping of the Unicode character database (version
    14.0, as in CPython 3.11): the capital letters listed in [LOWERCASE] are
    replaced, U+0130 becomes the two characters U+0069 U+0307, and a
    capital sigma becomes the final sigma when it ends a word, that is
    when a cased letter precedes it and none follows, case-ignorable
    characters skipped.  On ASCII text this lowers the letters A to Z. *)

(** The characters of an encoded string.  A byte that is not part of the
    encoding of a character stands for itself, as a number beyond
    U+10FFFF. *)
Definition is_continuation (b : N) : bool := ((128 <=? b) && (b <=? 191))%N.

Fixpoint utf8_decode (s : list ascii) : list N :=
  match s with
  | [] => []
  | a :: r1 =>
      let a' := N_of_ascii a in
      let raw := (1114112 + a' :: utf8_decode r1)%N in
      if (a' <? 128)%N then a' :: utf8_decode r1
      else
        match r1 with
        | b :: r2 =>
            let b' := N_of_ascii b in
            if ((194 <=? a') && (a' <=? 223))%N && is_continuation b'
            then ((a' - 192) * 64 + (b' - 128))%N :: utf8_decode r2
            else
              match r2 with
              | c :: r3 =>
                  let c' := N_of_ascii c in
                  let p3 := ((a' - 224) * 4096 + (b' - 128) * 64 + (c' - 128))%N in
                  if ((224 <=? a') && (a' <=? 239))%N && is_continuation b'
                     && is_continuation c' && (2048 <=? p3)%N
                  then p3 :: utf8_decode r3
                  else
                    match r3 with
                    | d :: r4 =>
                        let d' := N_of_ascii d in
                        let p4 := ((a' - 240) * 262144 + (b' - 128) * 4096
                                   + (c' - 128) * 64 + (d' - 128))%N in
                        if ((240 <=? a') && (a' <=? 244))%N && is_continuation b'
                           && is_continuation c' && is_continuation d'
                           && ((65536 <=? p4) && (p4 <=? 1114111))%N
                        then p4 :: utf8_decode r4
                        else raw
                    | [] => raw
                    end
              | [] => raw
              end
        | [] => raw
        end
  end.

Definition utf8_encode_char (p : N) : list ascii :=
  List.map ascii_of_N
    (if p <? 128 then [p]
     else if p <? 2048 then [192 + p / 64; 128 + p mod 64]
     else if p <? 65536 then [224 + p / 4096; 128 + (p / 64) mod 64; 128 + p mod 64]
     else if p <? 1114112
          then [240 + p / 262144; 128 + (p / 4096) mod 64; 128 + (p / 64) mod 64; 128 + p mod 64]
     else [p - 1114112])%N.

Definition utf8_encode (ps : list N) : list ascii := List.concat (List.map utf8_encode_char ps).

Definition LOWERCASE : list (N * N * N * N) :=
  [
   (65, 90, 1, 97); (192, 214, 1, 224); (216, 222, 1, 248); (256, 302, 2, 257);
   (306, 310, 2, 307); (313, 327, 2, 314); (330, 374, 2, 331); (376, 376, 1, 255);
   (377, 381, 2, 378); (385, 385, 1, 595); (386, 388, 2, 387); (390, 390, 1, 596);
   (391, 391, 1, 392); (393, 394, 1, 598); (395, 395, 1, 396); (398, 398, 1, 477);
   (399, 399, 1, 601); (400, 400, 1, 603); (401, 401, 1, 402); (403, 403, 1, 608);
   (404, 404, 1, 611); (406, 406, 1, 617); (407, 407, 1, 616); (408, 408, 1, 409);
   (412, 412, 1, 623); (413, 413, 1, 626); (415, 415, 1, 629); (416, 420, 2, 417);
   (422, 422, 1, 640); (423, 423, 1, 424); (425, 425, 1, 643); (428, 428, 1, 429);
   (430, 430, 1, 648); (431, 431, 1, 432); (433, 434, 1, 650); (435, 437, 2, 436);
   (439, 439, 1, 658); (440, 440, 1, 441); (444, 444, 1, 445); (452, 452, 1, 454);
   (453, 453, 1, 454); (455, 455, 1, 457); (456, 456, 1, 457); (458, 458, 1, 460);
   (459, 475, 2, 460); (478, 494, 2, 479); (497, 497, 1, 499); (498, 500, 2, 499);
   (502, 502, 1, 405); (503, 503, 1, 447); (504, 542, 2, 505); (544, 544, 1, 414);
   (546, 562, 2, 547); (570, 570, 1, 11365); (571, 571, 1, 572); (573, 573, 1, 410);
   (574, 574, 1, 11366); (577, 577, 1, 578); (579, 579, 1, 384); (580, 580, 1, 649);
   (581, 581, 1, 652); (582, 590, 2, 583); (880, 882, 2, 881); (886, 886, 1, 887);
   (895, 895, 1, 1011); (902, 902, 1, 940); (904, 906, 1, 941); (908, 908, 1, 972);
   (910, 911, 1, 973); (913, 929, 1, 945); (932, 939, 1, 964); (975, 975, 1, 983);
   (984, 1006, 2, 985); (1012, 1012, 1, 952); (1015, 1015, 1, 1016); (1017, 1017, 1, 1010);
   (1018, 1018, 1, 1019); (1021, 1023, 1, 891); (1024, 1039, 1, 1104); (1040, 1071, 1, 1072);
   (1120, 1152, 2, 1121); (1162, 1214, 2, 1163); (1216, 1216, 1, 1231); (1217, 1229, 2, 1218);
   (1232, 1326, 2, 1233); (1329, 1366, 1, 1377); (4256, 4293, 1, 11520); (4295, 4295, 1, 11559);
   (4301, 4301, 1, 11565); (5024, 5103, 1, 43888); (5104, 5109, 1, 5112); (7312, 7354, 1, 4304);
   (7357, 7359, 1, 4349); (7680, 7828, 2, 7681); (7838, 7838, 1, 223); (7840, 7934, 2, 7841);
   (7944, 7951, 1, 7936); (7960, 7965, 1, 7952); (7976, 7983, 1, 7968); (7992, 7999, 1, 7984);
   (8008, 8013, 1, 8000); (8025, 8031, 2, 8017); (8040, 8047, 1, 8032); (8072, 8079, 1, 8064);
   (8088, 8095, 1, 8080); (8104, 8111, 1, 8096); (8120, 8121, 1, 8112); (8122, 8123, 1, 8048);
   (8124, 8124, 1, 8115); (8136, 8139, 1, 8050); (8140, 8140, 1, 8131); (8152, 8153, 1, 8144);
   (8154, 8155, 1, 8054); (8168, 8169, 1, 8160); (8170, 8171, 1, 8058); (8172, 8172, 1, 8165);
   (8184, 8185, 1, 8056); (8186, 8187, 1, 8060); (8188, 8188, 1, 8179); (8486, 8486, 1, 969);
   (8490, 8490, 1, 107); (8491, 8491, 1, 229); (8498, 8498, 1, 8526); (8544, 8559, 1, 8560);
   (8579, 8579, 1, 8580); (9398, 9423, 1, 9424); (11264, 11311, 1, 11312); (11360, 11360, 1, 11361);
   (11362, 11362, 1, 619); (11363, 11363, 1, 7549); (11364, 11364, 1, 637); (11367, 11371, 2, 11368);
   (11373, 11373, 1, 593); (11374, 11374, 1, 625); (11375, 11375, 1, 592); (11376, 11376, 1, 594);
   (11378, 11378, 1, 11379); (11381, 11381, 1, 11382); (11390, 11391, 1, 575); (11392, 11490, 2, 11393);
   (11499, 11501, 2, 11500); (11506, 11506, 1, 11507); (42560, 42604, 2, 42561); (42624, 42650, 2, 42625);
   (42786, 42798, 2, 42787); (42802, 42862, 2, 42803); (42873, 42875, 2, 42874); (42877, 42877, 1, 7545);
   (42878, 42886, 2, 42879); (42891, 42891, 1, 42892); (42893, 42893, 1, 613); (42896, 42898, 2, 42897);
   (42902, 42920, 2, 42903); (42922, 42922, 1, 614); (42923, 42923, 1, 604); (42924, 42924, 1, 609);
   (42925, 42925, 1, 620); (42926, 42926, 1, 618); (42928, 42928, 1, 670); (42929, 42929, 1, 647);
   (42930, 42930, 1, 669); (42931, 42931, 1, 43859); (42932, 42946, 2, 42933); (42948, 42948, 1, 42900);
   (42949, 42949, 1, 642); (42950, 42950, 1, 7566); (42951, 42953, 2, 42952); (42960, 42960, 1, 42961);
   (42966, 42968, 2, 42967); (42997, 42997, 1, 42998); (65313, 65338, 1, 65345); (66560, 66599, 1, 66600);
   (66736, 66771, 1, 66776); (66928, 66964, 2, 66967); (66929, 66937, 2, 66968); (66941, 66953, 2, 66980);
   (66957, 66961, 2, 66996); (66965, 66965, 1, 67004); (68736, 68786, 1, 68800); (71840, 71871, 1, 71872);
   (93760, 93791, 1, 93792); (125184, 125217, 1, 125218)
  ]%N.

Definition CASED : list (N * N) :=
  [
   (65, 90); (97, 122); (170, 170); (181, 181); (186, 186); (192, 214);
   (216, 246); (248, 442); (444, 447); (452, 659); (661, 687); (880, 883);
   (886, 887); (891, 893); (895, 895); (902, 902); (904, 906); (908, 908);
   (910, 929); (931, 1013); (1015, 1153); (1162, 1327); (1329, 1366); (1376, 1416);
   (4256, 4293); (4295, 4295); (4301, 4301); (4304, 4346); (4349, 4351); (5024, 5109);
   (5112, 5117); (7296, 7304); (7312, 7354); (7357, 7359); (7424, 7467); (7531, 7543);
   (7545, 7578); (7680, 7957); (7960, 7965); (7968, 8005); (8008, 8013); (8016, 8023);
   (8025, 8025); (8027, 8027); (8029, 8029); (8031, 8061); (8064, 8116); (8118, 8124);
   (8126, 8126); (8130, 8132); (8134, 8140); (8144, 8147); (8150, 8155); (8160, 8172);
   (8178, 8180); (8182, 8188); (8450, 8450); (8455, 8455); (8458, 8467); (8469, 8469);
   (8473, 8477); (8484, 8484); (8486, 8486); (8488, 8488); (8490, 8493); (8495, 8500);
   (8505, 8505); (8508, 8511); (8517, 8521); (8526, 8526); (8544, 8575); (8579, 8580);
   (9398, 9449); (11264, 11387); (11390, 11492); (11499, 11502); (11506, 11507); (11520, 11557);
   (11559, 11559); (11565, 11565); (42560, 42605); (42624, 42651); (42786, 42863); (42865, 42887);
   (42891, 42894); (42896, 42954); (42960, 42961); (42963, 42963); (42965, 42969); (42997, 42998);
   (43002, 43002); (43824, 43866); (43872, 43880); (43888, 43967); (64256, 64262); (64275, 64279);
   (65313, 65338); (65345, 65370); (66560, 66639); (66736, 66771); (66776, 66811); (66928, 66938);
   (66940, 66954); (66956, 66962); (66964, 66965); (66967, 66977); (66979, 66993); (66995, 67001);
   (67003, 67004); (68736, 68786); (68800, 68850); (71840, 71903); (93760, 93823); (119808, 119892);
   (119894, 119964); (119966, 119967); (119970, 119970); (119973, 119974); (119977, 119980); (119982, 119993);
   (119995, 119995); (119997, 120003); (120005, 120069); (120071, 120074); (120077, 120084); (120086, 120092);
   (120094, 120121); (120123, 120126); (120128, 120132); (120134, 120134); (120138, 120144); (120146, 120485);
   (120488, 120512); (120514, 120538); (120540, 120570); (120572, 120596); (120598, 120628); (120630, 120654);
   (120656, 120686); (120688, 120712); (120714, 120744); (120746, 120770); (120772, 120779); (122624, 122633);
   (122635, 122654); (125184, 125251); (127280, 127305); (127312, 127337); (127344, 127369)
  ]%N.

Definition CASE_IGNORABLE : list (N * N) :=
  [
   (39, 39); (46, 46); (58, 58); (94, 94); (96, 96); (168, 168);
   (173, 173); (175, 175); (180, 180); (183, 184); (688, 879); (884, 885);
   (890, 890); (900, 901); (903, 903); (1155, 1161); (1369, 1369); (1375, 1375);
   (1425, 1469); (1471, 1471); (1473, 1474); (1476, 1477); (1479, 1479); (1524, 1524);
   (1536, 1541); (1552, 1562); (1564, 1564); (1600, 1600); (1611, 1631); (1648, 1648);
   (1750, 1757); (1759, 1768); (1770, 1773); (1807, 1807); (1809, 1809); (1840, 1866);
   (1958, 1968); (2027, 2037); (2042, 2042); (2045, 2045); (2070, 2093); (2137, 2139);
   (2184, 2184); (2192, 2193); (2200, 2207); (2249, 2306); (2362, 2362); (2364, 2364);
   (2369, 2376); (2381, 2381); (2385, 2391); (2402, 2403); (2417, 2417); (2433, 2433);
   (2492, 2492); (2497, 2500); (2509, 2509); (2530, 2531); (2558, 2558); (2561, 2562);
   (2620, 2620); (2625, 2626); (2631, 2632); (2635, 2637); (2641, 2641); (2672, 2673);
   (2677, 2677); (2689, 2690); (2748, 2748); (2753, 2757); (2759, 2760); (2765, 2765);
   (2786, 2787); (2810, 2815); (2817, 2817); (2876, 2876); (2879, 2879); (2881, 2884);
   (2893, 2893); (2901, 2902); (2914, 2915); (2946, 2946); (3008, 3008); (3021, 3021);
   (3072, 3072); (3076, 3076); (3132, 3132); (3134, 3136); (3142, 3144); (3146, 3149);
   (3157, 3158); (3170, 3171); (3201, 3201); (3260, 3260); (3263, 3263); (3270, 3270);
   (3276, 3277); (3298, 3299); (3328, 3329); (3387, 3388); (3393, 3396); (3405, 3405);
   (3426, 3427); (3457, 3457); (3530, 3530); (3538, 3540); (3542, 3542); (3633, 3633);
   (3636, 3642); (3654, 3662); (3761, 3761); (3764, 3772); (3782, 3782); (3784, 3789);
   (3864, 3865); (3893, 3893); (3895, 3895); (3897, 3897); (3953, 3966); (3968, 3972);
   (3974, 3975); (3981, 3991); (3993, 4028); (4038, 4038); (4141, 4144); (4146, 4151);
   (4153, 4154); (4157, 4158); (4184, 4185); (4190, 4192); (4209, 4212); (4226, 4226);
   (4229, 4230); (4237, 4237); (4253, 4253); (4348, 4348); (4957, 4959); (5906, 5908);
   (5938, 5939); (5970, 5971); (6002, 6003); (6068, 6069); (6071, 6077); (6086, 6086);
   (6089, 6099); (6103, 6103); (6109, 6109); (6155, 6159); (6211, 6211); (6277, 6278);
   (6313, 6313); (6432, 6434); (6439, 6440); (6450, 6450); (6457, 6459); (6679, 6680);
   (6683, 6683); (6742, 6742); (6744, 6750); (6752, 6752); (6754, 6754); (6757, 6764);
   (6771, 6780); (6783, 6783); (6823, 6823); (6832, 6862); (6912, 6915); (6964, 6964);
   (6966, 6970); (6972, 6972); (6978, 6978); (7019, 7027); (7040, 7041); (7074, 7077);
   (7080, 7081); (7083, 7085); (7142, 7142); (7144, 7145); (7149, 7149); (7151, 7153);
   (7212, 7219); (7222, 7223); (7288, 7293); (7376, 7378); (7380, 7392); (7394, 7400);
   (7405, 7405); (7412, 7412); (7416, 7417); (7468, 7530); (7544, 7544); (7579, 7679);
   (8125, 8125); (8127, 8129); (8141, 8143); (8157, 8159); (8173, 8175); (8189, 8190);
   (8203, 8207); (8216, 8217); (8228, 8228); (8231, 8231); (8234, 8238); (8288, 8292);
   (8294, 8303); (8305, 8305); (8319, 8319); (8336, 8348); (8400, 8432); (11388, 11389);
   (11503, 11505); (11631, 11631); (11647, 11647); (11744, 11775); (11823, 11823); (12293, 12293);
   (12330, 12333); (12337, 12341); (12347, 12347); (12441, 12446); (12540, 12542); (40981, 40981);
   (42232, 42237); (42508, 42508); (42607, 42610); (42612, 42621); (42623, 42623); (42652, 42655);
   (42736, 42737); (42752, 42785); (42864, 42864); (42888, 42890); (42994, 42996); (43000, 43001);
   (43010, 43010); (43014, 43014); (43019, 43019); (43045, 43046); (43052, 43052); (43204, 43205);
   (43232, 43249); (43263, 43263); (43302, 43309); (43335, 43345); (43392, 43394); (43443, 43443);
   (43446, 43449); (43452, 43453); (43471, 43471); (43493, 43494); (43561, 43566); (43569, 43570);
   (43573, 43574); (43587, 43587); (43596, 43596); (43632, 43632); (43644, 43644); (43696, 43696);
   (43698, 43700); (43703, 43704); (43710, 43711); (43713, 43713); (43741, 43741); (43756, 43757);
   (43763, 43764); (43766, 43766); (43867, 43871); (43881, 43883); (44005, 44005); (44008, 44008);
   (44013, 44013); (64286, 64286); (64434, 64450); (65024, 65039); (65043, 65043); (65056, 65071);
   (65106, 65106); (65109, 65109); (65279, 65279); (65287, 65287); (65294, 65294); (65306, 65306);
   (65342, 65342); (65344, 65344); (65392, 65392); (65438, 65439); (65507, 65507); (65529, 65531);
   (66045, 66045); (66272, 66272); (66422, 66426); (67456, 67461); (67463, 67504); (67506, 67514);
   (68097, 68099); (68101, 68102); (68108, 68111); (68152, 68154); (68159, 68159); (68325, 68326);
   (68900, 68903); (69291, 69292); (69446, 69456); (69506, 69509); (69633, 69633); (69688, 69702);
   (69744, 69744); (69747, 69748); (69759, 69761); (69811, 69814); (69817, 69818); (69821, 69821);
   (69826, 69826); (69837, 69837); (69888, 69890); (69927, 69931); (69933, 69940); (70003, 70003);
   (70016, 70017); (70070, 70078); (70089, 70092); (70095, 70095); (70191, 70193); (70196, 70196);
   (70198, 70199); (70206, 70206); (70367, 70367); (70371, 70378); (70400, 70401); (70459, 70460);
   (70464, 70464); (70502, 70508); (70512, 70516); (70712, 70719); (70722, 70724); (70726, 70726);
   (70750, 70750); (70835, 70840); (70842, 70842); (70847, 70848); (70850, 70851); (71090, 71093);
   (71100, 71101); (71103, 71104); (71132, 71133); (71219, 71226); (71229, 71229); (71231, 71232);
   (71339, 71339); (71341, 71341); (71344, 71349); (71351, 71351); (71453, 71455); (71458, 71461);
   (71463, 71467); (71727, 71735); (71737, 71738); (71995, 71996); (71998, 71998); (72003, 72003);
   (72148, 72151); (72154, 72155); (72160, 72160); (72193, 72202); (72243, 72248); (72251, 72254);
   (72263, 72263); (72273, 72278); (72281, 72283); (72330, 72342); (72344, 72345); (72752, 72758);
   (72760, 72765); (72767, 72767); (72850, 72871); (72874, 72880); (72882, 72883); (72885, 72886);
   (73009, 73014); (73018, 73018); (73020, 73021); (73023, 73029); (73031, 73031); (73104, 73105);
   (73109, 73109); (73111, 73111); (73459, 73460); (78896, 78904); (92912, 92916); (92976, 92982);
   (92992, 92995); (94031, 94031); (94095, 94111); (94176, 94177); (94179, 94180); (110576, 110579);
   (110581, 110587); (110589, 110590); (113821, 113822); (113824, 113827); (118528, 118573); (118576, 118598);
   (119143, 119145); (119155, 119170); (119173, 119179); (119210, 119213); (119362, 119364); (121344, 121398);
   (121403, 121452); (121461, 121461); (121476, 121476); (121499, 121503); (121505, 121519); (122880, 122886);
   (122888, 122904); (122907, 122913); (122915, 122916); (122918, 122922); (123184, 123197); (123566, 123566);
   (123628, 123631); (125136, 125142); (125252, 125259); (127995, 127999); (917505, 917505); (917536, 917631);
   (917760, 917999)
  ]%N.

Definition in_ranges (ranges : list (N * N)) (p : N) : bool :=
  existsb (fun '(first, final) => ((first <=? p) && (p <=? final))%N) ranges.

(** [LOWERCASE] lists the capital letters in runs: from [first] to [final]
    in steps of [step], the first one lowered to [target] and the others
    at the same distance. *)
Definition lower_char (p : N) : list N :=
  if (p =? 304)%N then [105; 775]%N
  else
    match List.find (fun '(first, final, step, _) =>
                       ((first <=? p) && (p <=? final) && ((p - first) mod step =? 0))%N)
                    LOWERCASE with
    | Some (first, _, _, target) => [(target + (p - first))%N]
    | None => [p]
    end.

(** The first character that is not case-ignorable is a cased letter. *)
Fixpoint meets_cased (s : list N) : bool :=
  match s with
  | [] => false
  | p :: rest => if in_ranges CASE_IGNORABLE p then meets_cased rest else in_ranges CASED p
  end.

Fixpoint lower_chars (before : list N) (s : list N) : list N :=
  match s with
  | [] => []
  | p :: rest =>
      (if (p =? 931)%N
       then [if meets_cased before && negb (meets_cased rest) then 962 else 963]%N
       else lower_char p)
      ++ lower_chars (p :: before) rest
  end.

Definition lower (s : string) : string :=
  string_of_list_ascii (utf8_encode (lower_chars [] (utf8_decode (list_ascii_of_string s)))).

(** The loop of [get_strategies]: the instances built, and the names
    reported as unknown by [print]. *)
Fixpoint get_strategies_loop (names : list string) (kwargs : gmap string Q)
  : outcome (list Strategy * list string) :=
  match names with
  | [] => Returns ([], [])
  | n :: rest =>
      let n := lower (strip n) in
      match ALL_STRATEGIES !! n with
      | Some cls =>
          let* s := cls kwargs in
          let* r := get_strategies_loop rest kwargs in
          Returns (s :: fst r, snd r)
      | None =>
          let* r := get_strategies_loop rest kwargs in
          Returns (fst r, n :: snd r)
      end
  end.

(** [get_strategies(names, **kwargs)]; [names or DEFAULT_STRATEGY_NAMES]
    replaces [None] and the empty list. *)
Definition get_strategies (names : option (list string)) (kwargs : gmap string Q)
  : outcome (list Strategy * list string) :=
  let names :=
    match names with
    | Some (n :: rest) => n :: rest
    | _ => DEFAULT_STRATEGY_NAMES
    end in
  get_strategies_loop names kwargs.

(** ** channel_analyzer.py *)

(** The label of a time-frame verdict; the numbers are those formatted
    into the text. *)
Inductive ConsensusLabel : Type :=
| NO_VALID_DATA                       (* "❓ 无有效数据" *)
| ALL_BULLISH (up total : nat)        (* f"📈 全部看涨 ({up}/{total})" *)
| ALL_BEARISH (down total : nat)      (* f"📉 全部看跌 ({down}/{total})" *)
| LEANING_BULLISH (up total : nat)    (* f"📈 偏多 ({up}/{total} 看涨)" *)
| LEANING_BEARISH (down total : nat)  (* f"📉 偏空 ({down}/{total} 看跌)" *)
| DIVERGENT (up down : nat) (other : Z).
                                      (* f"🔄 分歧 ({up}涨/{down}跌/{total - up - down}其他)" *)

Record Consensus : Type := mkConsensus {
  label : ConsensusLabel;
  up : nat;
  down : nat;
  total : nat
}.

(** [sum(1 for r in valid if r["channel_type"] == c)] *)
Definition count_type (c : ChannelType) (valid : list ChannelResult) : nat :=
  length (List.filter (fun r => ChannelType_eqb (channel_type r) c) valid).

(** [[r for r in strategy_results if "error" not in r]] *)
Fixpoint valid_results (strategy_results : list Result) : list ChannelResult :=
  match strategy_results with
  | [] => []
  | Channel r :: rest => r :: valid_results rest
  | ErrorResult _ :: rest => valid_results rest
  end.

Definition _consensus (strategy_results : list Result) : Consensus :=
  let valid := valid_results strategy_results in
  match valid with
  | [] => {| label := NO_VALID_DATA; up := 0; down := 0; total := 0 |}
  | _ :: _ =>
      let up := count_type CHANNEL_UP valid in
      let down := count_type CHANNEL_DOWN valid in
      let total := length valid in
      let label :=
        if (up =? total)%nat then ALL_BULLISH up total
        else if (down =? total)%nat then ALL_BEARISH down total
        else if (down <? up)%nat && Qgeb (of_int up) (of_int total / 2)
        then LEANING_BULLISH up total
        else if (up <? down)%nat && Qgeb (of_int down) (of_int total / 2)
        then LEANING_BEARISH down total
        else DIVERGENT up down (Z.of_nat total - Z.of_nat up - Z.of_nat down) in
      {| label := label; up := up; down := down; total := total |}
  end.

(** *** Resampling *)

(** A row of [temp.resample(rule).agg({...})] before [dropna()]: an empty
    bin has no first, last, maximum or minimum, and volume sum 0. *)
Record AggRow : Type := mkAggRow {
  agg_time : Z;
  agg_open : num;
  agg_high : num;
  agg_low : num;
  agg_close : num;
  agg_volume : Q
}.

Definition first_num (xs : list Q) : num :=
  match xs with
  | [] => NaN
  | x :: _ => Fin x
  end.

Definition last_num (xs : list Q) : num :=
  match List.rev xs with
  | [] => NaN
  | x :: _ => Fin x
  end.

Definition max_num (xs : list Q) : num :=
  match xs with
  | [] => NaN
  | x :: r => Fin (fold_left Qmax r x)
  end.

Definition min_num (xs : list Q) : num :=
  match xs with
  | [] => NaN
  | x :: r => Fin (fold_left Qmin r x)
  end.

(** The bin of a timestamp: bins are [rule] seconds wide, closed on the
    left, and counted from [origin]. *)
Definition bin_of (origin rule t : Z) : Z := ((t - origin) / rule)%Z.

(** The rows of the frame that fall into bin [b]. *)
Definition rows_in_bin (origin rule b : Z) (df : DataFrame) : list Bar :=
  List.filter (fun r => (bin_of origin rule (bar_time r) =? b)%Z) df.

Definition agg (origin rule b : Z) (df : DataFrame) : AggRow :=
  let rows := rows_in_bin origin rule b df in
  {| agg_time := (origin + b * rule)%Z;
     agg_open := first_num (List.map bar_open rows);
     agg_high := max_num (List.map bar_high rows);
     agg_low := min_num (List.map bar_low rows);
     agg_close := last_num (List.map bar_close rows);
     agg_volume := Qsum (List.map bar_volume rows) |}.

(** [dropna()] on the aggregated rows. *)
Fixpoint dropna_rows (rows : list AggRow) : DataFrame :=
  match rows with
  | [] => []
  | r :: rest =>
      match agg_open r, agg_high r, agg_low r, agg_close r with
      | Fin o, Fin h, Fin l, Fin c =>
          mkBar (agg_time r) o h l c (agg_volume r) :: dropna_rows rest
      | _, _, _, _ => dropna_rows rest
      end
  end.

Definition Zlist_min (x : Z) (xs : list Z) : Z := fold_left Z.min xs x.
Definition Zlist_max (x : Z) (xs : list Z) : Z := fold_left Z.max xs x.

(** The bins from [b_lo] to [b_hi], in order. *)
Definition bin_range (b_lo b_hi : Z) : list Z :=
  List.map (fun k => (b_lo + Z.of_nat k)%Z) (seq 0 (Z.to_nat (b_hi - b_lo + 1))).

(** Midnight of the day of the earliest timestamp. *)
Definition resample_origin (df : DataFrame) : Z :=
  match List.map bar_time df with
  | [] => 0%Z
  | t :: ts => (Zlist_min t ts / 86400 * 86400)%Z
  end.

(** [temp.resample(rule).agg(..)]: one row per bin from the bin of the
    earliest timestamp to the bin of the latest; the bins are counted from
    midnight of the earliest day. *)
Definition resample_agg (df : DataFrame) (rule : Z) : list AggRow :=
  match List.map bar_time df with
  | [] => []
  | t :: ts =>
      let origin := resample_origin df in
      let b_lo := bin_of origin rule (Zlist_min t ts) in
      let b_hi := bin_of origin rule (Zlist_max t ts) in
      List.map (fun b => agg origin rule b df) (bin_range b_lo b_hi)
  end.

(** [_resample(df, rule)]; [rule] is the width of the target interval in
    seconds.  pandas rejects a width that is not positive; the exception
    is caught and [None] returned. *)
Definition _resample (df : DataFrame) (rule : Z) : option DataFrame :=
  if (rule <=? 0)%Z then None
  else Some (dropna_rows (resample_agg df rule)).

(** *** The multi-time-frame summary *)

(** A time-frame result: the dictionary with the key ["error"], or the one
    with the bar count, the strategy results and the verdict. *)
Inductive Timeframe : Type :=
| TimeframeError (tf_name tf_label : string) (error : string)
| TimeframeOk (tf_name tf_label : string) (bars_total : nat)
              (strategies : list Result) (consensus : option Consensus).

Definition tf_has_error (tf : Timeframe) : bool :=
  match tf with
  | TimeframeError _ _ _ => true
  | TimeframeOk _ _ _ _ _ => false
  end.

(** [tf["name"]] *)
Definition tf_name_of (tf : Timeframe) : string :=
  match tf with
  | TimeframeError n _ _ => n
  | TimeframeOk n _ _ _ _ => n
  end.

(** [tf.get("consensus", {})] *)
Definition tf_consensus (tf : Timeframe) : option Consensus :=
  match tf with
  | TimeframeError _ _ _ => None
  | TimeframeOk _ _ _ _ c => c
  end.

(** [con.get("up", 0)], [con.get("down", 0)] *)
Definition con_up (tf : Timeframe) : nat :=
  match tf_consensus tf with
  | Some c => up c
  | None => 0
  end.

Definition con_down (tf : Timeframe) : nat :=
  match tf_consensus tf with
  | Some c => down c
  | None => 0
  end.

(** A time-frame leans bullish (bearish) when its verdict counts more Up
    than Down results (more Down than Up). *)
Definition leans_bullish (tf : Timeframe) : bool := (con_down tf <? con_up tf)%nat.
Definition leans_bearish (tf : Timeframe) : bool := (con_up tf <? con_down tf)%nat.

Inductive Conclusion : Type :=
| CONCLUSION_NO_DATA                      (* "数据不足，无法综合判断" *)
| STRONG_BULLISH                          (* "📈 全级别偏多 — 强烈多头趋势" *)
| STRONG_BEARISH                          (* "📉 全级别偏空 — 强烈空头趋势" *)
| OVERALL_BULLISH (n total : nat)         (* f"📈 整体偏多（{n}/{total} 级别看涨）" *)
| OVERALL_BEARISH (n total : nat)         (* f"📉 整体偏空（{n}/{total} 级别看跌）" *)
| CONCLUSION_DIVERGENT.                   (* "🔄 多空分歧 — 各级别方向不一致" *)

(** An entry of the detail list.  A time-frame line always holds the
    text ": " and the two warnings do not, so the three forms are
    distinct texts. *)
Inductive Detail : Type :=
| TimeframeLine (tf_name : string) (label : option ConsensusLabel)
                                          (* f"{tf['name']}: {con.get('label', '?')}" *)
| WARN_LONG_BULLISH_SHORT_BEARISH         (* "⚠️ 大级别看多但小级别回调中" *)
| WARN_LONG_BEARISH_SHORT_BULLISH.        (* "⚠️ 大级别看空但小级别反弹中" *)

Record Summary : Type := mkSummary {
  conclusion : Conclusion;
  summary_details : list Detail
}.

Definition is_long_tf (tf : Timeframe) : bool :=
  String.eqb (tf_name_of tf) "日线" || String.eqb (tf_name_of tf) "周线".

Definition is_short_tf (tf : Timeframe) : bool :=
  String.eqb (tf_name_of tf) "1H" || String.eqb (tf_name_of tf) "4H".

Definition _generate_summary (timeframes : list Timeframe) : Summary :=
  let valid_tfs := List.filter (fun tf => negb (tf_has_error tf)) timeframes in
  match valid_tfs with
  | [] => {| conclusion := CONCLUSION_NO_DATA; summary_details := [] |}
  | _ :: _ =>
      let consensus_up := length (List.filter leans_bullish valid_tfs) in
      let consensus_down := length (List.filter leans_bearish valid_tfs) in
      let total := length valid_tfs in
      let conclusion :=
        if (consensus_up =? total)%nat then STRONG_BULLISH
        else if (consensus_down =? total)%nat then STRONG_BEARISH
        else if (consensus_down <? consensus_up)%nat then OVERALL_BULLISH consensus_up total
        else if (consensus_up <? consensus_down)%nat then OVERALL_BEARISH consensus_down total
        else CONCLUSION_DIVERGENT in
      let details :=
        List.map (fun tf => TimeframeLine (tf_name_of tf) (option_map label (tf_consensus tf)))
                 valid_tfs in
      let long_tfs := List.filter is_long_tf valid_tfs in
      let short_tfs := List.filter is_short_tf valid_tfs in
      let long_bullish := existsb leans_bullish long_tfs in
      let short_bearish := existsb leans_bearish short_tfs in
      let long_bearish := existsb leans_bearish long_tfs in
      let short_bullish := existsb leans_bullish short_tfs in
      let details :=
        if long_bullish && short_bearish then details ++ [WARN_LONG_BULLISH_SHORT_BEARISH]
        else if long_bearish && short_bullish then details ++ [WARN_LONG_BEARISH_SHORT_BULLISH]
        else details in
      {| conclusion := conclusion; summary_details := details |}
  end.

(** *** Time-frame analysis and the report *)

(** An entry of [TIMEFRAME_CONFIGS]; [cfg_resample] is the target interval
    in seconds when the key ["resample"] is present. *)
Record TimeframeConfig : Type := mkTimeframeConfig {
  cfg_name : string;
  cfg_label : string;
  cfg_interval : string;
  cfg_period : string;
  cfg_lookback : nat;
  cfg_sma_short : option nat;
  cfg_sma_long : option nat;
  cfg_resample : option Z
}.

Definition TIMEFRAME_CONFIGS : list TimeframeConfig := [
  mkTimeframeConfig "1H" "日内" "1h" "2mo" 240 (Some 20%nat) (Some 60%nat) None;
  mkTimeframeConfig "4H" "波段" "1h" "6mo" 180 (Some 20%nat) (Some 60%nat) (Some 14400%Z);
  mkTimeframeConfig "日线" "中期" "1d" "2y" 120 (Some 20%nat) (Some 60%nat) None;
  mkTimeframeConfig "周线" "长期" "1wk" "4y" 80 (Some 10%nat) (Some 30%nat) None
].

Fixpoint analyze_all `{External} (strategies : list Strategy)
    (df : DataFrame) (lookback : nat) (kwargs : gmap string Q) : outcome (list Result) :=
  match strategies with
  | [] => Returns []
  | strat :: rest =>
      let* res := analyze strat df lookback kwargs in
      let* results := analyze_all rest df lookback kwargs in
      Returns (res :: results)
  end.

Definition analyze_timeframe `{External} (symbol : string) (strategies : list Strategy)
    (config : TimeframeConfig) : outcome Timeframe :=
  match fetch_ohlcv symbol (cfg_period config) (cfg_interval config) with
  | None | Some [] =>
      Returns (TimeframeError (cfg_name config) (cfg_label config) "数据获取失败")
  | Some df =>
      let resampled :=
        match cfg_resample config with
        | Some rule => _resample df rule
        | None => Some df
        end in
      let too_short (d : DataFrame) : bool :=
        match cfg_resample config with
        | Some _ => (length d <? 20)%nat
        | None => false
        end in
      match resampled with
      | None => Returns (TimeframeError (cfg_name config) (cfg_label config) "重采样后数据不足")
      | Some df =>
          if too_short df then
            Returns (TimeframeError (cfg_name config) (cfg_label config) "重采样后数据不足")
          else
            let kwargs : gmap string Q :=
              {[ "sma_short" := of_int (default 20%nat (cfg_sma_short config));
                 "sma_long" := of_int (default 60%nat (cfg_sma_long config)) ]} in
            let* results := analyze_all strategies df (cfg_lookback config) kwargs in
            Returns (TimeframeOk (cfg_name config) (cfg_label config) (length df)
                                 results (Some (_consensus results)))
      end
  end.

Record Report : Type := mkReport {
  report_symbol : string;
  strategies_used : list string;
  report_timeframes : list Timeframe;
  summary : Summary
}.

Fixpoint analyze_timeframes `{External} (symbol : string) (strategies : list Strategy)
    (configs : list TimeframeConfig) : outcome (list Timeframe) :=
  match configs with
  | [] => Returns []
  | cfg :: rest =>
      let* result := analyze_timeframe symbol strategies cfg in
      let* results := analyze_timeframes symbol strategies rest in
      Returns (result :: results)
  end.

(** [multi_timeframe_report(timeframes)]; [timeframes or TIMEFRAME_CONFIGS]
    replaces [None] and the empty list.  The time stamp of the report is
    left out. *)
Definition multi_timeframe_report `{External} (symbol : string) (strategies : list Strategy)
    (timeframes : option (list TimeframeConfig)) : outcome Report :=
  let configs :=
    match timeframes with
    | Some (c :: rest) => c :: rest
    | _ => TIMEFRAME_CONFIGS
    end in
  let* tfs := analyze_timeframes symbol strategies configs in
  Returns {| report_symbol := symbol;
             strategies_used := List.map display_name strategies;
             report_timeframes := tfs;
             summary := _generate_summary tfs |}.

(** ** Reference definitions used by the statements *)

(** The simple moving average of the last [w] closes: defined when the
    window is positive and the series holds at least [w] values. *)
Definition sma (w : nat) (close : list Q) : option Q :=
  if ((1 <=? w) && (w <=? length close))%nat
  then Some (np_mean (tail w close))
  else None.

(** The short/long cross label, by its description. *)
Definition sma_cross_label (short long : nat) (close : list Q) : string :=
  match sma short close, sma long close with
  | Some s, Some l => if Qgtb s l then SMA_BULLISH else SMA_BEARISH
  | _, _ => SMA_INSUFFICIENT
  end.

(** A stand-in for the external libraries, to run the definitions on
    examples: the trend-strength series ends in 30, the band series are
    constant, and no bars can be retrieved. *)
Definition example_external : External := {|
  np_sqrt := fun q => q;
  np_polyfit := lstsq;
  np_sum_sq_residuals := fun y line => Qsum (zip_with (fun c r => (c - r) * (c - r)) y line);
  np_sum_sq_deviations := fun y => Qsum (List.map (fun c => (c - np_mean y) * (c - np_mean y)) y);
  float_r_squared := fun ss_res ss_tot => 1 - ss_res / ss_tot;
  ta_ADXIndicator_adx := fun _ _ _ _ => Returns [Fin 30];
  ta_BollingerBands := fun close _ _ =>
    let s := List.map (fun _ => Fin 1) close in
    mkBollingerBands (List.map (fun _ => Fin 2) close) (List.map (fun _ => Fin 0) close) s s s;
  ta_DonchianChannel := fun high _ _ _ =>
    let s := List.map (fun _ => Fin 1) high in
    mkDonchianChannel (List.map (fun _ => Fin 2) high) (List.map (fun _ => Fin 0) high) s s;
  fetch_ohlcv := fun _ _ _ => None
|}.

(** [n] bars whose prices rise by one per bar from [start]. *)
Definition rising_bars (start : Z) (n : nat) : DataFrame :=
  List.map (fun i =>
              let p := inject_Z (start + Z.of_nat i) in
              mkBar (3600 * Z.of_nat i) p (p + (1 # 2)) (p - (1 # 2)) p 100)
           (seq 0 n).

(** A channel result of the given type, and a time-frame result built
    from the channel types its strategies report. *)
Definition example_result (c : ChannelType) : Result :=
  Channel (mkChannelResult "线性回归" c (Fin 1925) (Fin 1950) (Fin 1900) (Fin 1925)
                           (Fin 50) SMA_BULLISH []).

Definition example_timeframe (tf_name : string) (types : list ChannelType) : Timeframe :=
  let results := List.map example_result types in
  TimeframeOk tf_name "" 300 results (Some (_consensus results)).

(** The time-frames that enter the summary. *)
Definition valid_timeframes (timeframes : list Timeframe) : list Timeframe :=
  List.filter (fun tf => negb (tf_has_error tf)) timeframes.

(** Some long-horizon time-frame leans bullish while some short-horizon
    time-frame leans bearish; and the opposite conflict. *)
Definition long_bullish_short_bearish (valid : list Timeframe) : Prop :=
  (exists tf, In tf valid /\ is_long_tf tf = true /\ leans_bullish tf = true) /\
  (exists tf, In tf valid /\ is_short_tf tf = true /\ leans_bearish tf = true).

Definition long_bearish_short_bullish (valid : list Timeframe) : Prop :=
  (exists tf, In tf valid /\ is_long_tf tf = true /\ leans_bearish tf = true) /\
  (exists tf, In tf valid /\ is_short_tf tf = true /\ leans_bullish tf = true).

(** The identifier under which [get_strategies] looks a requested name up. *)
Definition normalise (n : string) : string := lower (strip n).

(** [m] is a largest (smallest) element of the list. *)
Definition is_maximum (m : Q) (xs : list Q) : Prop :=
  In m xs /\ Forall (fun x => x <= m) xs.

Definition is_minimum (m : Q) (xs : list Q) : Prop :=
  In m xs /\ Forall (fun x => m <= x) xs.

(** Each value is strictly below the next one. *)
Definition strictly_increasing (xs : list Q) : Prop :=
  forall i, (S i < length xs)%nat -> nth i xs 0 < nth (S i) xs 0.

(** Three rising bars quoted to three decimals. *)
Definition fine_bars : DataFrame := [
  mkBar 0 1 (1001 # 1000) (999 # 1000) 1 100;
  mkBar 3600 2 (2001 # 1000) (1999 # 1000) 2 100;
  mkBar 7200 3 (3004 # 1000) (2996 # 1000) 3 100
].







(** The bars of one bin, and the resampled rows of a list of bins. *)
Definition bin_rows (origin rule : Z) (df : DataFrame) (b : Z) : list Bar :=
  rows_in_bin origin rule b df.

Definition agg_bins (origin rule : Z) (df : DataFrame) (bins : list Z) : DataFrame :=
  dropna_rows (List.map (fun b => agg origin rule b df) bins).

(** The determinant of the normal equations for the abscissae 0 .. n-1. *)
Definition det (n : nat) : Q :=
  Qlen (arange n) * Qsum (zip_with Qmult (arange n) (arange n))
  - Qsum (arange n) * Qsum (arange n).


(** ** Reference definitions for the further properties *)

(** The trend strength below which a strategy reports no direction: the
    attribute [adx_threshold] of the regression strategy, and the constant
    20 written into the other three. *)
Definition direction_threshold (self : Strategy) : Q :=
  match self with
  | LinearRegressionStrategy adx_threshold _ => adx_threshold
  | BollingerBandStrategy _ _ => 20
  | DonchianChannelStrategy _ => 20
  | TrendlineStrategy _ => 20
  end.

(** The keywords that [analyze] of each class reads from its [kwargs]. *)
Definition keywords_read (self : Strategy) : list string :=
  match self with
  | LinearRegressionStrategy _ _ => ["sma_short"; "sma_long"]
  | BollingerBandStrategy _ _ => ["bb_period"; "bb_std"]
  | DonchianChannelStrategy _ => ["dc_period"]
  | TrendlineStrategy _ => ["pivot_window"]
  end.

(** The pivot test as a comparison with every bar of the window: bar [i]
    is a pivot high when no bar from [i - window] to [i + window] is
    higher, a pivot low when none is lower. *)
Definition is_pivot (values : list Q) (window : nat) (mode : string) (i : nat) : bool :=
  forallb (fun j => if String.eqb mode "high"
                    then Qle_bool (nth j values 0) (nth i values 0)
                    else Qle_bool (nth i values 0) (nth j values 0))
          (seq (i - window) (2 * window + 1)).

(** The indicator classes of [ta] return series over the index of their
    input: a non-empty input gives non-empty series. *)
Definition indicators_defined (E : External) : Prop :=
  (forall close w k, close <> [] ->
     let bb := ta_BollingerBands close w k in
     bollinger_hband bb <> [] /\ bollinger_lband bb <> [] /\ bollinger_mavg bb <> [] /\
     bollinger_wband bb <> [] /\ bollinger_pband bb <> []) /\
  (forall high low close w, high <> [] ->
     let dc := ta_DonchianChannel high low close w in
     donchian_channel_hband dc <> [] /\ donchian_channel_lband dc <> [] /\
     donchian_channel_mband dc <> [] /\ donchian_channel_wband dc <> []).

(** The windows with which [analyze] can work: the regression needs two
    bars to fit a line, the pivot search a look-back and a pivot window of
    at least one bar. *)
Definition analyzable (self : Strategy) (lookback : nat) (kwargs : gmap string Q) : Prop :=
  match self with
  | LinearRegressionStrategy _ _ => (2 <= lookback)%nat
  | BollingerBandStrategy _ _ => True
  | DonchianChannelStrategy _ => True
  | TrendlineStrategy pivot_window =>
      (1 <= lookback)%nat /\ (1 <= kwargs_get_int kwargs "pivot_window" pivot_window)%nat
  end.

(** The keyword arguments that [analyze_timeframe] passes to [analyze]. *)
Definition timeframe_kwargs (config : TimeframeConfig) : gmap string Q :=
  {[ "sma_short" := of_int (default 20%nat (cfg_sma_short config));
     "sma_long" := of_int (default 60%nat (cfg_sma_long config)) ]}.

(** The bars that [analyze_timeframe] hands to the strategies: the
    retrieved frame, resampled when the configuration asks for it; none
    when the retrieval fails or returns no bar, when the resampling fails,
    or when it leaves fewer than 20 bars. *)
Definition analysed_frame `{External} (symbol : string) (config : TimeframeConfig)
  : option DataFrame :=
  match fetch_ohlcv symbol (cfg_period config) (cfg_interval config) with
  | None => None
  | Some [] => None
  | Some (d :: df) =>
      match cfg_resample config with
      | None => Some (d :: df)
      | Some rule =>
          match _resample (d :: df) rule with
          | None => None
          | Some resampled => if (length resampled <? 20)%nat then None else Some resampled
          end
      end
  end.

(** The configurations that [multi_timeframe_report] runs. *)
Definition report_configs (timeframes : option (list TimeframeConfig)) : list TimeframeConfig :=
  match timeframes with
  | Some (c :: rest) => c :: rest
  | _ => TIMEFRAME_CONFIGS
  end.

(** A strategy instance whose pivot window, if it has one, is at least
    one bar. *)
Definition window_ok (self : Strategy) : Prop :=
  match self with
  | TrendlineStrategy pivot_window => (1 <= pivot_window)%nat
  | _ => True
  end.


(** A stand-in for the data source that retrieves 12 hourly bars,
    whatever is asked for. *)
Definition example_feed : External := {|
  np_sqrt := @np_sqrt example_external;
  np_polyfit := @np_polyfit example_external;
  np_sum_sq_residuals := @np_sum_sq_residuals example_external;
  np_sum_sq_deviations := @np_sum_sq_deviations example_external;
  float_r_squared := @float_r_squared example_external;
  ta_ADXIndicator_adx := @ta_ADXIndicator_adx example_external;
  ta_BollingerBands := @ta_BollingerBands example_external;
  ta_DonchianChannel := @ta_DonchianChannel example_external;
  fetch_ohlcv := fun _ _ _ => Some (rising_bars 1900 12)
|}.

(** The parameters that [__init__] of the class registered under an
    identifier declares. *)
Definition init_params (n : string) : option (gset string) :=
  if String.eqb n "regression" then Some {[ "adx_threshold"; "r2_threshold" ]}
  else if String.eqb n "bollinger" then Some {[ "bb_period"; "bb_std" ]}
  else if String.eqb n "donchian" then Some {[ "dc_period" ]}
  else if String.eqb n "trendline" then Some {[ "pivot_window" ]}
  else None.

(** The class registered under an identifier, if there is one, declares
    every keyword of [kwargs]. *)
Definition accepts (kwargs : gmap string Q) (n : string) : Prop :=
  match init_params n with
  | Some params => dom kwargs ⊆ params
  | None => True
  end.

(** The names that [get_strategies] works through. *)
Definition requested_names (names : option (list string)) : list string :=
  match names with
  | Some (n :: rest) => n :: rest
  | _ => DEFAULT_STRATEGY_NAMES
  end.

(** A bar whose open and close lie between its low and its high. *)
Definition bar_consistent (r : Bar) : Prop :=
  bar_low r <= bar_open r /\ bar_open r <= bar_high r /\
  bar_low r <= bar_close r /\ bar_close r <= bar_high r.

(** Follow a call that returned through its binds and branches. *)
Ltac run_binds H :=
  repeat match type of H with
         | bind ?m _ = Returns _ =>
             let E := fresh "E" in destruct m eqn:E; simpl bind in H; [|discriminate H]
         | (if ?c then _ else _) = Returns _ =>
             let E := fresh "E" in destruct c eqn:E
         | (let '(_, _) := ?p in _) = Returns _ => destruct p
         | Returns _ = Returns _ => injection H as H
         | ErrorResult _ = Channel _ => discriminate H
         | Channel _ = Channel _ => injection H as H
         end.

(** The white-space characters of Python: those that [str.isspace]
    accepts. *)
Definition WHITESPACE : list N :=
  [9; 10; 11; 12; 13; 28; 29; 30; 31; 32; 133; 160; 5760;
   8192; 8193; 8194; 8195; 8196; 8197; 8198; 8199; 8200; 8201; 8202;
   8232; 8233; 8239; 8287; 12288]%N.

(** A string of white space, by its characters. *)
Definition blank (ps : list N) : Prop := Forall (fun p => In p WHITESPACE) ps.

(** The name [n'] is the name [n] with white space on either side. *)
Definition padded (n n' : string) : Prop :=
  exists ps qs, blank ps /\ blank qs /\
    n' = (string_of_list_ascii (utf8_encode ps) ++ n
          ++ string_of_list_ascii (utf8_encode qs))%string.

(** The first byte of an encoded character is no continuation byte. *)
Definition starts_char (l : list ascii) : Prop :=
  match l with
  | [] => True
  | c :: _ => (nat_of_ascii c < 128 \/ 192 <= nat_of_ascii c)%nat
  end.

(** * Properties *)

(** ** Arithmetic of the number model *)

Lemma Qltb_true (a b : Q) : Qltb a b = true <-> a < b.
Proof.
  unfold Qltb. rewrite negb_true_iff. split.
  - intros Hb. apply Qnot_le_lt. intros Hle.
    apply Qle_bool_iff in Hle. congruence.
  - intros Hlt. destruct (Qle_bool b a) eqn:E; [|reflexivity].
    apply Qle_bool_iff in E. exfalso. apply (Qlt_not_le _ _ Hlt E).
Qed.

Lemma Qltb_false (a b : Q) : Qltb a b = false <-> b <= a.
Proof.
  unfold Qltb. rewrite negb_false_iff. apply Qle_bool_iff.
Qed.

Lemma Qgtb_true (a b : Q) : Qgtb a b = true <-> b < a.
Proof. apply Qltb_true. Qed.

Lemma Qgtb_false (a b : Q) : Qgtb a b = false <-> a <= b.
Proof. apply Qltb_false. Qed.

Lemma Qgeb_true (a b : Q) : Qgeb a b = true <-> b <= a.
Proof. apply Qle_bool_iff. Qed.

Lemma Qgeb_false (a b : Q) : Qgeb a b = false <-> a < b.
Proof.
  unfold Qgeb. split.
  - intros Hb. apply Qnot_le_lt. intros Hle.
    apply Qle_bool_iff in Hle. congruence.
  - intros Hlt. destruct (Qle_bool b a) eqn:E; [|reflexivity].
    apply Qle_bool_iff in E. exfalso. apply (Qlt_not_le _ _ Hlt E).
Qed.

(** Rounding to the nearest integer stays between integer bounds. *)
Lemma rint_between (a b : Z) (x : Q) :
  inject_Z a <= x -> x <= inject_Z b -> (a <= rint x <= b)%Z.
Proof.
  intros Ha Hb.
  pose proof (Qfloor_le x) as Hfl.
  pose proof (Qlt_floor x) as Hfu.
  assert (Haf : (a <= Qfloor x)%Z).
  { rewrite <- (Qfloor_Z a). apply Qfloor_resp_le. exact Ha. }
  assert (Hfb : (Qfloor x <= b)%Z).
  { rewrite Zle_Qle. eapply Qle_trans; eassumption. }
  unfold rint.
  destruct (Qcompare (x - inject_Z (Qfloor x)) (1 # 2)) eqn:E.
  - apply Qeq_alt in E.
    assert (Hlt : inject_Z (Qfloor x) < inject_Z b) by lra.
    rewrite <- Zlt_Qlt in Hlt.
    destruct (Z.even (Qfloor x)); lia.
  - lia.
  - apply Qgt_alt in E.
    assert (Hlt : inject_Z (Qfloor x) < inject_Z b) by lra.
    rewrite <- Zlt_Qlt in Hlt. lia.
Qed.

Lemma pow10_pos (n : nat) : 0 < pow10 n.
Proof.
  unfold pow10. change 0 with (inject_Z 0). rewrite <- Zlt_Qlt.
  apply Z.pow_pos_nonneg; lia.
Qed.

(** [round(x, n)] stays between integer bounds. *)
Lemma Qround_between (a b : Z) (x : Q) (n : nat) :
  inject_Z a <= x -> x <= inject_Z b ->
  inject_Z a <= Qround x n /\ Qround x n <= inject_Z b.
Proof.
  intros Ha Hb. unfold Qround.
  pose proof (pow10_pos n) as Hp.
  assert (Hr : (a * 10 ^ Z.of_nat n <= rint (x * pow10 n) <= b * 10 ^ Z.of_nat n)%Z).
  { apply rint_between; rewrite inject_Z_mult; fold (pow10 n);
      apply Qmult_le_compat_r; auto using Qlt_le_weak. }
  destruct Hr as [Hr1 Hr2].
  rewrite Zle_Qle in Hr1, Hr2. rewrite inject_Z_mult in Hr1, Hr2.
  fold (pow10 n) in Hr1, Hr2.
  split.
  - apply Qle_shift_div_l; assumption.
  - apply Qle_shift_div_r; assumption.
Qed.

(** ** Too few bars *)

(** C2.  For each of the four strategies, [analyze] on a bar series
    shorter than the strategy's minimum ([max(lookback, sma_long + 10)],
    [bb_period + 10], [dc_period + 10], [lookback]) returns the
    dictionary that holds only the error message: it does not raise, and
    it does not return a result with the channel fields. *)
Theorem analyze_short_series `{External} (self : Strategy)
    (df : DataFrame) (lookback : nat) (kwargs : gmap string Q) :
  (length df < min_bars self lookback kwargs)%nat ->
  analyze self df lookback kwargs
    = Returns (ErrorResult (InsufficientBars (min_bars self lookback kwargs) (length df)))
  /\ (forall e, analyze self df lookback kwargs <> Raises e)
  /\ (forall r, analyze self df lookback kwargs <> Returns (Channel r)).
Proof.
  intros Hshort.
  assert (Hret : analyze self df lookback kwargs
    = Returns (ErrorResult (InsufficientBars (min_bars self lookback kwargs) (length df)))).
  { apply Nat.ltb_lt in Hshort.
    destruct self; simpl in *;
      [ unfold LinearRegressionStrategy_analyze
      | unfold BollingerBandStrategy_analyze
      | unfold DonchianChannelStrategy_analyze
      | unfold TrendlineStrategy_analyze ];
      cbv zeta; rewrite Hshort; reflexivity. }
  rewrite Hret. repeat split; intros; discriminate.
Qed.

Lemma analyze_short_series_witness :
  @analyze example_external (LinearRegressionStrategy 25 (1 # 2)) (rising_bars 1900 30) 60 ∅
    = Returns (ErrorResult (InsufficientBars 70 30)).
Proof.
  assert (Hshort : (length (rising_bars 1900 30)
                    < min_bars (LinearRegressionStrategy 25 (1 # 2)) 60 ∅)%nat)
    by (vm_compute; lia).
  exact (proj1 (@analyze_short_series example_external
                  (LinearRegressionStrategy 25 (1 # 2)) (rising_bars 1900 30) 60 ∅ Hshort)).
Defined.

(** ** The time-frame consensus *)

Lemma valid_results_all_channel (results : list Result) (P : ChannelResult -> Prop) :
  Forall (fun r => exists cr, r = Channel cr /\ P cr) results ->
  length (valid_results results) = length results /\ Forall P (valid_results results).
Proof.
  induction 1 as [|r rest (cr & -> & Hcr) _ [IHl IHf]]; simpl.
  - split; constructor.
  - split; [congruence | constructor; assumption].
Qed.

Lemma count_up_down (valid : list ChannelResult) :
  (count_type CHANNEL_UP valid + count_type CHANNEL_DOWN valid <= length valid)%nat.
Proof.
  unfold count_type. induction valid as [|r rest IH]; simpl; [lia|].
  destruct (channel_type r); simpl; lia.
Qed.

Lemma count_type_all (c : ChannelType) (valid : list ChannelResult) :
  Forall (fun r => channel_type r = c) valid -> count_type c valid = length valid.
Proof.
  unfold count_type. induction 1 as [|r rest Hr _ IH]; simpl; [reflexivity|].
  rewrite Hr. destruct c; simpl; rewrite IH; reflexivity.
Qed.

(** [up >= total / 2] in true division is [total <= 2 * up]. *)
Lemma half_ge (a t : nat) : Qgeb (of_int a) (of_int t / 2) = true <-> (t <= 2 * a)%nat.
Proof.
  rewrite Qgeb_true. unfold of_int, Qdiv. change (/ 2) with (1 # 2). split.
  - intros Hq.
    assert (Hz : inject_Z (Z.of_nat t) <= inject_Z (2 * Z.of_nat a)).
    { rewrite inject_Z_mult. change (inject_Z 2) with 2. lra. }
    rewrite <- Zle_Qle in Hz. lia.
  - intros Hn.
    assert (Hz : inject_Z (Z.of_nat t) <= inject_Z (2 * Z.of_nat a)).
    { rewrite <- Zle_Qle. lia. }
    rewrite inject_Z_mult in Hz. change (inject_Z 2) with 2 in Hz. lra.
Qed.

Lemma half_ge_false (a t : nat) : Qgeb (of_int a) (of_int t / 2) = false <-> (2 * a < t)%nat.
Proof.
  pose proof (half_ge a t) as Hh.
  destruct (Qgeb (of_int a) (of_int t / 2)); split; intros Hx;
    try discriminate; try reflexivity.
  - exfalso. assert (t <= 2 * a)%nat by (apply Hh; reflexivity). lia.
  - apply Nat.nle_gt. intros Hle. apply Hh in Hle. discriminate.
Qed.

(** C3.  The verdict of [_consensus].  Without a valid (non-error) result
    it is the no-valid-data label with up = down = total = 0.  Otherwise
    up and down count the Up and Down results and total the valid ones,
    and the label is: unanimous bullish iff up = total; unanimous bearish
    iff down = total; leaning bullish iff up > down, up >= total / 2 and
    up <> total; leaning bearish symmetrically; and divergent, reporting
    total - up - down as the remainder, in every other case.  When all
    strategies report Up, up = total and down = 0, and the label is
    unanimous bullish (there being at least one strategy). *)
Theorem consensus_spec (strategy_results : list Result) :
  let valid := valid_results strategy_results in
  let c := _consensus strategy_results in
  (valid = [] -> c = mkConsensus NO_VALID_DATA 0 0 0) /\
  (valid <> [] ->
     up c = count_type CHANNEL_UP valid /\
     down c = count_type CHANNEL_DOWN valid /\
     total c = length valid /\
     (label c = ALL_BULLISH (up c) (total c) <-> up c = total c) /\
     (label c = ALL_BEARISH (down c) (total c) <-> down c = total c) /\
     (label c = LEANING_BULLISH (up c) (total c) <->
        (down c < up c /\ total c <= 2 * up c /\ up c <> total c)%nat) /\
     (label c = LEANING_BEARISH (down c) (total c) <->
        (up c < down c /\ total c <= 2 * down c /\ down c <> total c)%nat) /\
     (label c = DIVERGENT (up c) (down c)
                  (Z.of_nat (total c) - Z.of_nat (up c) - Z.of_nat (down c)) <->
        (up c <> total c /\ down c <> total c /\
         ~ (down c < up c /\ total c <= 2 * up c) /\
         ~ (up c < down c /\ total c <= 2 * down c))%nat)) /\
  (Forall (fun r => exists cr, r = Channel cr /\ channel_type cr = CHANNEL_UP)
          strategy_results ->
   up c = total c /\ down c = 0%nat /\
   (strategy_results <> [] -> label c = ALL_BULLISH (up c) (total c))).
Proof.
  intros valid c.
  assert (Hmain : valid <> [] ->
     up c = count_type CHANNEL_UP valid /\
     down c = count_type CHANNEL_DOWN valid /\
     total c = length valid /\
     (label c = ALL_BULLISH (up c) (total c) <-> up c = total c) /\
     (label c = ALL_BEARISH (down c) (total c) <-> down c = total c) /\
     (label c = LEANING_BULLISH (up c) (total c) <->
        (down c < up c /\ total c <= 2 * up c /\ up c <> total c)%nat) /\
     (label c = LEANING_BEARISH (down c) (total c) <->
        (up c < down c /\ total c <= 2 * down c /\ down c <> total c)%nat) /\
     (label c = DIVERGENT (up c) (down c)
                  (Z.of_nat (total c) - Z.of_nat (up c) - Z.of_nat (down c)) <->
        (up c <> total c /\ down c <> total c /\
         ~ (down c < up c /\ total c <= 2 * up c) /\
         ~ (up c < down c /\ total c <= 2 * down c))%nat)).
  { intros Hne. subst c. unfold _consensus. fold valid.
    pose proof (count_up_down valid) as Hsum.
    assert (Hpos : (0 < length valid)%nat).
    { destruct valid; [congruence | simpl; lia]. }
    destruct valid as [|v0 vs] eqn:Ev; [congruence|]. rewrite <- Ev in *.
    set (u := count_type CHANNEL_UP valid) in *.
    set (d := count_type CHANNEL_DOWN valid) in *.
    set (t := length valid) in *.
    cbv zeta.
    destruct (u =? t)%nat eqn:E1.
    { apply Nat.eqb_eq in E1. simpl.
      repeat split; intros; try discriminate; try congruence; try lia. }
    apply Nat.eqb_neq in E1.
    destruct (d =? t)%nat eqn:E2.
    { apply Nat.eqb_eq in E2. simpl.
      repeat split; intros; try discriminate; try congruence; try lia. }
    apply Nat.eqb_neq in E2.
    destruct (d <? u)%nat eqn:E3; simpl andb.
    - apply Nat.ltb_lt in E3.
      destruct (Qgeb (of_int u) (of_int t / 2)) eqn:E4.
      + apply half_ge in E4. simpl.
        repeat split; intros; try discriminate; try congruence; try lia.
      + apply half_ge_false in E4.
        destruct (u <? d)%nat eqn:E5; [apply Nat.ltb_lt in E5; lia|].
        simpl.
        repeat split; intros; try discriminate; try congruence; try lia.
    - apply Nat.ltb_ge in E3.
      destruct (u <? d)%nat eqn:E5; simpl andb.
      + apply Nat.ltb_lt in E5.
        destruct (Qgeb (of_int d) (of_int t / 2)) eqn:E6.
        * apply half_ge in E6. simpl.
          repeat split; intros; try discriminate; try congruence; try lia.
        * apply half_ge_false in E6. simpl.
          repeat split; intros; try discriminate; try congruence; try lia.
      + apply Nat.ltb_ge in E5. simpl.
        repeat split; intros; try discriminate; try congruence; try lia. }
  split; [|split].
  - intros Hempty. subst c. unfold _consensus. fold valid. rewrite Hempty. reflexivity.
  - exact Hmain.
  - intros Hall.
    destruct (valid_results_all_channel strategy_results _ Hall) as [Hlen Hup].
    fold valid in Hlen, Hup.
    destruct strategy_results as [|r0 rest] eqn:Er.
    { repeat split; try reflexivity. congruence. }
    rewrite <- Er in *.
    assert (Hv : valid <> []).
    { intros Hv. rewrite Hv, Er in Hlen. discriminate Hlen. }
    destruct (Hmain Hv) as (Hu & Hd & Ht & Hall_b & _).
    pose proof (count_type_all CHANNEL_UP valid Hup) as Hcu.
    pose proof (count_up_down valid) as Hsum.
    assert (Hut : up c = total c) by congruence.
    repeat split; [exact Hut | lia | intros _; apply Hall_b; exact Hut].
Qed.

Lemma consensus_spec_witness :
  let rs := [example_result CHANNEL_UP; example_result CHANNEL_UP; example_result CHANNEL_UP] in
  up (_consensus rs) = total (_consensus rs) /\
  down (_consensus rs) = 0%nat /\
  label (_consensus rs) = ALL_BULLISH (up (_consensus rs)) (total (_consensus rs)).
Proof.
  intros rs.
  destruct (proj2 (proj2 (consensus_spec rs))) as (Hup & Hdown & Hlabel).
  - repeat constructor; eexists; split; reflexivity.
  - split; [exact Hup|]. split; [exact Hdown|]. apply Hlabel. discriminate.
Defined.

(** ** The multi-time-frame summary *)

Lemma filter_length_all {A : Type} (f : A -> bool) (l : list A) :
  length (List.filter f l) = length l <-> Forall (fun x => f x = true) l.
Proof.
  induction l as [|x r IH]; simpl.
  - split; [constructor | reflexivity].
  - pose proof (List.filter_length_le f r) as Hle.
    destruct (f x) eqn:E; simpl.
    + split.
      * intros Hlen. constructor; [exact E | apply IH; lia].
      * intros Hall. inversion Hall; subst. f_equal. apply IH. assumption.
    + split.
      * intros Hlen. lia.
      * intros Hall. inversion Hall; subst. congruence.
Qed.

Lemma leans_exclusive (l : list Timeframe) :
  (length (List.filter leans_bullish l) + length (List.filter leans_bearish l)
   <= length l)%nat.
Proof.
  induction l as [|tf r IH]; simpl; [lia|].
  unfold leans_bullish at 1, leans_bearish at 1.
  destruct (con_down tf <? con_up tf)%nat eqn:E1;
    destruct (con_up tf <? con_down tf)%nat eqn:E2; simpl; try lia.
  apply Nat.ltb_lt in E1. apply Nat.ltb_lt in E2. lia.
Qed.

Lemma existsb_filter {A : Type} (f g : A -> bool) (l : list A) :
  existsb f (List.filter g l) = true <->
  exists x, In x l /\ g x = true /\ f x = true.
Proof.
  rewrite existsb_exists. split.
  - intros (x & Hin & Hf). apply List.filter_In in Hin. destruct Hin as [Hin Hg].
    exists x. auto.
  - intros (x & Hin & Hg & Hf). exists x. split; [|exact Hf].
    apply List.filter_In. auto.
Qed.

Lemma valid_timeframes_fixed (timeframes : list Timeframe) :
  List.filter (fun tf => negb (tf_has_error tf)) timeframes = valid_timeframes timeframes.
Proof. reflexivity. Qed.

(** The detail list: one line per valid time-frame, then at most one
    warning; the second warning is considered only when the first conflict
    is absent. *)
Lemma generate_summary_details (timeframes : list Timeframe) :
  let valid := valid_timeframes timeframes in
  let lines :=
    List.map (fun tf => TimeframeLine (tf_name_of tf) (option_map label (tf_consensus tf)))
             valid in
  valid <> [] ->
  summary_details (_generate_summary timeframes) =
    if existsb leans_bullish (List.filter is_long_tf valid)
       && existsb leans_bearish (List.filter is_short_tf valid)
    then lines ++ [WARN_LONG_BULLISH_SHORT_BEARISH]
    else if existsb leans_bearish (List.filter is_long_tf valid)
            && existsb leans_bullish (List.filter is_short_tf valid)
    then lines ++ [WARN_LONG_BEARISH_SHORT_BULLISH]
    else lines.
Proof.
  intros valid lines Hne. subst lines. unfold _generate_summary.
  rewrite valid_timeframes_fixed. fold valid.
  destruct valid as [|v0 vs] eqn:Ev; [congruence|]. rewrite <- Ev in *.
  cbv zeta.
  destruct (existsb leans_bullish (List.filter is_long_tf valid)
            && existsb leans_bearish (List.filter is_short_tf valid)); [reflexivity|].
  destruct (existsb leans_bearish (List.filter is_long_tf valid)
            && existsb leans_bullish (List.filter is_short_tf valid)); reflexivity.
Qed.

Lemma line_not_warning (valid : list Timeframe) (w : Detail) :
  (w = WARN_LONG_BULLISH_SHORT_BEARISH \/ w = WARN_LONG_BEARISH_SHORT_BULLISH) ->
  ~ In w (List.map (fun tf => TimeframeLine (tf_name_of tf)
                                            (option_map label (tf_consensus tf))) valid).
Proof.
  intros Hw Hin. apply in_map_iff in Hin. destruct Hin as (tf & Heq & _).
  destruct Hw; subst; discriminate.
Qed.

Lemma generate_summary_conclusion (timeframes : list Timeframe) :
  let valid := valid_timeframes timeframes in
  let n_up := length (List.filter leans_bullish valid) in
  let n_down := length (List.filter leans_bearish valid) in
  valid <> [] ->
  conclusion (_generate_summary timeframes) =
    if (n_up =? length valid)%nat then STRONG_BULLISH
    else if (n_down =? length valid)%nat then STRONG_BEARISH
    else if (n_down <? n_up)%nat then OVERALL_BULLISH n_up (length valid)
    else if (n_up <? n_down)%nat then OVERALL_BEARISH n_down (length valid)
    else CONCLUSION_DIVERGENT.
Proof.
  intros valid n_up n_down Hne. subst n_up n_down. unfold _generate_summary.
  rewrite valid_timeframes_fixed. fold valid.
  destruct valid as [|v0 vs] eqn:Ev; [congruence|]. rewrite <- Ev in *.
  reflexivity.
Qed.

(** C4, as amended.  Without a non-error time-frame the conclusion is the
    insufficient-data text and the detail list is empty.  With at least
    one, a time-frame leans bullish (bearish) when its verdict counts more
    Up than Down (more Down than Up), and the conclusion is: strong
    bullish iff every non-error time-frame leans bullish; strong bearish
    iff every one leans bearish; overall bullish (bearish) iff strictly
    more lean bullish than bearish (bearish than bullish) without all
    doing so; and divergent iff equally many lean each way.  When all
    non-error time-frames lean bullish, four of them in particular, the
    conclusion is strong bullish and the detail list holds no conflict
    warning. *)
Theorem generate_summary_spec (timeframes : list Timeframe) :
  let valid := valid_timeframes timeframes in
  let s := _generate_summary timeframes in
  let n_up := length (List.filter leans_bullish valid) in
  let n_down := length (List.filter leans_bearish valid) in
  let all_bullish := Forall (fun tf => leans_bullish tf = true) valid in
  let all_bearish := Forall (fun tf => leans_bearish tf = true) valid in
  (forall tf, leans_bullish tf = true <-> (con_up tf > con_down tf)%nat) /\
  (forall tf, leans_bearish tf = true <-> (con_down tf > con_up tf)%nat) /\
  (valid = [] -> s = mkSummary CONCLUSION_NO_DATA []) /\
  (valid <> [] ->
     (conclusion s = STRONG_BULLISH <-> all_bullish) /\
     (conclusion s = STRONG_BEARISH <-> all_bearish) /\
     (conclusion s = OVERALL_BULLISH n_up (length valid) <->
        (n_down < n_up)%nat /\ ~ all_bullish) /\
     (conclusion s = OVERALL_BEARISH n_down (length valid) <->
        (n_up < n_down)%nat /\ ~ all_bearish) /\
     (conclusion s = CONCLUSION_DIVERGENT <-> n_up = n_down) /\
     (all_bullish ->
        conclusion s = STRONG_BULLISH /\
        ~ In WARN_LONG_BULLISH_SHORT_BEARISH (summary_details s) /\
        ~ In WARN_LONG_BEARISH_SHORT_BULLISH (summary_details s))).
Proof.
  intros valid s n_up n_down all_bullish all_bearish.
  split; [|split; [|split; [|]]].
  - intros tf. unfold leans_bullish. rewrite Nat.ltb_lt. lia.
  - intros tf. unfold leans_bearish. rewrite Nat.ltb_lt. lia.
  - intros Hempty. subst s. unfold _generate_summary.
    rewrite valid_timeframes_fixed. fold valid. rewrite Hempty. reflexivity.
  - intros Hne.
    pose proof (generate_summary_conclusion timeframes Hne) as Hc.
    pose proof (generate_summary_details timeframes Hne) as Hd.
    cbv zeta in Hc, Hd. fold valid n_up n_down s in Hc, Hd.
    pose proof (leans_exclusive valid) as Hex. fold n_up n_down in Hex.
    pose proof (filter_length_all leans_bullish valid) as Hab. fold n_up all_bullish in Hab.
    pose proof (filter_length_all leans_bearish valid) as Hae. fold n_down all_bearish in Hae.
    assert (Hpos : (0 < length valid)%nat).
    { destruct valid; [congruence | simpl; lia]. }
    assert (Hconc :
      (conclusion s = STRONG_BULLISH <-> all_bullish) /\
      (conclusion s = STRONG_BEARISH <-> all_bearish) /\
      (conclusion s = OVERALL_BULLISH n_up (length valid) <->
         (n_down < n_up)%nat /\ ~ all_bullish) /\
      (conclusion s = OVERALL_BEARISH n_down (length valid) <->
         (n_up < n_down)%nat /\ ~ all_bearish) /\
      (conclusion s = CONCLUSION_DIVERGENT <-> n_up = n_down)).
    { rewrite Hc. rewrite <- Hab, <- Hae.
      destruct (n_up =? length valid)%nat eqn:E1;
        [apply Nat.eqb_eq in E1 | apply Nat.eqb_neq in E1].
      { repeat split; intros; try discriminate; try congruence; try lia. }
      destruct (n_down =? length valid)%nat eqn:E2;
        [apply Nat.eqb_eq in E2 | apply Nat.eqb_neq in E2].
      { repeat split; intros; try discriminate; try congruence; try lia. }
      destruct (n_down <? n_up)%nat eqn:E3;
        [apply Nat.ltb_lt in E3 | apply Nat.ltb_ge in E3].
      { repeat split; intros; try discriminate; try congruence; try lia. }
      destruct (n_up <? n_down)%nat eqn:E4;
        [apply Nat.ltb_lt in E4 | apply Nat.ltb_ge in E4].
      { repeat split; intros; try discriminate; try congruence; try lia. }
      repeat split; intros; try discriminate; try congruence; try lia. }
    destruct Hconc as (H1 & H2 & H3 & H4 & H5).
    repeat (split; [assumption|]).
    intros Hall. split; [apply H1; exact Hall|].
    assert (Hnb : forall g, existsb leans_bearish (List.filter g valid) = false).
    { intros g. destruct (existsb leans_bearish (List.filter g valid)) eqn:E; [|reflexivity].
      apply existsb_filter in E. destruct E as (tf & Hin & _ & Hbear).
      unfold all_bullish in Hall. rewrite List.Forall_forall in Hall.
      specialize (Hall tf Hin). unfold leans_bullish in Hall. unfold leans_bearish in Hbear.
      apply Nat.ltb_lt in Hall. apply Nat.ltb_lt in Hbear. lia. }
    rewrite Hd. rewrite !Hnb. rewrite andb_false_r. simpl.
    split; apply line_not_warning; auto.
Qed.

Lemma generate_summary_spec_witness :
  let tfs := [example_timeframe "1H" [CHANNEL_UP; CHANNEL_UP; CHANNEL_SIDEWAYS; CHANNEL_DOWN];
              example_timeframe "4H" [CHANNEL_UP; CHANNEL_TRANSITION; CHANNEL_UP; CHANNEL_UP];
              example_timeframe "日线" [CHANNEL_UP; CHANNEL_UP; CHANNEL_UP; CHANNEL_UP];
              example_timeframe "周线" [CHANNEL_UP; CHANNEL_SIDEWAYS; CHANNEL_SIDEWAYS; CHANNEL_SIDEWAYS]] in
  conclusion (_generate_summary tfs) = STRONG_BULLISH /\
  ~ In WARN_LONG_BULLISH_SHORT_BEARISH (summary_details (_generate_summary tfs)) /\
  ~ In WARN_LONG_BEARISH_SHORT_BULLISH (summary_details (_generate_summary tfs)).
Proof.
  intros tfs.
  destruct (generate_summary_spec tfs) as (_ & _ & _ & Hvalid).
  assert (Hne : valid_timeframes tfs <> []) by discriminate.
  destruct (Hvalid Hne) as (_ & _ & _ & _ & _ & Hall).
  apply Hall. repeat constructor.
Defined.

(** The claim C4 as written fails when no time-frame is valid: every
    non-error time-frame (there is none) leans bullish, and the conclusion
    is the insufficient-data text, not strong bullish. *)
Lemma generate_summary_no_data_counterexample :
  let tfs := [TimeframeError "1H" "日内" "数据获取失败";
              TimeframeError "4H" "波段" "重采样后数据不足"] in
  ~ (conclusion (_generate_summary tfs) = STRONG_BULLISH <->
     Forall (fun tf => leans_bullish tf = true) (valid_timeframes tfs)).
Proof.
  intros tfs [_ Hback].
  assert (Hc : conclusion (_generate_summary tfs) = STRONG_BULLISH)
    by (apply Hback; constructor).
  discriminate Hc.
Qed.

Lemma conflict_first_iff (valid : list Timeframe) :
  existsb leans_bullish (List.filter is_long_tf valid)
  && existsb leans_bearish (List.filter is_short_tf valid) = true
  <-> long_bullish_short_bearish valid.
Proof.
  unfold long_bullish_short_bearish.
  rewrite andb_true_iff, !existsb_filter. reflexivity.
Qed.

Lemma conflict_second_iff (valid : list Timeframe) :
  existsb leans_bearish (List.filter is_long_tf valid)
  && existsb leans_bullish (List.filter is_short_tf valid) = true
  <-> long_bearish_short_bullish valid.
Proof.
  unfold long_bearish_short_bullish.
  rewrite andb_true_iff, !existsb_filter. reflexivity.
Qed.

(** C5, as amended.  If some long-horizon time-frame (日线, 周线) leans
    bullish while some short-horizon time-frame (1H, 4H) leans bearish,
    the detail list holds the large-bullish-small-pulling-back warning.
    If some long-horizon time-frame leans bearish while some
    short-horizon one leans bullish, and the first conflict is absent, the
    detail list holds the opposite warning.  When the first conflict is
    present the opposite warning is not emitted. *)
Theorem generate_summary_conflicts (timeframes : list Timeframe) :
  let valid := valid_timeframes timeframes in
  let details := summary_details (_generate_summary timeframes) in
  (long_bullish_short_bearish valid ->
     In WARN_LONG_BULLISH_SHORT_BEARISH details) /\
  (long_bearish_short_bullish valid -> ~ long_bullish_short_bearish valid ->
     In WARN_LONG_BEARISH_SHORT_BULLISH details) /\
  (long_bullish_short_bearish valid ->
     ~ In WARN_LONG_BEARISH_SHORT_BULLISH details).
Proof.
  intros valid details.
  assert (Hne1 : long_bullish_short_bearish valid -> valid <> []).
  { intros [(tf & Hin & _) _] Hempty. rewrite Hempty in Hin. contradiction. }
  assert (Hne2 : long_bearish_short_bullish valid -> valid <> []).
  { intros [(tf & Hin & _) _] Hempty. rewrite Hempty in Hin. contradiction. }
  pose proof (conflict_first_iff valid) as Hf.
  pose proof (conflict_second_iff valid) as Hs.
  split; [|split].
  - intros Hc. subst details.
    rewrite (generate_summary_details timeframes (Hne1 Hc)). fold valid.
    apply Hf in Hc. rewrite Hc. apply in_or_app. right. left. reflexivity.
  - intros Hc Hnot. subst details.
    rewrite (generate_summary_details timeframes (Hne2 Hc)). fold valid.
    destruct (existsb leans_bullish (List.filter is_long_tf valid)
              && existsb leans_bearish (List.filter is_short_tf valid)) eqn:E.
    + exfalso. apply Hnot. apply Hf. reflexivity.
    + apply Hs in Hc. rewrite Hc. apply in_or_app. right. left. reflexivity.
  - intros Hc. subst details.
    rewrite (generate_summary_details timeframes (Hne1 Hc)). fold valid.
    apply Hf in Hc. rewrite Hc. intros Hin. apply in_app_or in Hin.
    destruct Hin as [Hin | [Hin | []]]; [|discriminate Hin].
    revert Hin. apply line_not_warning. right. reflexivity.
Qed.

Lemma generate_summary_conflicts_witness :
  let tfs := [example_timeframe "1H" [CHANNEL_UP; CHANNEL_UP; CHANNEL_UP; CHANNEL_SIDEWAYS];
              TimeframeError "4H" "波段" "重采样后数据不足";
              example_timeframe "日线" [CHANNEL_DOWN; CHANNEL_DOWN; CHANNEL_UP; CHANNEL_SIDEWAYS];
              example_timeframe "周线" [CHANNEL_DOWN; CHANNEL_DOWN; CHANNEL_DOWN; CHANNEL_DOWN]] in
  In WARN_LONG_BEARISH_SHORT_BULLISH (summary_details (_generate_summary tfs)).
Proof.
  intros tfs.
  apply (proj1 (proj2 (generate_summary_conflicts tfs))).
  - split.
    + exists (example_timeframe "周线" [CHANNEL_DOWN; CHANNEL_DOWN; CHANNEL_DOWN; CHANNEL_DOWN]).
      repeat split. simpl. auto.
    + exists (example_timeframe "1H" [CHANNEL_UP; CHANNEL_UP; CHANNEL_UP; CHANNEL_SIDEWAYS]).
      repeat split. simpl. auto.
  - intros Hc. apply conflict_first_iff in Hc. discriminate Hc.
Defined.

(** The claim C5 as written fails when both conflicts are present: only
    the first warning is emitted. *)
Lemma generate_summary_both_conflicts_counterexample :
  let tfs := [example_timeframe "1H" [CHANNEL_UP; CHANNEL_UP; CHANNEL_UP; CHANNEL_SIDEWAYS];
              example_timeframe "4H" [CHANNEL_DOWN; CHANNEL_DOWN; CHANNEL_SIDEWAYS; CHANNEL_DOWN];
              example_timeframe "日线" [CHANNEL_UP; CHANNEL_UP; CHANNEL_UP; CHANNEL_UP];
              example_timeframe "周线" [CHANNEL_DOWN; CHANNEL_DOWN; CHANNEL_DOWN; CHANNEL_UP]] in
  long_bullish_short_bearish (valid_timeframes tfs) /\
  long_bearish_short_bullish (valid_timeframes tfs) /\
  ~ In WARN_LONG_BEARISH_SHORT_BULLISH (summary_details (_generate_summary tfs)).
Proof.
  intros tfs. split; [|split].
  - apply conflict_first_iff. reflexivity.
  - apply conflict_second_iff. reflexivity.
  - intros Hin. simpl in Hin.
    repeat (destruct Hin as [Hin | Hin]; [discriminate Hin|]). contradiction.
Qed.

(** ** Running [analyze] *)

Lemma last_item_app {A : Type} (l : list A) (x : A) : last_item (l ++ [x]) = Returns x.
Proof. unfold last_item. rewrite List.rev_app_distr. reflexivity. Qed.

Lemma last_item_map_seq {A : Type} (f : nat -> A) (n : nat) :
  last_item (List.map f (seq 0 (S n))) = Returns (f n).
Proof. rewrite seq_S, List.map_app. simpl. apply last_item_app. Qed.

Lemma last_item_nonempty {A : Type} (l : list A) :
  l <> [] -> exists x, last_item l = Returns x.
Proof.
  intros Hne. destruct (exists_last Hne) as (l' & x & ->).
  exists x. apply last_item_app.
Qed.

Lemma slice_tail {A : Type} (w : nat) (xs : list A) :
  (w <= length xs)%nat -> slice (length xs - w) (length xs) xs = tail w xs.
Proof.
  intros Hw. unfold slice, tail.
  apply List.firstn_all2. rewrite List.length_skipn. lia.
Qed.

Lemma tail_length {A : Type} (n : nat) (xs : list A) :
  (n <= length xs)%nat -> length (tail n xs) = n.
Proof. intros Hn. unfold tail. rewrite List.length_skipn. lia. Qed.

(** ** The position within the channel *)

(** The clamp [max(0, min(100, pct))] is a number between 0 and 100, also
    for a NaN argument. *)
Lemma clamp_range (pct : num) :
  exists c, max (Fin 0) (min (Fin 100) pct) = Fin c /\ 0 <= c /\ c <= 100.
Proof.
  destruct pct as [q|].
  - unfold min, lt. destruct (Qltb q 100) eqn:E1.
    + apply Qltb_true in E1. unfold max, gt, lt.
      destruct (Qltb 0 q) eqn:E2.
      * apply Qltb_true in E2. exists q. repeat split; lra.
      * exists 0. repeat split; lra.
    + unfold max, gt, lt. replace (Qltb 0 100) with true by reflexivity.
      exists 100. repeat split; lra.
  - exists 100. repeat split; try reflexivity; lra.
Qed.

Lemma calc_position_pct_in_range (price upper lower : num) :
  exists q, _calc_position_pct price upper lower = Fin q /\ 0 <= q /\ q <= 100.
Proof.
  unfold _calc_position_pct.
  destruct (gt (sub upper lower) (Fin 0)).
  - destruct (clamp_range (mul (div (sub price lower) (sub upper lower)) (Fin 100)))
      as (c & -> & Hc0 & Hc1).
    exists (Qround c 1). split; [reflexivity|].
    apply (Qround_between 0 100); assumption.
  - exists 50. repeat split; lra.
Qed.

Lemma calc_position_pct_flat (price upper lower : num) :
  le upper lower = true -> _calc_position_pct price upper lower = Fin 50.
Proof.
  intros Hle. unfold _calc_position_pct.
  destruct upper as [u|], lower as [l|]; simpl in Hle; try discriminate.
  apply Qle_bool_iff in Hle.
  assert (E : Qltb 0 (u - l) = false) by (apply Qltb_false; lra).
  unfold gt, lt, sub, lift2. rewrite E. reflexivity.
Qed.

Lemma analyze_position_pct `{External} (self : Strategy)
    (df : DataFrame) (lookback : nat) (kwargs : gmap string Q) (r : ChannelResult) :
  analyze self df lookback kwargs = Returns (Channel r) ->
  exists q, position_pct r = Fin q /\ 0 <= q /\ q <= 100.
Proof.
  intros Hr.
  destruct self; simpl in Hr;
    [ unfold LinearRegressionStrategy_analyze in Hr
    | unfold BollingerBandStrategy_analyze in Hr
    | unfold DonchianChannelStrategy_analyze in Hr
    | unfold TrendlineStrategy_analyze in Hr ];
    cbv zeta in Hr; run_binds Hr; subst r; cbn [position_pct];
    first [ apply calc_position_pct_in_range | exists 50; repeat split; lra ].
Qed.

(** C1.  Every call of [_calc_position_pct], for any price, upper and
    lower value (NaN included), returns a number between 0 and 100; and it
    returns 50.0 whenever the upper value is at most the lower value, that
    is, whenever the band width is zero or negative.  The [position_pct]
    of every channel result that a strategy returns lies between 0 and
    100. *)
Theorem calc_position_pct_spec (price upper lower : num) :
  (exists q, _calc_position_pct price upper lower = Fin q /\ 0 <= q /\ q <= 100) /\
  (le upper lower = true -> _calc_position_pct price upper lower = Fin 50) /\
  (forall (E : External) self df lookback kwargs r,
     analyze self df lookback kwargs = Returns (Channel r) ->
     exists q, position_pct r = Fin q /\ 0 <= q /\ q <= 100).
Proof.
  split; [|split].
  - apply calc_position_pct_in_range.
  - apply calc_position_pct_flat.
  - intros E self df lookback kwargs r. apply analyze_position_pct.
Qed.

Lemma calc_position_pct_spec_witness :
  le (Fin 1900) (Fin 1950) = true /\
  _calc_position_pct (Fin 1925) (Fin 1900) (Fin 1950) = Fin 50.
Proof.
  split.
  - reflexivity.
  - apply (proj1 (proj2 (calc_position_pct_spec (Fin 1925) (Fin 1900) (Fin 1950)))).
    reflexivity.
Defined.

(** ** The moving-average cross label *)

(** The last value of the rolling mean is the simple moving average, NaN
    when it is undefined. *)
Lemma rolling_mean_last (w : nat) (close : list Q) :
  close <> [] ->
  last_item (rolling_mean w close)
  = Returns (match sma w close with Some v => Fin v | None => NaN end).
Proof.
  intros Hne. unfold rolling_mean, sma.
  destruct (length close) as [|n] eqn:En.
  { destruct close; [congruence|discriminate]. }
  rewrite last_item_map_seq. f_equal.
  destruct w as [|w]; [reflexivity|].
  change (S w =? 0)%nat with false. change (1 <=? S w)%nat with true.
  cbv [orb andb].
  destruct (Nat.ltb_spec (n + 1) (S w)) as [E1|E1];
    destruct (Nat.leb_spec (S w) (S n)) as [E2|E2]; try lia; [reflexivity|].
  replace (n + 1 - S w)%nat with (length close - S w)%nat by lia.
  replace (n + 1)%nat with (length close) by lia.
  rewrite slice_tail by lia. reflexivity.
Qed.

Lemma calc_sma_cross_label (df : DataFrame) (short long : nat) :
  df <> [] ->
  exists s l, _calc_sma_cross df short long
              = Returns (s, l, sma_cross_label short long (List.map bar_close df)).
Proof.
  intros Hne. unfold _calc_sma_cross, sma_cross_label.
  assert (Hc : List.map bar_close df <> []) by (destruct df; [congruence|discriminate]).
  rewrite !rolling_mean_last by assumption. simpl.
  destruct (sma short (List.map bar_close df)) as [s|];
    destruct (sma long (List.map bar_close df)) as [l|]; eauto.
Qed.

Lemma regression_sma_cross `{External} (adx_threshold r2_threshold : Q)
    (df : DataFrame) (lookback : nat) (kwargs : gmap string Q) (r : ChannelResult) :
  LinearRegressionStrategy_analyze adx_threshold r2_threshold df lookback kwargs
    = Returns (Channel r) ->
  sma_cross r = sma_cross_label (kwargs_get_int kwargs "sma_short" 20)
                                (kwargs_get_int kwargs "sma_long" 60)
                                (List.map bar_close df).
Proof.
  intros Hr. unfold LinearRegressionStrategy_analyze in Hr. cbv zeta in Hr.
  run_binds Hr.
  assert (Hne : df <> []).
  { apply Nat.ltb_ge in E. intros ->. simpl in E. lia. }
  destruct (calc_sma_cross_label df (kwargs_get_int kwargs "sma_short" 20)
              (kwargs_get_int kwargs "sma_long" 60) Hne) as (sv & lv & Hsv).
  match goal with
  | Hc : _calc_sma_cross _ _ _ = Returns _ |- _ =>
      rewrite Hsv in Hc; injection Hc as <- <- <-
  end.
  subst r. reflexivity.
Qed.

(** What the other three strategies store under ["sma_cross"]. *)
Lemma bollinger_sma_cross `{External} (bb_period : nat) (bb_std : Q)
    (df : DataFrame) (lookback : nat) (kwargs : gmap string Q) (r : ChannelResult) :
  let bb := ta_BollingerBands (List.map bar_close df)
              (kwargs_get_int kwargs "bb_period" bb_period)
              (kwargs_get kwargs "bb_std" bb_std) in
  BollingerBandStrategy_analyze bb_period bb_std df lookback kwargs = Returns (Channel r) ->
  exists price middle,
    last_item (List.map bar_close df) = Returns price /\
    last_item (bollinger_mavg bb) = Returns middle /\
    (sma_cross r = "中轨上方"%string <-> exists m, middle = Fin m /\ m < price) /\
    (sma_cross r = "中轨下方"%string <-> ~ exists m, middle = Fin m /\ m < price).
Proof.
  intros bb Hr. unfold BollingerBandStrategy_analyze in Hr. cbv zeta in Hr.
  fold bb in Hr.
  run_binds Hr; subst r; cbn [sma_cross];
  (eexists _, _; split; [reflexivity|]; split; [reflexivity|]);
  match goal with
  | |- context [gt (Fin ?p) ?m] =>
      assert (Hgt : gt (Fin p) m = true <-> exists x, m = Fin x /\ x < p);
      [ destruct m as [x|]; cbn [gt lt];
        [ rewrite Qltb_true; split;
          [ intros Hx; exists x; split; [reflexivity|exact Hx]
          | intros (x' & Hx' & Hlt); injection Hx' as ->; exact Hlt ]
        | split; [discriminate | intros (x' & Hx' & _); discriminate Hx'] ]
      | destruct (gt (Fin p) m) ]
  end;
  (split; split; intros Hx;
   first [ discriminate Hx | reflexivity | apply Hgt; reflexivity
         | (intros Hy; apply Hgt in Hy; discriminate Hy)
         | (exfalso; apply Hx; apply Hgt; reflexivity)
         | (apply Hgt in Hx; discriminate Hx) ]).
Qed.

(** The proximity label of the range strategy, by the distance of the
    price to the upper bound as a fraction of the width. *)
Lemma proximity_cases (price : Q) (upper lower : num) :
  let dist_to_upper :=
    if gt (sub upper lower) (Fin 0)
    then div (sub upper (Fin price)) (sub upper lower)
    else Fin (1 # 2) in
  let proximity : string :=
    if lt dist_to_upper (Fin (1 # 10)) then "接近上轨（可能突破）"
    else if gt dist_to_upper (Fin (9 # 10)) then "接近下轨（可能跌破）"
    else "通道内部" in
  (proximity = "接近上轨（可能突破）"%string <->
     exists u l, upper = Fin u /\ lower = Fin l /\ l < u /\ (u - price) / (u - l) < 1 # 10) /\
  (proximity = "接近下轨（可能跌破）"%string <->
     exists u l, upper = Fin u /\ lower = Fin l /\ l < u /\ 9 # 10 < (u - price) / (u - l)) /\
  (proximity = "通道内部"%string <->
     forall u l, upper = Fin u -> lower = Fin l -> l < u ->
       1 # 10 <= (u - price) / (u - l) /\ (u - price) / (u - l) <= 9 # 10).
Proof.
  intros dist_to_upper proximity.
  assert (Hnan : (upper = NaN \/ lower = NaN) \/
                 exists u l, upper = Fin u /\ lower = Fin l).
  { destruct upper as [u|]; [|left; left; reflexivity].
    destruct lower as [l|]; [|left; right; reflexivity].
    right. exists u, l. split; reflexivity. }
  destruct Hnan as [Hnan | (u & l & -> & ->)].
  - assert (Hp : proximity = "通道内部"%string).
    { unfold proximity, dist_to_upper.
      destruct Hnan as [-> | ->]; [|destruct upper]; reflexivity. }
    rewrite Hp.
    repeat split; try discriminate; try reflexivity.
    + intros (u & l & Hu & Hl & _). destruct Hnan; congruence.
    + intros (u & l & Hu & Hl & _). destruct Hnan; congruence.
    + destruct Hnan; congruence.
    + destruct Hnan; congruence.
  - unfold proximity, dist_to_upper. cbn [sub lift2 gt lt div].
    destruct (Qltb 0 (u - l)) eqn:Ew;
      [apply Qltb_true in Ew | apply Qltb_false in Ew].
    + cbn [lt gt].
      destruct (Qltb ((u - price) / (u - l)) (1 # 10)) eqn:E1;
        [apply Qltb_true in E1 | apply Qltb_false in E1];
      [|destruct (Qltb (9 # 10) ((u - price) / (u - l))) eqn:E2;
        [apply Qltb_true in E2 | apply Qltb_false in E2]];
      (repeat split; try discriminate; try reflexivity;
       try (intros (u' & l' & Hu & Hl & Hw & Hd);
            injection Hu as <-; injection Hl as <-; exfalso; lra);
       try (intros _; exists u, l; repeat split; first [reflexivity | lra | assumption]);
       try (intros Hall; exfalso;
            destruct (Hall u l eq_refl eq_refl) as [Ha Hb]; [lra|lra]);
       try (intros _ u' l' Hu Hl Hw; injection Hu as <-; injection Hl as <-;
            split; assumption);
       try match goal with
           | Hu : Fin _ = Fin _, Hl : Fin _ = Fin _ |- _ =>
               injection Hu as <-; injection Hl as <-; assumption
           end).
    + assert (E1 : Qltb (1 # 2) (1 # 10) = false) by reflexivity.
      assert (E2 : Qltb (9 # 10) (1 # 2) = false) by reflexivity.
      cbn [lt gt]. rewrite E1, E2.
      repeat split; try discriminate; try reflexivity;
       try (intros (u' & l' & Hu & Hl & Hw & Hd);
            injection Hu as <-; injection Hl as <-; exfalso; lra).
      all: match goal with
           | Hu : Fin _ = Fin _, Hl : Fin _ = Fin _ |- _ =>
               injection Hu as <-; injection Hl as <-; exfalso; lra
           end.
Qed.

Lemma donchian_sma_cross `{External} (dc_period : nat)
    (df : DataFrame) (lookback : nat) (kwargs : gmap string Q) (r : ChannelResult) :
  let dc := ta_DonchianChannel (List.map bar_high df) (List.map bar_low df)
              (List.map bar_close df) (kwargs_get_int kwargs "dc_period" dc_period) in
  DonchianChannelStrategy_analyze dc_period df lookback kwargs = Returns (Channel r) ->
  exists price upper lower,
    last_item (List.map bar_close df) = Returns price /\
    last_item (donchian_channel_hband dc) = Returns upper /\
    last_item (donchian_channel_lband dc) = Returns lower /\
    (sma_cross r = "接近上轨（可能突破）"%string <->
       exists u l, upper = Fin u /\ lower = Fin l /\ l < u /\ (u - price) / (u - l) < 1 # 10) /\
    (sma_cross r = "接近下轨（可能跌破）"%string <->
       exists u l, upper = Fin u /\ lower = Fin l /\ l < u /\ 9 # 10 < (u - price) / (u - l)) /\
    (sma_cross r = "通道内部"%string <->
       forall u l, upper = Fin u -> lower = Fin l -> l < u ->
         1 # 10 <= (u - price) / (u - l) /\ (u - price) / (u - l) <= 9 # 10).
Proof.
  intros dc Hr. unfold DonchianChannelStrategy_analyze in Hr. cbv zeta in Hr.
  fold dc in Hr.
  run_binds Hr; subst r; cbn [sma_cross];
  (eexists _, _, _; split; [reflexivity|]; split; [reflexivity|]; split; [reflexivity|]);
  apply proximity_cases.
Qed.

Lemma trendline_sma_cross `{External} (pivot_window : nat)
    (df : DataFrame) (lookback : nat) (kwargs : gmap string Q) (r : ChannelResult) :
  let window := kwargs_get_int kwargs "pivot_window" pivot_window in
  let data := tail lookback df in
  TrendlineStrategy_analyze pivot_window df lookback kwargs = Returns (Channel r) ->
  exists highs lows,
    _find_pivots (List.map bar_high data) window "high" = Returns highs /\
    _find_pivots (List.map bar_low data) window "low" = Returns lows /\
    (sma_cross r = "极值点不足"%string <->
       (length (fst highs) < 3)%nat \/ (length (fst lows) < 3)%nat) /\
    ((3 <= length (fst highs))%nat -> (3 <= length (fst lows))%nat ->
     exists h_coeffs l_coeffs,
       polyfit (List.map of_int (fst highs)) (snd highs) = Returns h_coeffs /\
       polyfit (List.map of_int (fst lows)) (snd lows) = Returns l_coeffs /\
       (sma_cross r = "上升通道"%string <-> 0 < fst h_coeffs /\ 0 < fst l_coeffs) /\
       (sma_cross r = "下降通道"%string <-> fst h_coeffs < 0 /\ fst l_coeffs < 0) /\
       (sma_cross r = "收敛三角形"%string <-> fst h_coeffs < 0 /\ 0 < fst l_coeffs) /\
       (sma_cross r = "扩张形态"%string <-> 0 < fst h_coeffs /\ fst l_coeffs < 0) /\
       (sma_cross r = "不明确"%string <-> fst h_coeffs == 0 \/ fst l_coeffs == 0)).
Proof.
  intros window data Hr. unfold TrendlineStrategy_analyze in Hr. cbv zeta in Hr.
  fold window in Hr. fold data in Hr.
  run_binds Hr; subst r; cbn [sma_cross].
  - eexists (_, _), (_, _). split; [reflexivity|]. split; [reflexivity|]. cbn [fst snd].
    match goal with
    | Eb : (_ || _)%bool = true |- _ =>
        apply orb_true_iff in Eb; rewrite !Nat.ltb_lt in Eb; rename Eb into Hcount
    end.
    split; [split; [intros _; exact Hcount | reflexivity]|].
    intros Hh Hl. exfalso. lia.
  - eexists (_, _), (_, _). split; [reflexivity|]. split; [reflexivity|]. cbn [fst snd].
    match goal with
    | Eb : (_ || _)%bool = false |- _ =>
        apply orb_false_iff in Eb; rewrite !Nat.ltb_ge in Eb; rename Eb into Hcount
    end.
    split.
    { split.
      - repeat match goal with
               | |- context [if ?a && ?b then _ else _] => destruct (a && b)
               end; discriminate.
      - intros Hx. exfalso. lia. }
    intros _ _. eexists _, _. split; [eassumption|]. split; [eassumption|].
    match goal with
    | |- context [Qgtb (fst ?h) 0 && Qgtb (fst ?l) 0] =>
        destruct (Qgtb (fst h) 0) eqn:B1;
          [apply Qgtb_true in B1 | apply Qgtb_false in B1];
        (destruct (Qgtb (fst l) 0) eqn:B2;
          [apply Qgtb_true in B2 | apply Qgtb_false in B2]);
        (destruct (Qltb (fst h) 0) eqn:B3;
          [apply Qltb_true in B3 | apply Qltb_false in B3]);
        (destruct (Qltb (fst l) 0) eqn:B4;
          [apply Qltb_true in B4 | apply Qltb_false in B4])
    end;
    cbn [andb];
    try (exfalso; lra);
    (repeat split; try discriminate; try reflexivity; try lra;
     try (intros [Ha Hb]; exfalso; lra);
     try (intros [Ha | Ha]; exfalso; lra);
     try (intros _; first [left; lra | right; lra])).
Qed.

(** C8, as amended.  [_calc_sma_cross] labels a bar series bullish
    alignment if the short simple moving average of the closes exceeds the
    long one, bearish alignment otherwise, and insufficient data if either
    average is undefined.  Of the four strategies only the regression
    strategy stores that label in its result.  The volatility-band
    strategy stores "above the middle band" iff the last close exceeds
    the last value of the middle band, and "below the middle band"
    otherwise (also when the middle band is undefined).  The range
    strategy stores "near the upper bound" iff the bounds have a positive
    width and (upper - price) / (upper - lower) is below 0.1, "near the
    lower bound" iff they have a positive width and that ratio is above
    0.9, and "inside the channel" otherwise.  The pivot-trendline strategy
    stores the insufficient-pivots mark iff it found fewer than three
    pivot highs or fewer than three pivot lows, and otherwise the pattern
    of the slopes of the two fitted trendlines: ascending channel (both
    positive), descending channel (both negative), converging triangle
    (highs falling, lows rising), expanding (highs rising, lows falling),
    unclear (a slope of zero). *)
Theorem sma_cross_field `{External} (self : Strategy)
    (df : DataFrame) (lookback : nat) (kwargs : gmap string Q) :
  let short := kwargs_get_int kwargs "sma_short" 20 in
  let long := kwargs_get_int kwargs "sma_long" 60 in
  let close := List.map bar_close df in
  (df <> [] ->
   exists s l, _calc_sma_cross df short long = Returns (s, l, sma_cross_label short long close)) /\
  (forall s l, sma short close = Some s -> sma long close = Some l ->
     sma_cross_label short long close = if Qgtb s l then SMA_BULLISH else SMA_BEARISH) /\
  (sma short close = None \/ sma long close = None ->
     sma_cross_label short long close = SMA_INSUFFICIENT) /\
  (forall r, analyze self df lookback kwargs = Returns (Channel r) ->
     match self with
     | LinearRegressionStrategy _ _ => sma_cross r = sma_cross_label short long close
     | BollingerBandStrategy bb_period bb_std =>
         let bb := ta_BollingerBands close (kwargs_get_int kwargs "bb_period" bb_period)
                     (kwargs_get kwargs "bb_std" bb_std) in
         exists price middle,
           last_item close = Returns price /\
           last_item (bollinger_mavg bb) = Returns middle /\
           (sma_cross r = "中轨上方"%string <-> exists m, middle = Fin m /\ m < price) /\
           (sma_cross r = "中轨下方"%string <-> ~ exists m, middle = Fin m /\ m < price)
     | DonchianChannelStrategy dc_period =>
         let dc := ta_DonchianChannel (List.map bar_high df) (List.map bar_low df) close
                     (kwargs_get_int kwargs "dc_period" dc_period) in
         exists price upper lower,
           last_item close = Returns price /\
           last_item (donchian_channel_hband dc) = Returns upper /\
           last_item (donchian_channel_lband dc) = Returns lower /\
           (sma_cross r = "接近上轨（可能突破）"%string <->
              exists u l, upper = Fin u /\ lower = Fin l /\ l < u /\
                          (u - price) / (u - l) < 1 # 10) /\
           (sma_cross r = "接近下轨（可能跌破）"%string <->
              exists u l, upper = Fin u /\ lower = Fin l /\ l < u /\
                          9 # 10 < (u - price) / (u - l)) /\
           (sma_cross r = "通道内部"%string <->
              forall u l, upper = Fin u -> lower = Fin l -> l < u ->
                1 # 10 <= (u - price) / (u - l) /\ (u - price) / (u - l) <= 9 # 10)
     | TrendlineStrategy pivot_window =>
         let window := kwargs_get_int kwargs "pivot_window" pivot_window in
         let data := tail lookback df in
         exists highs lows,
           _find_pivots (List.map bar_high data) window "high" = Returns highs /\
           _find_pivots (List.map bar_low data) window "low" = Returns lows /\
           (sma_cross r = "极值点不足"%string <->
              (length (fst highs) < 3)%nat \/ (length (fst lows) < 3)%nat) /\
           ((3 <= length (fst highs))%nat -> (3 <= length (fst lows))%nat ->
            exists h_coeffs l_coeffs,
              polyfit (List.map of_int (fst highs)) (snd highs) = Returns h_coeffs /\
              polyfit (List.map of_int (fst lows)) (snd lows) = Returns l_coeffs /\
              (sma_cross r = "上升通道"%string <-> 0 < fst h_coeffs /\ 0 < fst l_coeffs) /\
              (sma_cross r = "下降通道"%string <-> fst h_coeffs < 0 /\ fst l_coeffs < 0) /\
              (sma_cross r = "收敛三角形"%string <-> fst h_coeffs < 0 /\ 0 < fst l_coeffs) /\
              (sma_cross r = "扩张形态"%string <-> 0 < fst h_coeffs /\ fst l_coeffs < 0) /\
              (sma_cross r = "不明确"%string <-> fst h_coeffs == 0 \/ fst l_coeffs == 0))
     end).
Proof.
  intros short long close. split; [|split; [|split]].
  - apply calc_sma_cross_label.
  - intros s l Hs Hl. unfold sma_cross_label. rewrite Hs, Hl. reflexivity.
  - intros [Hn | Hn]; unfold sma_cross_label; rewrite Hn;
      [|destruct (sma short close)]; reflexivity.
  - intros r Hr. destruct self; simpl in Hr.
    + eapply regression_sma_cross; eassumption.
    + exact (bollinger_sma_cross _ _ _ _ _ _ Hr).
    + exact (donchian_sma_cross _ _ _ _ _ Hr).
    + exact (trendline_sma_cross _ _ _ _ _ Hr).
Qed.

Lemma sma_cross_field_witness :
  exists r,
    @analyze example_external (LinearRegressionStrategy 25 (1 # 2)) (rising_bars 1900 20) 5
             {[ "sma_short" := 2; "sma_long" := 5 ]}
      = Returns (Channel r) /\
    sma_cross r = SMA_BULLISH.
Proof.
  assert (E : exists r,
    @analyze example_external (LinearRegressionStrategy 25 (1 # 2)) (rising_bars 1900 20) 5
             {[ "sma_short" := 2; "sma_long" := 5 ]}
      = Returns (Channel r)) by (vm_compute; eexists; reflexivity).
  destruct E as [r E]. exists r. split; [exact E|].
  rewrite (proj2 (proj2 (proj2 (@sma_cross_field example_external
             (LinearRegressionStrategy 25 (1 # 2)) (rising_bars 1900 20) 5
             {[ "sma_short" := 2; "sma_long" := 5 ]}))) r E).
  vm_compute. reflexivity.
Defined.

(** The claim C8 as written fails for the pivot-trendline strategy: on
    eighty rising bars the short average exceeds the long one, so the
    cross label is bullish alignment, and the result stores the
    insufficient-pivots mark under ["sma_cross"]. *)
Lemma sma_cross_trendline_counterexample :
  exists r,
    @analyze example_external (TrendlineStrategy 5) (rising_bars 1900 80) 60 ∅
      = Returns (Channel r) /\
    sma_cross_label 20 60 (List.map bar_close (rising_bars 1900 80)) = SMA_BULLISH /\
    sma_cross r = "极值点不足"%string /\
    sma_cross r <> SMA_BULLISH /\ sma_cross r <> SMA_BEARISH /\ sma_cross r <> SMA_INSUFFICIENT.
Proof.
  eexists. split; [vm_compute; reflexivity|].
  split; [vm_compute; reflexivity|].
  split; [reflexivity|].
  repeat split; discriminate.
Qed.

(** ** The strategy registry *)

Lemma ALL_STRATEGIES_dom :
  dom ALL_STRATEGIES = ({[ "regression"; "bollinger"; "donchian"; "trendline" ]} : gset string).
Proof. unfold ALL_STRATEGIES. rewrite !dom_insert_L, dom_singleton_L. set_solver. Qed.

(** A registered identifier is the [name] of the class it maps to, and
    every class can be constructed without arguments. *)
Lemma ALL_STRATEGIES_lookup (n : string) :
  match ALL_STRATEGIES !! n with
  | Some cls => n ∈ dom ALL_STRATEGIES /\ exists s, cls ∅ = Returns s /\ name s = n
  | None => n ∉ dom ALL_STRATEGIES
  end.
Proof.
  destruct (ALL_STRATEGIES !! n) as [cls|] eqn:E.
  - split; [apply elem_of_dom; eauto|].
    unfold ALL_STRATEGIES in E.
    repeat (apply lookup_insert_Some in E; destruct E as [[<- <-]|[? E]];
            [eexists; split; [vm_compute; reflexivity|reflexivity]|]).
    apply lookup_singleton_Some in E. destruct E as [<- <-].
    eexists; split; [vm_compute; reflexivity|reflexivity].
  - apply not_elem_of_dom. exact E.
Qed.

(** Without construction parameters the loop never raises: it builds one
    instance per recognised identifier, in the order requested, and
    reports every other identifier. *)
Lemma get_strategies_loop_no_kwargs (names : list string) :
  exists strategies unknown,
    get_strategies_loop names ∅ = Returns (strategies, unknown) /\
    List.map name strategies
      = filter (fun n => n ∈ dom ALL_STRATEGIES) (List.map normalise names) /\
    unknown = filter (fun n => n ∉ dom ALL_STRATEGIES) (List.map normalise names).
Proof.
  induction names as [|n rest (strategies & unknown & IH & Hs & Hu)].
  - exists [], []. repeat split.
  - simpl. fold (normalise n). rewrite IH.
    pose proof (ALL_STRATEGIES_lookup (normalise n)) as Hl.
    destruct (ALL_STRATEGIES !! normalise n) as [cls|].
    + destruct Hl as (Hin & s & Hcls & Hname). rewrite Hcls. simpl.
      exists (s :: strategies), unknown. split; [reflexivity|].
      rewrite filter_cons_True by assumption.
      rewrite filter_cons_False by (intros Hx; apply Hx; assumption).
      simpl. rewrite Hname, Hs. split; [reflexivity|assumption].
    + simpl. exists strategies, (normalise n :: unknown). split; [reflexivity|].
      rewrite filter_cons_False by assumption.
      rewrite filter_cons_True by assumption.
      split; [assumption|congruence].
Qed.

(** C9.  The registry maps exactly the identifiers regression, bollinger,
    donchian and trendline to classes.  Called without construction
    parameters, [get_strategies] does not raise: it returns one instance
    per recognised identifier and reports each unknown identifier, and
    for an omitted or empty name list it returns the four strategies with
    their defaults.  Construction parameters are passed unchanged to
    every requested class: with the four default strategies and the
    parameter [bb_period], which only the Bollinger class declares, the
    call raises [TypeError]. *)
Theorem get_strategies_spec :
  dom ALL_STRATEGIES = ({[ "regression"; "bollinger"; "donchian"; "trendline" ]} : gset string) /\
  (forall names : list string,
     exists strategies unknown,
       get_strategies (Some names) ∅ = Returns (strategies, unknown) /\
       let requested := match names with [] => DEFAULT_STRATEGY_NAMES | _ => names end in
       List.map name strategies
         = filter (fun n => n ∈ dom ALL_STRATEGIES) (List.map normalise requested) /\
       unknown = filter (fun n => n ∉ dom ALL_STRATEGIES) (List.map normalise requested)) /\
  get_strategies None ∅
    = Returns ([LinearRegressionStrategy 25 (1 # 2); BollingerBandStrategy 20 2;
                DonchianChannelStrategy 20; TrendlineStrategy 5], []) /\
  get_strategies (Some []) ∅ = get_strategies None ∅ /\
  get_strategies (Some ["bollinger"]) {[ "bb_period" := 30 ]}
    = Returns ([BollingerBandStrategy 30 2], []) /\
  get_strategies None {[ "bb_period" := 30 ]} = Raises TypeError.
Proof.
  split; [apply ALL_STRATEGIES_dom|].
  split.
  { intros names. unfold get_strategies.
    destruct names as [|n rest].
    - apply (get_strategies_loop_no_kwargs DEFAULT_STRATEGY_NAMES).
    - apply (get_strategies_loop_no_kwargs (n :: rest)). }
  repeat split; vm_compute; reflexivity.
Qed.

(** ** Pivots and the trendline strategy *)

Lemma Qmax_cases (x y : Q) : (Qmax x y = x /\ y <= x) \/ (Qmax x y = y /\ x <= y).
Proof.
  unfold Qmax, GenericMinMax.gmax.
  destruct (x ?= y) eqn:E.
  - left. split; [reflexivity|]. apply Qeq_alt in E. rewrite E. apply Qle_refl.
  - right. split; [reflexivity|]. apply Qlt_alt in E. apply Qlt_le_weak. exact E.
  - left. split; [reflexivity|]. apply Qgt_alt in E. apply Qlt_le_weak. exact E.
Qed.

Lemma Qmin_cases (x y : Q) : (Qmin x y = x /\ x <= y) \/ (Qmin x y = y /\ y <= x).
Proof.
  unfold Qmin, GenericMinMax.gmin.
  destruct (x ?= y) eqn:E.
  - left. split; [reflexivity|]. apply Qeq_alt in E. rewrite E. apply Qle_refl.
  - left. split; [reflexivity|]. apply Qlt_alt in E. apply Qlt_le_weak. exact E.
  - right. split; [reflexivity|]. apply Qgt_alt in E. apply Qlt_le_weak. exact E.
Qed.

Lemma fold_left_Qmax_spec (r : list Q) (x : Q) : is_maximum (fold_left Qmax r x) (x :: r).
Proof.
  revert x. induction r as [|y r IH]; intros x; simpl.
  - split; [left; reflexivity | constructor; [apply Qle_refl|constructor]].
  - destruct (IH (Qmax x y)) as [Hin Hall].
    inversion Hall as [|? ? Hm Hr]; subst.
    destruct (Qmax_cases x y) as [[Hq Hle]|[Hq Hle]]; rewrite Hq in *.
    + split.
      * destruct Hin as [Hin|Hin]; [left; exact Hin | right; right; exact Hin].
      * constructor; [exact Hm|]. constructor; [|exact Hr].
        eapply Qle_trans; eassumption.
    + split.
      * destruct Hin as [Hin|Hin]; [right; left; exact Hin | right; right; exact Hin].
      * constructor; [eapply Qle_trans; eassumption|]. constructor; assumption.
Qed.

Lemma fold_left_Qmin_spec (r : list Q) (x : Q) : is_minimum (fold_left Qmin r x) (x :: r).
Proof.
  revert x. induction r as [|y r IH]; intros x; simpl.
  - split; [left; reflexivity | constructor; [apply Qle_refl|constructor]].
  - destruct (IH (Qmin x y)) as [Hin Hall].
    inversion Hall as [|? ? Hm Hr]; subst.
    destruct (Qmin_cases x y) as [[Hq Hle]|[Hq Hle]]; rewrite Hq in *.
    + split.
      * destruct Hin as [Hin|Hin]; [left; exact Hin | right; right; exact Hin].
      * constructor; [exact Hm|]. constructor; [|exact Hr].
        eapply Qle_trans; eassumption.
    + split.
      * destruct Hin as [Hin|Hin]; [right; left; exact Hin | right; right; exact Hin].
      * constructor; [eapply Qle_trans; eassumption|]. constructor; assumption.
Qed.

Lemma np_max_spec (xs : list Q) :
  xs <> [] -> exists m, np_max xs = Returns m /\ is_maximum m xs.
Proof.
  destruct xs as [|x r]; [congruence|]. intros _.
  exists (fold_left Qmax r x). split; [reflexivity | apply fold_left_Qmax_spec].
Qed.

Lemma np_min_spec (xs : list Q) :
  xs <> [] -> exists m, np_min xs = Returns m /\ is_minimum m xs.
Proof.
  destruct xs as [|x r]; [congruence|]. intros _.
  exists (fold_left Qmin r x). split; [reflexivity | apply fold_left_Qmin_spec].
Qed.

Lemma slice_length {A : Type} (a b : nat) (xs : list A) :
  length (slice a b xs) = Nat.min (b - a) (length xs - a).
Proof. unfold slice. rewrite List.length_firstn, List.length_skipn. reflexivity. Qed.

Lemma nonempty_length {A : Type} (xs : list A) : (0 < length xs)%nat -> xs <> [].
Proof. destruct xs; simpl; [lia | discriminate]. Qed.

(** Inside the range of the loop both windows of a pivot test are full. *)
Lemma pivot_test_returns (values : list Q) (window : nat) (mode : string) (i : nat) :
  (1 <= window)%nat -> (window <= i)%nat -> (i + window < length values)%nat ->
  exists b, pivot_test values window mode i = Returns b.
Proof.
  intros Hw Hi Hlen. unfold pivot_test.
  assert (Hl : slice (i - window) i values <> []).
  { apply nonempty_length. rewrite slice_length. lia. }
  assert (Hr : slice (i + 1) (i + window + 1) values <> []).
  { apply nonempty_length. rewrite slice_length. lia. }
  destruct (np_max_spec _ Hl) as (ml & Hml & _).
  destruct (np_max_spec _ Hr) as (mr & Hmr & _).
  destruct (np_min_spec _ Hl) as (nl & Hnl & _).
  destruct (np_min_spec _ Hr) as (nr & Hnr & _).
  rewrite Hml, Hmr, Hnl, Hnr. simpl.
  destruct (String.eqb mode "high");
    [destruct (Qgeb (nth i values 0) ml) | destruct (Qle_bool (nth i values 0) nl)];
    eauto.
Qed.

Lemma slice_head {A : Type} (a b : nat) (xs : list A) (d : A) :
  (a < b)%nat -> (a < length xs)%nat ->
  exists rest, slice a b xs = nth a xs d :: rest.
Proof.
  intros Hab Hlen. unfold slice.
  destruct (skipn a xs) as [|y ys] eqn:E.
  - assert (Hl : length (skipn a xs) = 0%nat) by (rewrite E; reflexivity).
    rewrite List.length_skipn in Hl. lia.
  - destruct (b - a)%nat as [|k] eqn:Ek; [lia|].
    simpl. exists (firstn k ys). f_equal.
    rewrite <- (List.firstn_skipn a xs) at 1.
    rewrite List.app_nth2; rewrite List.length_firstn; [|lia].
    replace (a - Nat.min a (length xs))%nat with 0%nat by lia.
    rewrite E. reflexivity.
Qed.

(** On a strictly increasing series no bar is a pivot high: the bar to
    its right is higher. *)
Lemma pivot_test_increasing (values : list Q) (window : nat) (i : nat) :
  strictly_increasing values ->
  (1 <= window)%nat -> (window <= i)%nat -> (i + window < length values)%nat ->
  pivot_test values window "high" i = Returns false.
Proof.
  intros Hinc Hw Hi Hlen. unfold pivot_test.
  assert (Hl : slice (i - window) i values <> []).
  { apply nonempty_length. rewrite slice_length. lia. }
  destruct (np_max_spec _ Hl) as (ml & Hml & _).
  destruct (slice_head (i + 1) (i + window + 1) values 0) as (rest & Hrest); [lia|lia|].
  change (String.eqb "high" "high") with true. cbv iota.
  rewrite Hml. simpl bind.
  destruct (Qgeb (nth i values 0) ml); [|reflexivity].
  rewrite Hrest. simpl. f_equal.
  apply Qgeb_false.
  destruct (fold_left_Qmax_spec rest (nth (i + 1) values 0)) as [_ Hall].
  inversion Hall as [|? ? Hm _]; subst.
  eapply Qlt_le_trans; [|exact Hm].
  replace (i + 1)%nat with (S i) by lia. apply Hinc. lia.
Qed.

Lemma find_pivots_loop_returns (values : list Q) (window : nat) (mode : string)
    (range : list nat) :
  (1 <= window)%nat ->
  Forall (fun i => (window <= i)%nat /\ (i + window < length values)%nat) range ->
  exists p, find_pivots_loop values window mode range = Returns p.
Proof.
  intros Hw. induction 1 as [|i rest [Hi Hlen] _ [p IH]]; simpl.
  - eauto.
  - destruct (pivot_test_returns values window mode i Hw Hi Hlen) as [b Hb].
    rewrite Hb, IH. simpl. eauto.
Qed.

Lemma find_pivots_loop_increasing (values : list Q) (window : nat) (range : list nat) :
  strictly_increasing values -> (1 <= window)%nat ->
  Forall (fun i => (window <= i)%nat /\ (i + window < length values)%nat) range ->
  find_pivots_loop values window "high" range = Returns ([], []).
Proof.
  intros Hinc Hw. induction 1 as [|i rest [Hi Hlen] _ IH]; simpl.
  - reflexivity.
  - rewrite (pivot_test_increasing values window i Hinc Hw Hi Hlen), IH. reflexivity.
Qed.

Lemma pivot_range (n window : nat) :
  Forall (fun i => (window <= i)%nat /\ (i + window < n)%nat)
         (seq window (n - window - window)).
Proof.
  apply List.Forall_forall. intros i Hin. apply in_seq in Hin. lia.
Qed.

Lemma find_pivots_returns (values : list Q) (window : nat) (mode : string) :
  (1 <= window)%nat -> exists p, _find_pivots values window mode = Returns p.
Proof.
  intros Hw. apply find_pivots_loop_returns; [exact Hw | apply pivot_range].
Qed.

Lemma find_pivots_increasing (values : list Q) (window : nat) :
  strictly_increasing values -> (1 <= window)%nat ->
  _find_pivots values window "high" = Returns ([], []).
Proof.
  intros Hinc Hw. apply find_pivots_loop_increasing; [exact Hinc | exact Hw | apply pivot_range].
Qed.

Lemma map_nonempty {A B : Type} (f : A -> B) (xs : list A) : xs <> [] -> List.map f xs <> [].
Proof. destruct xs; [congruence | discriminate]. Qed.


(** C7, as amended.  For a look-back of at least one bar and a series of
    at least that many bars: when the look-back tail yields fewer than
    three pivot highs or fewer than three pivot lows under the symmetric
    window test, and in particular when its highs are strictly increasing
    and the pivot window is at least one bar, [analyze] of the
    pivot-trendline strategy returns channel type Sideways, the maximum
    high and the minimum low of the tail, each rounded to two decimals,
    as upper and lower band, position 50.0, and the insufficient-pivots
    note in the details. *)
Theorem trendline_insufficient_pivots `{External} (pivot_window : nat)
    (df : DataFrame) (lookback : nat) (kwargs : gmap string Q) :
  let window := kwargs_get_int kwargs "pivot_window" pivot_window in
  let data := tail lookback df in
  let high := List.map bar_high data in
  let low := List.map bar_low data in
  (1 <= lookback)%nat -> (lookback <= length df)%nat ->
  (exists highs lows,
      _find_pivots high window "high" = Returns highs /\
      _find_pivots low window "low" = Returns lows /\
      (length (fst highs) < 3 \/ length (fst lows) < 3)%nat)
  \/ (strictly_increasing high /\ (1 <= window)%nat) ->
  exists r hmax lmin,
    TrendlineStrategy_analyze pivot_window df lookback kwargs = Returns (Channel r) /\
    is_maximum hmax high /\ is_minimum lmin low /\
    channel_type r = CHANNEL_SIDEWAYS /\
    upper_band r = Fin (Qround hmax 2) /\
    lower_band r = Fin (Qround lmin 2) /\
    position_pct r = Fin 50 /\
    In ("note"%string, DStr NOTE_INSUFFICIENT_PIVOTS) (details r).
Proof.
  intros window data high low Hlb Hlen Hpiv.
  assert (Hfew : exists highs lows,
      _find_pivots high window "high" = Returns highs /\
      _find_pivots low window "low" = Returns lows /\
      (length (fst highs) < 3 \/ length (fst lows) < 3)%nat).
  { destruct Hpiv as [Hpiv | [Hinc Hw]]; [exact Hpiv|].
    destruct (find_pivots_returns low window "low" Hw) as [lows Hlows].
    exists ([], []), lows. rewrite (find_pivots_increasing high window Hinc Hw).
    repeat split; [exact Hlows | left; simpl; lia]. }
  destruct Hfew as ([hi_idx hi_val] & [lo_idx lo_val] & Hhi & Hlo & Hcount).
  simpl in Hcount.
  assert (Hdata : data <> []).
  { apply nonempty_length. unfold data. rewrite tail_length by assumption. lia. }
  destruct (last_item_nonempty (List.map bar_close data) (map_nonempty _ _ Hdata)) as [cp Hcp].
  destruct (np_max_spec high (map_nonempty _ _ Hdata)) as (hmax & Hhmax & Hmax).
  destruct (np_min_spec low (map_nonempty _ _ Hdata)) as (lmin & Hlmin & Hmin).
  unfold TrendlineStrategy_analyze. cbv zeta.
  fold window. fold data. fold high. fold low.
  replace (length df <? lookback)%nat with false by (symmetry; apply Nat.ltb_ge; exact Hlen).
  rewrite Hhi, Hlo, Hcp. simpl bind.
  replace ((length hi_idx <? 3) || (length lo_idx <? 3))%nat with true.
  2:{ symmetry. apply orb_true_iff.
      destruct Hcount; [left | right]; apply Nat.ltb_lt; assumption. }
  rewrite Hhmax, Hlmin. simpl bind.
  eexists _, hmax, lmin. split; [reflexivity|].
  repeat split; try assumption; try (apply Hmax); try (apply Hmin).
  simpl. auto.
Qed.

Lemma trendline_insufficient_pivots_witness :
  exists r,
    @analyze example_external (TrendlineStrategy 5) (rising_bars 1900 80) 60 ∅
      = Returns (Channel r) /\
    channel_type r = CHANNEL_SIDEWAYS /\
    position_pct r = Fin 50 /\
    In ("note"%string, DStr NOTE_INSUFFICIENT_PIVOTS) (details r).
Proof.
  destruct (@trendline_insufficient_pivots example_external 5 (rising_bars 1900 80) 60 ∅)
    as (r & hmax & lmin & Hr & _ & _ & Htype & _ & _ & Hpos & Hnote).
  - lia.
  - vm_compute. lia.
  - left. exists ([], []), ([], []).
    split; [vm_compute; reflexivity|].
    split; [vm_compute; reflexivity|].
    left. simpl. lia.
  - exists r. repeat split; assumption.
Defined.

(** The claim C7 as written fails in two ways.  The bounds are rounded:
    on three rising bars whose highest high is 3.004 the upper band is
    3.0.  And a look-back of zero bars leaves no close to read: the call
    raises [IndexError]. *)
Lemma trendline_bounds_counterexample :
  (exists r q,
     @analyze example_external (TrendlineStrategy 5) fine_bars 3 ∅ = Returns (Channel r) /\
     is_maximum (3004 # 1000) (List.map bar_high (tail 3 fine_bars)) /\
     strictly_increasing (List.map bar_high (tail 3 fine_bars)) /\
     upper_band r = Fin q /\ ~ q == 3004 # 1000) /\
  @analyze example_external (TrendlineStrategy 5) (rising_bars 1900 10) 0 ∅
    = Raises IndexError.
Proof.
  split.
  - eexists _, _. split; [vm_compute; reflexivity|].
    split; [|split; [|split; [reflexivity|]]].
    + split; [simpl; auto|].
      repeat constructor; unfold Qle; simpl; lia.
    + intros i Hi. simpl in Hi.
      destruct i as [|[|i]]; [reflexivity | reflexivity | lia].
    + intros Heq. vm_compute in Heq. discriminate Heq.
  - vm_compute. reflexivity.
Qed.

(** ** The regression strategy *)

Lemma Qsum_app (l1 l2 : list Q) : Qsum (l1 ++ l2) == Qsum l1 + Qsum l2.
Proof.
  induction l1 as [|x r IH]; simpl.
  - ring.
  - rewrite IH. ring.
Qed.

Lemma zip_with_app {A B C : Type} (f : A -> B -> C) (l1 l1' : list A) (l2 l2' : list B) :
  length l1 = length l2 ->
  zip_with f (l1 ++ l1') (l2 ++ l2') = zip_with f l1 l2 ++ zip_with f l1' l2'.
Proof.
  revert l2. induction l1 as [|x r IH]; intros [|y s] Hlen; simpl in *; try discriminate.
  - reflexivity.
  - f_equal. apply IH. congruence.
Qed.

Lemma arange_S (n : nat) : arange (S n) = arange n ++ [of_int n].
Proof. unfold arange. rewrite seq_S, List.map_app. reflexivity. Qed.

Lemma arange_length (n : nat) : length (arange n) = n.
Proof. unfold arange. rewrite List.length_map, List.length_seq. reflexivity. Qed.

Lemma of_int_S (n : nat) : of_int (S n) == of_int n + 1.
Proof.
  unfold of_int. rewrite Nat2Z.inj_succ. unfold Z.succ.
  rewrite inject_Z_plus. reflexivity.
Qed.

(** Sum of 0 .. n-1 and of their squares. *)
Lemma arange_sum (n : nat) : 2 * Qsum (arange n) == of_int n * (of_int n - 1).
Proof.
  induction n as [|n IH].
  - reflexivity.
  - rewrite arange_S, Qsum_app, of_int_S. simpl Qsum.
    setoid_replace (2 * (Qsum (arange n) + (of_int n + 0)))
      with (2 * Qsum (arange n) + 2 * of_int n) using relation Qeq by ring.
    rewrite IH. ring.
Qed.

Lemma arange_sum_sq (n : nat) :
  6 * Qsum (zip_with Qmult (arange n) (arange n))
  == (of_int n - 1) * of_int n * (2 * of_int n - 1).
Proof.
  induction n as [|n IH].
  - reflexivity.
  - rewrite arange_S, zip_with_app by reflexivity. rewrite Qsum_app, of_int_S. simpl Qsum.
    setoid_replace (6 * (Qsum (zip_with Qmult (arange n) (arange n)) + (of_int n * of_int n + 0)))
      with (6 * Qsum (zip_with Qmult (arange n) (arange n)) + 6 * (of_int n * of_int n)) using relation Qeq by ring.
    rewrite IH. ring.
Qed.

Lemma det_closed (n : nat) :
  12 * det n == of_int n * of_int n * (of_int n - 1) * (of_int n + 1).
Proof.
  unfold det, Qlen. rewrite arange_length. fold (of_int n).
  pose proof (arange_sum n) as H1. pose proof (arange_sum_sq n) as H2.
  set (s1 := Qsum (arange n)) in *.
  set (s2 := Qsum (zip_with Qmult (arange n) (arange n))) in *.
  set (m := of_int n) in *.
  setoid_replace (12 * (m * s2 - s1 * s1))
    with (2 * m * (6 * s2) - 3 * ((2 * s1) * (2 * s1))) using relation Qeq by ring.
  rewrite H1, H2. ring.
Qed.

Lemma of_int_ge (n k : nat) : (k <= n)%nat -> of_int k <= of_int n.
Proof. intros Hk. unfold of_int. rewrite <- Zle_Qle. lia. Qed.

Lemma det_pos (n : nat) : (2 <= n)%nat -> 0 < det n.
Proof.
  intros Hn. pose proof (det_closed n) as Hd.
  pose proof (of_int_ge n 2 Hn) as Hge. change (of_int 2) with 2 in Hge.
  assert (Hp : 0 < of_int n * of_int n * (of_int n - 1) * (of_int n + 1)).
  { repeat apply Qmult_lt_0_compat; lra. }
  rewrite <- Hd in Hp. lra.
Qed.

Lemma Qlen_cons {A : Type} (x : A) (r : list A) : Qlen (x :: r) == Qlen r + 1.
Proof.
  unfold Qlen. simpl length. rewrite Nat2Z.inj_succ. unfold Z.succ.
  rewrite inject_Z_plus. reflexivity.
Qed.

Section Line.
Variables a b : Q.




End Line.

Lemma Qsq_nonneg (x : Q) : 0 <= x * x.
Proof.
  destruct (Qlt_le_dec x 0) as [Hneg|Hpos].
  - setoid_replace (x * x) with ((- x) * (- x)) using relation Qeq by ring.
    apply Qmult_le_0_compat; lra.
  - apply Qmult_le_0_compat; assumption.
Qed.

Lemma Qsq_pos (x : Q) : ~ x == 0 -> 0 < x * x.
Proof.
  intros Hne. destruct (Qlt_le_dec x 0) as [Hneg|Hpos].
  - setoid_replace (x * x) with ((- x) * (- x)) using relation Qeq by ring.
    apply Qmult_lt_0_compat; lra.
  - assert (Hlt : 0 < x).
    { apply Qle_lteq in Hpos. destruct Hpos as [Hlt|Heq]; [exact Hlt|].
      exfalso. apply Hne. symmetry. exact Heq. }
    apply Qmult_lt_0_compat; assumption.
Qed.

Lemma Qsum_nonneg (xs : list Q) : Forall (fun x => 0 <= x) xs -> 0 <= Qsum xs.
Proof.
  induction 1 as [|x r Hx _ IH]; simpl; lra.
Qed.

Lemma squares_nonneg (m : Q) (xs : list Q) :
  Forall (fun x => 0 <= x) (List.map (fun c => (c - m) * (c - m)) xs).
Proof.
  induction xs as [|x r IH]; simpl; [constructor|].
  constructor; [apply Qsq_nonneg | exact IH].
Qed.

(** Two distinct values have a positive sum of squared deviations from
    any centre. *)
Lemma ss_tot_pos (m : Q) (ys : list Q) :
  (2 <= length ys)%nat -> nth 0 ys 0 < nth 1 ys 0 ->
  0 < Qsum (List.map (fun c => (c - m) * (c - m)) ys).
Proof.
  destruct ys as [|y0 [|y1 r]]; simpl; try lia. intros _ Hlt.
  pose proof (Qsum_nonneg _ (squares_nonneg m r)) as Hr.
  pose proof (Qsq_nonneg (y0 - m)) as H0. pose proof (Qsq_nonneg (y1 - m)) as H1.
  destruct (Qeq_dec (y0 - m) 0) as [Heq|Hne].
  - assert (Hp : 0 < (y1 - m) * (y1 - m)) by (apply Qsq_pos; lra). lra.
  - assert (Hp : 0 < (y0 - m) * (y0 - m)) by (apply Qsq_pos; exact Hne). lra.
Qed.

Lemma polyfit_arange `{External} (ys : list Q) :
  (2 <= length ys)%nat ->
  polyfit (arange (length ys)) ys = Returns (np_polyfit (arange (length ys)) ys).
Proof.
  intros Hn. unfold polyfit. rewrite arange_length.
  destruct (Nat.eqb_spec (length ys) 0) as [E|_]; [lia|].
  rewrite Nat.eqb_refl. cbv [negb].
  fold (det (length ys)).
  destruct (Qeq_bool (det (length ys)) 0) eqn:E; [|reflexivity].
  apply Qeq_bool_iff in E. pose proof (det_pos (length ys) Hn). lra.
Qed.

Lemma polyfit_arange_inv `{External} (ys : list Q) (c : Q * Q) :
  polyfit (arange (length ys)) ys = Returns c -> (2 <= length ys)%nat.
Proof.
  destruct ys as [|y0 [|y1 r]]; simpl length; intros Hp.
  - discriminate Hp.
  - vm_compute in Hp. discriminate Hp.
  - lia.
Qed.





(** With a look-back of at least two bars and enough bars, the regression
    strategy returns a channel result. *)
Lemma regression_returns `{External} (adx_threshold r2_threshold : Q)
    (df : DataFrame) (lookback : nat) (kwargs : gmap string Q) :
  (2 <= lookback)%nat ->
  (Nat.max lookback (kwargs_get_int kwargs "sma_long" 60 + 10) <= length df)%nat ->
  exists r, LinearRegressionStrategy_analyze adx_threshold r2_threshold df lookback kwargs
            = Returns (Channel r).
Proof.
  intros Hlb Hlen. unfold LinearRegressionStrategy_analyze. cbv zeta.
  replace (length df <? Nat.max lookback (kwargs_get_int kwargs "sma_long" 60 + 10))%nat
    with false by (symmetry; apply Nat.ltb_ge; exact Hlen).
  set (close := List.map bar_close (tail lookback df)).
  assert (Hn : length close = lookback).
  { unfold close. rewrite List.length_map. apply tail_length. lia. }
  assert (Hn2 : (2 <= length close)%nat) by lia.
  rewrite (polyfit_arange close Hn2). simpl bind.
  match goal with |- context [last_item (List.map ?f (arange (length close)))] =>
    destruct (last_item_nonempty (List.map f (arange (length close)))) as [center Hcenter]
  end.
  { apply nonempty_length. rewrite List.length_map, arange_length. lia. }
  rewrite Hcenter. simpl bind.
  assert (Hdf : df <> []) by (apply nonempty_length; lia).
  destruct (calc_sma_cross_label df (kwargs_get_int kwargs "sma_short" 20)
              (kwargs_get_int kwargs "sma_long" 60) Hdf) as (sv & lv & Hsma).
  rewrite Hsma. simpl bind.
  destruct (last_item_nonempty close) as [price Hprice].
  { apply nonempty_length. lia. }
  rewrite Hprice. simpl bind. eexists. reflexivity.
Qed.

(** With a look-back of fewer than two bars there is no line to fit: on a
    series that passes the length test the fit of an empty window raises
    [TypeError] and the fit of a single bar [LinAlgError]. *)
Lemma regression_raises `{External} (adx_threshold r2_threshold : Q)
    (df : DataFrame) (lookback : nat) (kwargs : gmap string Q) :
  (lookback < 2)%nat ->
  (Nat.max lookback (kwargs_get_int kwargs "sma_long" 60 + 10) <= length df)%nat ->
  LinearRegressionStrategy_analyze adx_threshold r2_threshold df lookback kwargs
  = Raises (if (lookback =? 0)%nat then TypeError else LinAlgError).
Proof.
  intros Hlb Hlen. unfold LinearRegressionStrategy_analyze. cbv zeta.
  destruct (Nat.ltb_spec (length df)
              (Nat.max lookback (kwargs_get_int kwargs "sma_long" 60 + 10))) as [Hlt|_]; [lia|].
  assert (Hn : length (List.map bar_close (tail lookback df)) = lookback).
  { rewrite List.length_map. apply tail_length. lia. }
  destruct (List.map bar_close (tail lookback df)) as [|c0 [|c1 rest]];
    simpl in Hn; subst lookback; try lia; reflexivity.
Qed.





(** ** Resampling *)

Lemma Qsum_cons (x : Q) (l : list Q) : Qsum (x :: l) = x + Qsum l.
Proof. reflexivity. Qed.

Section Bins.
Variables (origin rule : Z) (df : DataFrame).

(** An aggregated row survives [dropna] exactly when its bin holds a bar. *)
Lemma dropna_rows_cons_empty (b : Z) (rest : list AggRow) :
  bin_rows origin rule df b = [] ->
  dropna_rows (agg origin rule b df :: rest) = dropna_rows rest.
Proof.
  intros Hempty. simpl. unfold agg. fold (bin_rows origin rule df b). rewrite Hempty. reflexivity.
Qed.

Lemma dropna_rows_cons_full (b : Z) (rest : list AggRow) :
  bin_rows origin rule df b <> [] ->
  exists row,
    dropna_rows (agg origin rule b df :: rest) = row :: dropna_rows rest /\
    bar_time row = (origin + b * rule)%Z /\
    hd_error (List.map bar_open (bin_rows origin rule df b)) = Some (bar_open row) /\
    np_max (List.map bar_high (bin_rows origin rule df b)) = Returns (bar_high row) /\
    np_min (List.map bar_low (bin_rows origin rule df b)) = Returns (bar_low row) /\
    last_item (List.map bar_close (bin_rows origin rule df b)) = Returns (bar_close row) /\
    bar_volume row = Qsum (List.map bar_volume (bin_rows origin rule df b)).
Proof.
  intros Hfull. simpl. unfold agg. fold (bin_rows origin rule df b). cbn [agg_open agg_high agg_low agg_close agg_time agg_volume].
  destruct (bin_rows origin rule df b) as [|r0 rs] eqn:E; [congruence|].
  unfold last_num, last_item.
  destruct (List.rev (List.map bar_close (r0 :: rs))) as [|c cs] eqn:Erev.
  { apply (f_equal (@length Q)) in Erev. rewrite List.length_rev in Erev. discriminate Erev. }
  simpl. eexists. split; [reflexivity|]. simpl. repeat split.
Qed.

(** Every resampled row aggregates the bars of a non-empty bin. *)
Lemma agg_bins_rows (bins : list Z) (row : Bar) :
  In row (agg_bins origin rule df bins) ->
  exists b, In b bins /\ bin_rows origin rule df b <> [] /\
    bar_time row = (origin + b * rule)%Z /\
    hd_error (List.map bar_open (bin_rows origin rule df b)) = Some (bar_open row) /\
    np_max (List.map bar_high (bin_rows origin rule df b)) = Returns (bar_high row) /\
    np_min (List.map bar_low (bin_rows origin rule df b)) = Returns (bar_low row) /\
    last_item (List.map bar_close (bin_rows origin rule df b)) = Returns (bar_close row) /\
    bar_volume row = Qsum (List.map bar_volume (bin_rows origin rule df b)).
Proof.
  unfold agg_bins. induction bins as [|b bins IH]; intros Hin.
  - contradiction.
  - cbn [List.map] in Hin.
    destruct (bin_rows origin rule df b) as [|r0 rs] eqn:E.
    + rewrite (dropna_rows_cons_empty b _ E) in Hin.
      destruct (IH Hin) as (b' & Hb' & Hrest). exists b'. split; [right; exact Hb'|exact Hrest].
    + assert (Hfull : bin_rows origin rule df b <> []) by (rewrite E; discriminate).
      destruct (dropna_rows_cons_full b (List.map (fun b => agg origin rule b df) bins) Hfull)
        as (row' & Heq & Hfields).
      rewrite Heq in Hin. destruct Hin as [<- | Hin].
      * exists b. split; [left; reflexivity|]. split; [exact Hfull|]. exact Hfields.
      * destruct (IH Hin) as (b' & Hb' & Hrest).
        exists b'. split; [right; exact Hb'|exact Hrest].
Qed.

(** Every non-empty bin has its row. *)
Lemma agg_bins_complete (bins : list Z) (b : Z) :
  In b bins -> bin_rows origin rule df b <> [] ->
  exists row, In row (agg_bins origin rule df bins) /\
    np_max (List.map bar_high (bin_rows origin rule df b)) = Returns (bar_high row) /\
    np_min (List.map bar_low (bin_rows origin rule df b)) = Returns (bar_low row).
Proof.
  unfold agg_bins. induction bins as [|b' bins IH]; intros Hin Hfull.
  - contradiction.
  - cbn [List.map].
    assert (Hstep : forall row, In row (dropna_rows (List.map (fun b => agg origin rule b df) bins)) ->
                    In row (dropna_rows (agg origin rule b' df
                                         :: List.map (fun b => agg origin rule b df) bins))).
    { intros row Hrow. destruct (bin_rows origin rule df b') as [|r0 rs] eqn:E.
      - rewrite (dropna_rows_cons_empty b' _ E). exact Hrow.
      - assert (Hf : bin_rows origin rule df b' <> []) by (rewrite E; discriminate).
        destruct (dropna_rows_cons_full b' (List.map (fun b => agg origin rule b df) bins) Hf)
          as (row' & Heq & _).
        rewrite Heq. right. exact Hrow. }
    destruct Hin as [-> | Hin].
    + destruct (dropna_rows_cons_full b (List.map (fun b => agg origin rule b df) bins) Hfull)
        as (row & Heq & _ & _ & Hmax & Hmin & _).
      exists row. rewrite Heq. split; [left; reflexivity|]. split; assumption.
    + destruct (IH Hin Hfull) as (row & Hrow & Hm).
      exists row. split; [apply Hstep; exact Hrow | exact Hm].
Qed.

(** The volume column of the result sums the volumes of all bins. *)
Lemma agg_bins_volume (bins : list Z) :
  Qsum (List.map bar_volume (agg_bins origin rule df bins))
  == Qsum (List.map (fun b => Qsum (List.map bar_volume (bin_rows origin rule df b))) bins).
Proof.
  unfold agg_bins. induction bins as [|b bins IH]; [reflexivity|].
  cbn [List.map]. rewrite Qsum_cons.
  destruct (bin_rows origin rule df b) as [|r0 rs] eqn:E.
  - rewrite (dropna_rows_cons_empty b _ E). rewrite IH. simpl. ring.
  - assert (Hfull : bin_rows origin rule df b <> []) by (rewrite E; discriminate).
    destruct (dropna_rows_cons_full b (List.map (fun b => agg origin rule b df) bins) Hfull)
      as (row & Heq & _ & _ & _ & _ & _ & Hvol).
    rewrite Heq. cbn [List.map]. rewrite Qsum_cons, Hvol, IH, E. reflexivity.
Qed.
End Bins.

Lemma Qsum_map_ext {A : Type} (g h : A -> Q) (l : list A) :
  (forall x, g x == h x) -> Qsum (List.map g l) == Qsum (List.map h l).
Proof.
  intros Hgh. induction l as [|x r IH]; [reflexivity|].
  cbn [List.map]. rewrite !Qsum_cons, IH, Hgh. reflexivity.
Qed.

Lemma Qsum_map_plus {A : Type} (g h : A -> Q) (l : list A) :
  Qsum (List.map (fun x => g x + h x) l) == Qsum (List.map g l) + Qsum (List.map h l).
Proof.
  induction l as [|x r IH]; [reflexivity|].
  cbn [List.map]. rewrite !Qsum_cons, IH. ring.
Qed.

(** Among distinct bins a value is counted once, in its own bin. *)
Lemma Qsum_indicator (k : Z) (v : Q) (bins : list Z) :
  List.NoDup bins -> In k bins ->
  Qsum (List.map (fun b => if (k =? b)%Z then v else 0) bins) == v.
Proof.
  induction 1 as [|b bins Hnotin Hnd IH]; intros Hin; [contradiction|].
  cbn [List.map]. rewrite Qsum_cons.
  destruct (Z.eqb_spec k b) as [Heq|Hne].
  - assert (Hzero : Qsum (List.map (fun b => if (k =? b)%Z then v else 0) bins) == 0).
    { clear IH Hnd Hin. subst b. induction bins as [|b' bins IHb]; [reflexivity|].
      cbn [List.map]. rewrite Qsum_cons.
      destruct (Z.eqb_spec k b') as [->|_]; [exfalso; apply Hnotin; left; reflexivity|].
      rewrite IHb; [ring|]. intros Hx. apply Hnotin. right. exact Hx. }
    rewrite Hzero. ring.
  - destruct Hin as [Hin|Hin]; [congruence|]. rewrite (IH Hin). ring.
Qed.

(** Summing a column bin by bin gives the sum of the column, when every
    bar falls into one of the (distinct) bins. *)
Lemma sum_by_bins (f : Bar -> Q) (key : Bar -> Z) (bins : list Z) (df : DataFrame) :
  List.NoDup bins -> Forall (fun r => In (key r) bins) df ->
  Qsum (List.map (fun b => Qsum (List.map f (List.filter (fun r => (key r =? b)%Z) df))) bins)
  == Qsum (List.map f df).
Proof.
  intros Hnd Hcover. induction Hcover as [|r rest Hr _ IH].
  - simpl. clear Hnd. induction bins as [|b bins IHb]; simpl; [reflexivity|].
    rewrite IHb. ring.
  - cbn [List.map]. rewrite Qsum_cons, <- IH.
    transitivity
      (Qsum (List.map
               (fun b => (if (key r =? b)%Z then f r else 0)
                         + Qsum (List.map f (List.filter (fun x => (key x =? b)%Z) rest)))
               bins)).
    + apply Qsum_map_ext. intros b.
      cbn [List.filter]. destruct (key r =? b)%Z; [reflexivity | ring].
    + rewrite Qsum_map_plus, (Qsum_indicator (key r) (f r) bins Hnd Hr). reflexivity.
Qed.

Lemma Zlist_min_le (x : Z) (xs : list Z) :
  Forall (fun y => (Zlist_min x xs <= y)%Z) (x :: xs).
Proof.
  unfold Zlist_min. revert x. induction xs as [|y r IH]; intros x; simpl.
  - constructor; [lia|constructor].
  - specialize (IH (Z.min x y)). inversion IH as [|? ? Hm Hr]; subst.
    constructor; [lia|]. constructor; [lia|exact Hr].
Qed.

Lemma Zlist_max_ge (x : Z) (xs : list Z) :
  Forall (fun y => (y <= Zlist_max x xs)%Z) (x :: xs).
Proof.
  unfold Zlist_max. revert x. induction xs as [|y r IH]; intros x; simpl.
  - constructor; [lia|constructor].
  - specialize (IH (Z.max x y)). inversion IH as [|? ? Hm Hr]; subst.
    constructor; [lia|]. constructor; [lia|exact Hr].
Qed.

Lemma bin_range_In (b_lo b_hi b : Z) :
  (b_lo <= b <= b_hi)%Z -> In b (bin_range b_lo b_hi).
Proof.
  intros Hb. unfold bin_range. apply in_map_iff.
  exists (Z.to_nat (b - b_lo)). split; [lia|]. apply in_seq. lia.
Qed.

Lemma bin_range_NoDup (b_lo b_hi : Z) : List.NoDup (bin_range b_lo b_hi).
Proof.
  unfold bin_range. apply Finite.Injective_map_NoDup; [|apply seq_NoDup].
  intros i j Hij. lia.
Qed.

Lemma np_max_is_maximum (xs : list Q) (m : Q) : np_max xs = Returns m -> is_maximum m xs.
Proof.
  destruct xs as [|x r]; [discriminate|]. intros Hm. injection Hm as <-.
  apply fold_left_Qmax_spec.
Qed.

Lemma np_min_is_minimum (xs : list Q) (m : Q) : np_min xs = Returns m -> is_minimum m xs.
Proof.
  destruct xs as [|x r]; [discriminate|]. intros Hm. injection Hm as <-.
  apply fold_left_Qmin_spec.
Qed.

Lemma bin_of_mono (origin rule t1 t2 : Z) :
  (0 < rule)%Z -> (t1 <= t2)%Z -> (bin_of origin rule t1 <= bin_of origin rule t2)%Z.
Proof. intros Hr Ht. unfold bin_of. apply Z.div_le_mono; lia. Qed.

(** Every bar falls into one of the bins that [resample] lists. *)
Lemma resample_cover (df : DataFrame) (rule : Z) (t : Z) (ts : list Z) :
  (0 < rule)%Z -> List.map bar_time df = t :: ts ->
  Forall (fun r => In (bin_of (resample_origin df) rule (bar_time r))
                      (bin_range (bin_of (resample_origin df) rule (Zlist_min t ts))
                                 (bin_of (resample_origin df) rule (Zlist_max t ts)))) df.
Proof.
  intros Hrule Htimes. apply List.Forall_forall. intros r Hr.
  assert (Hin : In (bar_time r) (t :: ts)).
  { rewrite <- Htimes. apply in_map. exact Hr. }
  pose proof (Zlist_min_le t ts) as Hmin. pose proof (Zlist_max_ge t ts) as Hmax.
  rewrite List.Forall_forall in Hmin, Hmax.
  apply bin_range_In. split; apply bin_of_mono; auto.
Qed.

Lemma resample_unfold (df : DataFrame) (rule : Z) (t : Z) (ts : list Z) :
  (0 < rule)%Z -> List.map bar_time df = t :: ts ->
  _resample df rule
  = Some (agg_bins (resample_origin df) rule df
            (bin_range (bin_of (resample_origin df) rule (Zlist_min t ts))
                       (bin_of (resample_origin df) rule (Zlist_max t ts)))).
Proof.
  intros Hrule Htimes. unfold _resample, resample_agg.
  destruct (Z.leb_spec rule 0) as [Hle|_]; [lia|].
  rewrite Htimes. reflexivity.
Qed.

Lemma in_bin_rows (origin rule : Z) (df : DataFrame) (r : Bar) :
  In r df -> In r (bin_rows origin rule df (bin_of origin rule (bar_time r))).
Proof.
  intros Hr. unfold bin_rows, rows_in_bin. apply List.filter_In.
  split; [exact Hr | apply Z.eqb_refl].
Qed.

Lemma bin_rows_incl (origin rule : Z) (df : DataFrame) (b : Z) (r : Bar) :
  In r (bin_rows origin rule df b) -> In r df.
Proof. unfold bin_rows, rows_in_bin. intros Hr. apply List.filter_In in Hr. tauto. Qed.

(** The largest high of the resampled frame is the largest high of the
    source. *)
Lemma agg_bins_max (origin rule : Z) (df : DataFrame) (bins : list Z) (m : Q) :
  Forall (fun r => In (bin_of origin rule (bar_time r)) bins) df ->
  np_max (List.map bar_high df) = Returns m ->
  exists m', np_max (List.map bar_high (agg_bins origin rule df bins)) = Returns m' /\ m' == m.
Proof.
  intros Hcover Hm. apply np_max_is_maximum in Hm. destruct Hm as [Hin Hall].
  apply in_map_iff in Hin. destruct Hin as (r & Hrm & Hr).
  rewrite List.Forall_forall in Hcover, Hall.
  destruct (agg_bins_complete origin rule df bins (bin_of origin rule (bar_time r)))
    as (row & Hrow & Hrmax & _).
  { apply Hcover. exact Hr. }
  { intros Hempty. pose proof (in_bin_rows origin rule df r Hr) as Hx.
    rewrite Hempty in Hx. contradiction. }
  destruct (np_max_spec (List.map bar_high (agg_bins origin rule df bins))) as (m' & Hm' & Hin' & Hall').
  { intros Hempty. apply (in_map bar_high) in Hrow. rewrite Hempty in Hrow. contradiction. }
  exists m'. split; [exact Hm'|].
  rewrite List.Forall_forall in Hall'.
  apply Qle_antisym.
  - apply in_map_iff in Hin'. destruct Hin' as (row' & Hhigh' & Hrow').
    destruct (agg_bins_rows origin rule df bins row' Hrow') as (b' & _ & _ & _ & _ & Hmax' & _).
    apply np_max_is_maximum in Hmax'. destruct Hmax' as [Hin2 _].
    apply in_map_iff in Hin2. destruct Hin2 as (r2 & Hr2 & Hr2in).
    rewrite <- Hhigh', <- Hr2. apply Hall. apply in_map.
    eapply bin_rows_incl. exact Hr2in.
  - apply np_max_is_maximum in Hrmax. destruct Hrmax as [_ Hallb].
    rewrite List.Forall_forall in Hallb.
    apply Qle_trans with (bar_high row).
    + rewrite <- Hrm. apply Hallb. apply in_map. apply in_bin_rows. exact Hr.
    + apply Hall'. apply in_map. exact Hrow.
Qed.

Lemma agg_bins_min (origin rule : Z) (df : DataFrame) (bins : list Z) (m : Q) :
  Forall (fun r => In (bin_of origin rule (bar_time r)) bins) df ->
  np_min (List.map bar_low df) = Returns m ->
  exists m', np_min (List.map bar_low (agg_bins origin rule df bins)) = Returns m' /\ m' == m.
Proof.
  intros Hcover Hm. apply np_min_is_minimum in Hm. destruct Hm as [Hin Hall].
  apply in_map_iff in Hin. destruct Hin as (r & Hrm & Hr).
  rewrite List.Forall_forall in Hcover, Hall.
  destruct (agg_bins_complete origin rule df bins (bin_of origin rule (bar_time r)))
    as (row & Hrow & _ & Hrmin).
  { apply Hcover. exact Hr. }
  { intros Hempty. pose proof (in_bin_rows origin rule df r Hr) as Hx.
    rewrite Hempty in Hx. contradiction. }
  destruct (np_min_spec (List.map bar_low (agg_bins origin rule df bins))) as (m' & Hm' & Hin' & Hall').
  { intros Hempty. apply (in_map bar_low) in Hrow. rewrite Hempty in Hrow. contradiction. }
  exists m'. split; [exact Hm'|].
  rewrite List.Forall_forall in Hall'.
  apply Qle_antisym.
  - apply np_min_is_minimum in Hrmin. destruct Hrmin as [_ Hallb].
    rewrite List.Forall_forall in Hallb.
    apply Qle_trans with (bar_low row).
    + apply Hall'. apply in_map. exact Hrow.
    + rewrite <- Hrm. apply Hallb. apply in_map. apply in_bin_rows. exact Hr.
  - apply in_map_iff in Hin'. destruct Hin' as (row' & Hlow' & Hrow').
    destruct (agg_bins_rows origin rule df bins row' Hrow') as (b' & _ & _ & _ & _ & _ & Hmin' & _).
    apply np_min_is_minimum in Hmin'. destruct Hmin' as [Hin2 _].
    apply in_map_iff in Hin2. destruct Hin2 as (r2 & Hr2 & Hr2in).
    rewrite <- Hlow', <- Hr2. apply Hall. apply in_map.
    eapply bin_rows_incl. exact Hr2in.
Qed.

(** C10.  For every bar series and every target interval of positive
    width, [_resample] returns a series in which every row aggregates the
    bars of one non-empty bin: open is the first open, high the maximum
    high, low the minimum low, close the last close and volume the sum of
    the volumes of the bin.  The sum of the volume column, the maximum of
    the high column and the minimum of the low column are those of the
    source series. *)
Theorem resample_preserves (df : DataFrame) (rule : Z) :
  (0 < rule)%Z ->
  exists resampled,
    _resample df rule = Some resampled /\
    (forall row, In row resampled ->
       exists b,
         let rows := rows_in_bin (resample_origin df) rule b df in
         rows <> [] /\
         bar_time row = (resample_origin df + b * rule)%Z /\
         hd_error (List.map bar_open rows) = Some (bar_open row) /\
         np_max (List.map bar_high rows) = Returns (bar_high row) /\
         np_min (List.map bar_low rows) = Returns (bar_low row) /\
         last_item (List.map bar_close rows) = Returns (bar_close row) /\
         bar_volume row = Qsum (List.map bar_volume rows)) /\
    Qsum (List.map bar_volume resampled) == Qsum (List.map bar_volume df) /\
    (forall m, np_max (List.map bar_high df) = Returns m ->
       exists m', np_max (List.map bar_high resampled) = Returns m' /\ m' == m) /\
    (forall m, np_min (List.map bar_low df) = Returns m ->
       exists m', np_min (List.map bar_low resampled) = Returns m' /\ m' == m) /\
    (df = [] -> resampled = []).
Proof.
  intros Hrule.
  destruct (List.map bar_time df) as [|t ts] eqn:Htimes.
  - assert (Hdf : df = []) by (destruct df; [reflexivity|discriminate]).
    subst df. exists []. unfold _resample.
    destruct (Z.leb_spec rule 0) as [Hle|_]; [lia|].
    split; [reflexivity|]. split; [intros row []|]. split; [reflexivity|].
    repeat split; intros; discriminate.
  - rewrite (resample_unfold df rule t ts Hrule Htimes).
    pose proof (resample_cover df rule t ts Hrule Htimes) as Hcover.
    set (origin := resample_origin df) in *.
    set (bins := bin_range (bin_of origin rule (Zlist_min t ts))
                           (bin_of origin rule (Zlist_max t ts))) in *.
    exists (agg_bins origin rule df bins).
    split; [reflexivity|]. split; [|split; [|split; [|split]]].
    + intros row Hrow.
      destruct (agg_bins_rows origin rule df bins row Hrow) as (b & _ & Hfields).
      exists b. exact Hfields.
    + rewrite agg_bins_volume. apply (sum_by_bins bar_volume); [apply bin_range_NoDup | exact Hcover].
    + intros m. apply agg_bins_max. exact Hcover.
    + intros m. apply agg_bins_min. exact Hcover.
    + intros ->. discriminate Htimes.
Qed.

Lemma resample_preserves_witness :
  exists resampled,
    _resample (rising_bars 1900 9) 14400 = Some resampled /\
    length resampled = 3%nat /\
    Qsum (List.map bar_volume resampled) == Qsum (List.map bar_volume (rising_bars 1900 9)).
Proof.
  destruct (resample_preserves (rising_bars 1900 9) 14400) as (resampled & Hres & _ & Hvol & _).
  - lia.
  - exists resampled. split; [exact Hres|]. split; [|exact Hvol].
    vm_compute in Hres. injection Hres as <-. reflexivity.
Defined.

(** ** The report *)

(** The verdict stored with a time-frame is the consensus of its strategy
    results. *)
Lemma analyze_timeframe_consensus `{External} (symbol : string) (strategies : list Strategy)
    (config : TimeframeConfig) (n l : string) (bars : nat) (results : list Result)
    (c : option Consensus) :
  analyze_timeframe symbol strategies config = Returns (TimeframeOk n l bars results c) ->
  c = Some (_consensus results).
Proof.
  unfold analyze_timeframe. intros Hr.
  destruct (fetch_ohlcv symbol (cfg_period config) (cfg_interval config)) as [[|d0 df]|];
    try discriminate Hr.
  destruct (cfg_resample config) as [rule|].
  - destruct (_resample (d0 :: df) rule) as [resampled|]; [|discriminate Hr].
    destruct (length resampled <? 20)%nat; [discriminate Hr|].
    run_binds Hr. congruence.
  - run_binds Hr. congruence.
Qed.

(** The summary of a report is the summary of its time-frames. *)
Lemma multi_timeframe_report_summary `{External} (symbol : string) (strategies : list Strategy)
    (timeframes : option (list TimeframeConfig)) (report : Report) :
  multi_timeframe_report symbol strategies timeframes = Returns report ->
  summary report = _generate_summary (report_timeframes report).
Proof.
  unfold multi_timeframe_report. intros Hr. run_binds Hr. subst report. reflexivity.
Qed.

(** * Further properties *)

(** ** Trend strength and direction *)

Lemma tail_length_min {A : Type} (n : nat) (xs : list A) :
  length (tail n xs) = Nat.min n (length xs).
Proof. unfold tail. rewrite List.length_skipn. lia. Qed.

(** Every branch that classifies a result as Up or Down tests the trend
    strength against the threshold of the strategy. *)
Lemma direction_adx `{External} (self : Strategy)
    (df : DataFrame) (lookback : nat) (kwargs : gmap string Q) (r : ChannelResult) :
  analyze self df lookback kwargs = Returns (Channel r) ->
  channel_type r = CHANNEL_UP \/ channel_type r = CHANNEL_DOWN ->
  direction_threshold self <= _calc_adx df lookback.
Proof.
  intros Hr Hdir.
  destruct self; simpl in Hr; cbn [direction_threshold];
    [ unfold LinearRegressionStrategy_analyze in Hr
    | unfold BollingerBandStrategy_analyze in Hr
    | unfold DonchianChannelStrategy_analyze in Hr
    | unfold TrendlineStrategy_analyze in Hr ];
    cbv zeta in Hr; run_binds Hr; subst r; cbn [channel_type] in Hdir;
    try (destruct Hdir; discriminate);
    match goal with
    | |- ?t <= ?a =>
        destruct (Qgeb a t) eqn:B; [apply Qgeb_true in B; exact B|]
    end;
    exfalso; revert Hdir; rewrite ?andb_false_r;
    repeat match goal with
           | |- context [if ?c then _ else _] => destruct c
           end;
    cbn; intros [Hd|Hd]; discriminate Hd.
Qed.

(** X1.  Whatever the class of the strategy, a result classified as Up or
    Down is returned only when the trend strength computed by [_calc_adx]
    reaches the threshold of the strategy: the attribute [adx_threshold]
    for the regression strategy, 20 for the other three. *)
Theorem direction_needs_trend_strength `{External} (self : Strategy)
    (df : DataFrame) (lookback : nat) (kwargs : gmap string Q) (r : ChannelResult) :
  analyze self df lookback kwargs = Returns (Channel r) ->
  channel_type r = CHANNEL_UP \/ channel_type r = CHANNEL_DOWN ->
  direction_threshold self <= _calc_adx df lookback.
Proof. apply direction_adx. Qed.

Lemma direction_needs_trend_strength_witness :
  direction_threshold (LinearRegressionStrategy 25 (1 # 2))
  <= @_calc_adx example_external (rising_bars 1900 20) 5.
Proof.
  assert (E : exists r,
    @analyze example_external (LinearRegressionStrategy 25 (1 # 2)) (rising_bars 1900 20) 5
             {[ "sma_short" := 2; "sma_long" := 5 ]}
      = Returns (Channel r) /\ channel_type r = CHANNEL_UP)
    by (vm_compute; eexists; split; reflexivity).
  destruct E as (r & E & Hup).
  exact (@direction_needs_trend_strength example_external _ _ _ _ r E (or_introl Hup)).
Defined.

(** X2.  [_calc_adx] falls back to 0.0 when the frame has fewer than 16
    bars, when the indicator raises, when its series is empty, and when
    the series ends in NaN.  With a positive threshold no strategy then
    reports a direction. *)
Theorem calc_adx_fallback `{External} (self : Strategy)
    (df : DataFrame) (lookback : nat) (kwargs : gmap string Q) :
  let adx_data := tail (lookback + 20) df in
  let series := ta_ADXIndicator_adx (List.map bar_high adx_data) (List.map bar_low adx_data)
                                    (List.map bar_close adx_data) 14 in
  ((length df < 16)%nat \/
   (exists e, series = Raises e) \/ series = Returns [] \/
   (exists s, series = Returns (s ++ [NaN]))) ->
  _calc_adx df lookback = 0 /\
  (0 < direction_threshold self ->
   forall r, analyze self df lookback kwargs = Returns (Channel r) ->
             channel_type r <> CHANNEL_UP /\ channel_type r <> CHANNEL_DOWN).
Proof.
  intros adx_data series Hcase.
  assert (Hzero : _calc_adx df lookback = 0).
  { unfold _calc_adx. fold adx_data. fold series.
    destruct (Nat.ltb_spec (length adx_data) 16) as [_|Hlen]; [reflexivity|].
    destruct Hcase as [Hshort | [[e He] | [He | [s He]]]].
    - unfold adx_data in Hlen. rewrite tail_length_min in Hlen. lia.
    - rewrite He. reflexivity.
    - rewrite He. reflexivity.
    - rewrite He. simpl. rewrite last_item_app. reflexivity. }
  split; [exact Hzero|].
  intros Hpos r Hr.
  split; intros Hdir;
    [ pose proof (direction_adx self df lookback kwargs r Hr (or_introl Hdir)) as Hle
    | pose proof (direction_adx self df lookback kwargs r Hr (or_intror Hdir)) as Hle ];
    rewrite Hzero in Hle; lra.
Qed.

Lemma calc_adx_fallback_witness :
  @_calc_adx example_external (rising_bars 1900 10) 5 = 0.
Proof.
  refine (proj1 (@calc_adx_fallback example_external (TrendlineStrategy 5)
                   (rising_bars 1900 10) 5 ∅ _)).
  left. vm_compute. lia.
Defined.

(** ** The pivot search *)
Lemma slice_as_map (a b : nat) (xs : list Q) :
  (b <= length xs)%nat ->
  slice a b xs = List.map (fun j => nth j xs 0) (seq a (b - a)).
Proof.
  intros Hb. unfold slice.
  apply (List.nth_ext _ _ 0 0).
  - rewrite List.length_firstn, List.length_skipn, List.length_map, List.length_seq. lia.
  - intros k Hk. rewrite List.length_firstn, List.length_skipn in Hk.
    rewrite List.nth_firstn.
    destruct (Nat.ltb_spec k (b - a)) as [Hlt|Hge]; [|lia].
    rewrite List.nth_skipn.
    rewrite (List.nth_indep (List.map (fun j => nth j xs 0) (seq a (b - a))) 0
                            ((fun j => nth j xs 0) 0%nat))
      by (rewrite List.length_map, List.length_seq; lia).
    rewrite (List.map_nth (fun j => nth j xs 0)).
    rewrite List.seq_nth by lia. reflexivity.
Qed.

Lemma max_le_forallb (l : list Q) (m v : Q) :
  np_max l = Returns m -> Qle_bool m v = forallb (fun x => Qle_bool x v) l.
Proof.
  intros Hm. apply np_max_is_maximum in Hm. destruct Hm as [Hin Hall].
  rewrite List.Forall_forall in Hall.
  destruct (forallb (fun x => Qle_bool x v) l) eqn:E.
  - rewrite forallb_forall in E. apply E. exact Hin.
  - destruct (Qle_bool m v) eqn:E2; [|reflexivity].
    apply Qle_bool_iff in E2.
    assert (Hf : forallb (fun x => Qle_bool x v) l = true).
    { apply forallb_forall. intros x Hx. apply Qle_bool_iff.
      eapply Qle_trans; [apply Hall; exact Hx | exact E2]. }
    congruence.
Qed.

Lemma min_ge_forallb (l : list Q) (m v : Q) :
  np_min l = Returns m -> Qle_bool v m = forallb (fun x => Qle_bool v x) l.
Proof.
  intros Hm. apply np_min_is_minimum in Hm. destruct Hm as [Hin Hall].
  rewrite List.Forall_forall in Hall.
  destruct (forallb (fun x => Qle_bool v x) l) eqn:E.
  - rewrite forallb_forall in E. apply E. exact Hin.
  - destruct (Qle_bool v m) eqn:E2; [|reflexivity].
    apply Qle_bool_iff in E2.
    assert (Hf : forallb (fun x => Qle_bool v x) l = true).
    { apply forallb_forall. intros x Hx. apply Qle_bool_iff.
      eapply Qle_trans; [exact E2 | apply Hall; exact Hx]. }
    congruence.
Qed.

Lemma forallb_map_seq {B : Type} (f : B -> bool) (g : nat -> B) (l : list nat) :
  forallb f (List.map g l) = forallb (fun j => f (g j)) l.
Proof. induction l as [|x r IH]; simpl; [reflexivity | rewrite IH; reflexivity]. Qed.

(** Inside the range of the loop the pivot test compares the bar with
    every bar of its window. *)
Lemma pivot_test_is_pivot (values : list Q) (window : nat) (mode : string) (i : nat) :
  (1 <= window)%nat -> (window <= i)%nat -> (i + window < length values)%nat ->
  pivot_test values window mode i = Returns (is_pivot values window mode i).
Proof.
  intros Hw Hi Hlen. unfold pivot_test, is_pivot.
  assert (Hl : slice (i - window) i values <> []).
  { apply nonempty_length. rewrite slice_length. lia. }
  assert (Hr : slice (i + 1) (i + window + 1) values <> []).
  { apply nonempty_length. rewrite slice_length. lia. }
  replace (2 * window + 1)%nat with (window + (1 + window))%nat by lia.
  rewrite seq_app, forallb_app. rewrite seq_app, forallb_app.
  replace (i - window + window)%nat with i by lia.
  cbn [seq forallb].
  rewrite (slice_as_map (i - window) i values) in * by lia.
  rewrite (slice_as_map (i + 1) (i + window + 1) values) in * by lia.
  replace (i - (i - window))%nat with window in * by lia.
  replace (i + window + 1 - (i + 1))%nat with window in * by lia.
  replace (i + 1)%nat with (S i) in * by lia.
  destruct (String.eqb mode "high").
  - destruct (np_max_spec _ Hl) as (ml & Hml & _).
    destruct (np_max_spec _ Hr) as (mr & Hmr & _).
    rewrite Hml. simpl bind. unfold Qgeb.
    rewrite (max_le_forallb _ ml (nth i values 0) Hml), forallb_map_seq.
    destruct (forallb _ (seq (i - window) window)); [|reflexivity].
    rewrite Hmr. simpl bind.
    rewrite (max_le_forallb _ mr (nth i values 0) Hmr), forallb_map_seq.
    replace (Qle_bool (nth i values 0) (nth i values 0)) with true
      by (symmetry; apply Qle_bool_iff; apply Qle_refl).
    rewrite andb_true_r. reflexivity.
  - destruct (np_min_spec _ Hl) as (ml & Hml & _).
    destruct (np_min_spec _ Hr) as (mr & Hmr & _).
    rewrite Hml. simpl bind.
    rewrite (min_ge_forallb _ ml (nth i values 0) Hml), forallb_map_seq.
    destruct (forallb _ (seq (i - window) window)); [|reflexivity].
    rewrite Hmr. simpl bind.
    rewrite (min_ge_forallb _ mr (nth i values 0) Hmr), forallb_map_seq.
    replace (Qle_bool (nth i values 0) (nth i values 0)) with true
      by (symmetry; apply Qle_bool_iff; apply Qle_refl).
    rewrite andb_true_r. reflexivity.
Qed.

Lemma find_pivots_loop_filter (values : list Q) (window : nat) (mode : string)
    (range : list nat) :
  (1 <= window)%nat ->
  Forall (fun i => (window <= i)%nat /\ (i + window < length values)%nat) range ->
  find_pivots_loop values window mode range
  = Returns (List.filter (is_pivot values window mode) range,
             List.map (fun i => nth i values 0)
                      (List.filter (is_pivot values window mode) range)).
Proof.
  intros Hw. induction 1 as [|i rest [Hi Hlen] _ IH]; simpl.
  - reflexivity.
  - rewrite (pivot_test_is_pivot values window mode i Hw Hi Hlen), IH. simpl.
    destruct (is_pivot values window mode i); reflexivity.
Qed.

(** With a window of zero bars the first test takes the maximum of an
    empty slice. *)
Lemma find_pivots_window_zero (values : list Q) (mode : string) :
  values <> [] -> _find_pivots values 0 mode = Raises ValueError.
Proof.
  intros Hne. unfold _find_pivots.
  destruct values as [|v rest]; [congruence|].
  simpl length. replace (S (length rest) - 0 - 0)%nat with (S (length rest)) by lia.
  cbn [seq find_pivots_loop]. unfold pivot_test. cbn [slice Nat.sub firstn].
  destruct (String.eqb mode "high"); reflexivity.
Qed.

(** X3.  With a window of at least one bar (or on an empty series)
    [_find_pivots] returns the indices from [window] up to
    [len(values) - window] at which the bar is no lower (for pivot highs;
    no higher, for pivot lows) than every bar of its window, in increasing
    order, with the values at those indices.  With a window of zero bars
    it raises [ValueError] on every non-empty series. *)
Theorem find_pivots_filter (values : list Q) (window : nat) (mode : string) :
  ((1 <= window)%nat \/ values = [] ->
   _find_pivots values window mode
   = Returns (List.filter (is_pivot values window mode)
                          (seq window (length values - window - window)),
              List.map (fun i => nth i values 0)
                       (List.filter (is_pivot values window mode)
                                    (seq window (length values - window - window))))) /\
  (window = 0%nat -> values <> [] -> _find_pivots values window mode = Raises ValueError).
Proof.
  split.
  - intros [Hw | ->].
    + apply find_pivots_loop_filter; [exact Hw | apply pivot_range].
    + unfold _find_pivots. simpl. reflexivity.
  - intros -> Hne. apply find_pivots_window_zero. exact Hne.
Qed.

Lemma find_pivots_filter_witness :
  _find_pivots [1; 3; 2; 5; 4] 1 "high" = Returns ([1%nat; 3%nat], [3; 5]).
Proof.
  rewrite (proj1 (find_pivots_filter [1; 3; 2; 5; 4] 1 "high")) by (left; lia).
  reflexivity.
Defined.

(** ** When [analyze] returns and when it raises *)

Lemma sq_dev_sum (m : Q) (xs : list Q) :
  Qsum (List.map (fun x => (x - m) * (x - m)) xs)
  == Qsum (zip_with Qmult xs xs) - 2 * m * Qsum xs + Qlen xs * (m * m).
Proof.
  induction xs as [|x r IH].
  - unfold Qlen. simpl. ring.
  - cbn [List.map zip_with]. rewrite !Qsum_cons, Qlen_cons, IH. ring.
Qed.

Lemma Qlen_pos {A : Type} (xs : list A) : xs <> [] -> 0 < Qlen xs.
Proof.
  intros Hne. unfold Qlen. change 0 with (inject_Z 0). rewrite <- Zlt_Qlt.
  destruct xs; [congruence | simpl; lia].
Qed.

(** The normal equations have a positive determinant as soon as two
    abscissae differ. *)
Lemma normal_det_pos (xs : list Q) :
  (2 <= length xs)%nat -> nth 0 xs 0 < nth 1 xs 0 ->
  0 < Qlen xs * Qsum (zip_with Qmult xs xs) - Qsum xs * Qsum xs.
Proof.
  intros Hn Hlt.
  assert (Hne : xs <> []) by (apply nonempty_length; lia).
  pose proof (Qlen_pos xs Hne) as Hpos.
  pose proof (ss_tot_pos (Qsum xs / Qlen xs) xs Hn Hlt) as Hss.
  rewrite sq_dev_sum in Hss.
  set (n := Qlen xs) in *. set (s := Qsum xs) in *.
  set (s2 := Qsum (zip_with Qmult xs xs)) in *.
  assert (Heq : n * s2 - s * s == n * (s2 - 2 * (s / n) * s + n * (s / n * (s / n)))).
  { field. lra. }
  rewrite Heq. apply Qmult_lt_0_compat; assumption.
Qed.

Lemma polyfit_returns `{External} (xs ys : list Q) :
  length xs = length ys -> (2 <= length xs)%nat -> nth 0 xs 0 < nth 1 xs 0 ->
  exists c, polyfit xs ys = Returns c.
Proof.
  intros Hlen Hn Hlt. unfold polyfit.
  destruct (Nat.eqb_spec (length xs) 0) as [E|_]; [lia|].
  rewrite <- Hlen, Nat.eqb_refl. cbv [negb].
  pose proof (normal_det_pos xs Hn Hlt) as Hdet.
  destruct (Qeq_bool _ 0) eqn:E; [|eauto].
  apply Qeq_bool_iff in E. lra.
Qed.

Lemma filter_seq_ge (p : nat -> bool) (a k x : nat) :
  In x (List.filter p (seq a k)) -> (a <= x)%nat.
Proof. intros Hin. apply List.filter_In in Hin. destruct Hin as [Hin _]. apply in_seq in Hin. lia. Qed.

Lemma filter_seq_first_two (p : nat -> bool) (k a i0 i1 : nat) (rest : list nat) :
  List.filter p (seq a k) = i0 :: i1 :: rest -> (i0 < i1)%nat.
Proof.
  revert a. induction k as [|k IH]; intros a Hf; [discriminate Hf|].
  cbn [seq List.filter] in Hf. destruct (p a).
  - injection Hf as <- Hrest.
    assert (Hin : In i1 (List.filter p (seq (S a) k))) by (rewrite Hrest; left; reflexivity).
    apply filter_seq_ge in Hin. lia.
  - eapply IH. exact Hf.
Qed.

Lemma of_int_lt (i j : nat) : (i < j)%nat -> of_int i < of_int j.
Proof. intros Hij. unfold of_int. rewrite <- Zlt_Qlt. lia. Qed.

(** The fit through three or more pivots succeeds: their indices are
    distinct. *)
Lemma polyfit_pivots `{External} (values : list Q) (window : nat) (mode : string) (a k : nat) :
  let idx := List.filter (is_pivot values window mode) (seq a k) in
  (3 <= length idx)%nat ->
  exists c, polyfit (List.map of_int idx) (List.map (fun i => nth i values 0) idx) = Returns c.
Proof.
  intros idx Hlen. apply polyfit_returns.
  - rewrite !List.length_map. reflexivity.
  - rewrite List.length_map. lia.
  - destruct idx as [|i0 [|i1 rest]] eqn:E; simpl in Hlen; try lia.
    simpl. apply of_int_lt. eapply filter_seq_first_two. exact E.
Qed.

(** The pivot-trendline strategy returns for every bar series when the
    look-back and the pivot window are at least one bar. *)
Lemma trendline_returns `{External} (pivot_window : nat)
    (df : DataFrame) (lookback : nat) (kwargs : gmap string Q) :
  (1 <= lookback)%nat -> (1 <= kwargs_get_int kwargs "pivot_window" pivot_window)%nat ->
  exists res, TrendlineStrategy_analyze pivot_window df lookback kwargs = Returns res.
Proof.
  intros Hlb Hw. unfold TrendlineStrategy_analyze. cbv zeta.
  destruct (Nat.ltb_spec (length df) lookback) as [_|Hlen]; [eauto|].
  set (window := kwargs_get_int kwargs "pivot_window" pivot_window) in *.
  set (data := tail lookback df).
  assert (Hdata : data <> []).
  { apply nonempty_length. unfold data. rewrite tail_length by assumption. lia. }
  unfold _find_pivots.
  rewrite !(find_pivots_loop_filter _ window _ _ Hw) by apply pivot_range.
  simpl bind.
  destruct (last_item_nonempty (List.map bar_close data) (map_nonempty _ _ Hdata)) as [cp Hcp].
  rewrite Hcp. simpl bind.
  match goal with |- context [if ?c then _ else _] => destruct c eqn:Ecount end.
  - destruct (np_max_spec _ (map_nonempty bar_high _ Hdata)) as (hmax & Hhmax & _).
    destruct (np_min_spec _ (map_nonempty bar_low _ Hdata)) as (lmin & Hlmin & _).
    rewrite Hhmax, Hlmin. simpl bind. eauto.
  - apply orb_false_iff in Ecount. destruct Ecount as [Eh El].
    apply Nat.ltb_ge in Eh. apply Nat.ltb_ge in El.
    destruct (polyfit_pivots _ window "high" _ _ Eh) as [hc Hhc].
    destruct (polyfit_pivots _ window "low" _ _ El) as [lc Hlc].
    rewrite Hhc. simpl bind. rewrite Hlc. simpl bind. eauto.
Qed.

(** With a pivot window of zero bars the strategy raises on every series
    that passes the length test. *)
Lemma trendline_window_zero `{External} (pivot_window : nat)
    (df : DataFrame) (lookback : nat) (kwargs : gmap string Q) :
  kwargs_get_int kwargs "pivot_window" pivot_window = 0%nat ->
  (1 <= lookback)%nat -> (lookback <= length df)%nat ->
  TrendlineStrategy_analyze pivot_window df lookback kwargs = Raises ValueError.
Proof.
  intros Hw Hlb Hlen. unfold TrendlineStrategy_analyze. cbv zeta. rewrite Hw.
  destruct (Nat.ltb_spec (length df) lookback) as [Hlt|_]; [lia|].
  assert (Hdata : tail lookback df <> []).
  { apply nonempty_length. rewrite tail_length by assumption. lia. }
  rewrite (find_pivots_window_zero _ "high" (map_nonempty bar_high _ Hdata)).
  reflexivity.
Qed.

Lemma band_slope_returns `{External} (series : list Q) :
  exists s,
    (if (10 <=? length series)%nat
     then let* c := polyfit (arange (length series)) series in Returns (fst c)
     else Returns 0) = Returns s.
Proof.
  destruct (Nat.leb_spec 10 (length series)) as [Hlen|_]; [|eauto].
  rewrite (polyfit_arange series) by lia. simpl. eauto.
Qed.

Lemma bollinger_returns `{E : External} (bb_period : nat) (bb_std : Q)
    (df : DataFrame) (lookback : nat) (kwargs : gmap string Q) :
  indicators_defined E ->
  exists res, BollingerBandStrategy_analyze bb_period bb_std df lookback kwargs = Returns res.
Proof.
  intros [Hbb _]. unfold BollingerBandStrategy_analyze. cbv zeta.
  destruct (Nat.ltb_spec (length df) (kwargs_get_int kwargs "bb_period" bb_period + 10))
    as [_|Hlen]; [eauto|].
  assert (Hdf : df <> []) by (apply nonempty_length; lia).
  pose proof (map_nonempty bar_close df Hdf) as Hclose.
  destruct (Hbb (List.map bar_close df) (kwargs_get_int kwargs "bb_period" bb_period)
                (kwargs_get kwargs "bb_std" bb_std) Hclose) as (H1 & H2 & H3 & H4 & H5).
  destruct (last_item_nonempty _ H1) as [u ->].
  destruct (last_item_nonempty _ H2) as [l ->].
  destruct (last_item_nonempty _ H3) as [m ->].
  destruct (last_item_nonempty _ H4) as [w ->].
  destruct (last_item_nonempty _ H5) as [p ->].
  destruct (last_item_nonempty _ Hclose) as [c ->].
  cbn [bind].
  match goal with
  | |- context [bind (if (10 <=? length ?s)%nat then _ else _) _] =>
      destruct (band_slope_returns s) as [sl ->]
  end.
  cbn [bind]. eauto.
Qed.

Lemma donchian_returns `{E : External} (dc_period : nat)
    (df : DataFrame) (lookback : nat) (kwargs : gmap string Q) :
  indicators_defined E ->
  exists res, DonchianChannelStrategy_analyze dc_period df lookback kwargs = Returns res.
Proof.
  intros [_ Hdc]. unfold DonchianChannelStrategy_analyze. cbv zeta.
  destruct (Nat.ltb_spec (length df) (kwargs_get_int kwargs "dc_period" dc_period + 10))
    as [_|Hlen]; [eauto|].
  assert (Hdf : df <> []) by (apply nonempty_length; lia).
  destruct (Hdc (List.map bar_high df) (List.map bar_low df) (List.map bar_close df)
                (kwargs_get_int kwargs "dc_period" dc_period) (map_nonempty bar_high df Hdf))
    as (H1 & H2 & H3 & H4).
  destruct (last_item_nonempty _ H1) as [u ->].
  destruct (last_item_nonempty _ H2) as [l ->].
  destruct (last_item_nonempty _ H3) as [m ->].
  destruct (last_item_nonempty _ H4) as [w ->].
  destruct (last_item_nonempty _ (map_nonempty bar_close df Hdf)) as [c ->].
  cbn [bind].
  match goal with
  | |- context [bind (if (10 <=? length ?s)%nat then _ else _) _] =>
      destruct (band_slope_returns s) as [su ->]
  end.
  cbn [bind].
  match goal with
  | |- context [bind (if (10 <=? length ?s)%nat then _ else _) _] =>
      destruct (band_slope_returns s) as [sl ->]
  end.
  cbn [bind]. eauto.
Qed.

Lemma regression_returns_any `{External} (adx_threshold r2_threshold : Q)
    (df : DataFrame) (lookback : nat) (kwargs : gmap string Q) :
  (2 <= lookback)%nat ->
  exists res, LinearRegressionStrategy_analyze adx_threshold r2_threshold df lookback kwargs
              = Returns res.
Proof.
  intros Hlb.
  destruct (Nat.ltb_spec (length df)
              (Nat.max lookback (kwargs_get_int kwargs "sma_long" 60 + 10))) as [Hshort|Hlen].
  - unfold LinearRegressionStrategy_analyze. cbv zeta.
    apply Nat.ltb_lt in Hshort. rewrite Hshort. eauto.
  - destruct (regression_returns adx_threshold r2_threshold df lookback kwargs Hlb Hlen)
      as [r Hr]. eauto.
Qed.

Lemma analyze_returns `{E : External} (self : Strategy)
    (df : DataFrame) (lookback : nat) (kwargs : gmap string Q) :
  indicators_defined E -> analyzable self lookback kwargs ->
  exists res, analyze self df lookback kwargs = Returns res.
Proof.
  intros Hind Hok. destruct self; simpl in *.
  - apply regression_returns_any. exact Hok.
  - apply bollinger_returns. exact Hind.
  - apply donchian_returns. exact Hind.
  - destruct Hok. apply trendline_returns; assumption.
Qed.

Lemma trendline_lookback_zero `{External} (pivot_window : nat)
    (df : DataFrame) (kwargs : gmap string Q) :
  TrendlineStrategy_analyze pivot_window df 0 kwargs = Raises IndexError.
Proof.
  unfold TrendlineStrategy_analyze. cbv zeta. cbn [Nat.ltb Nat.leb].
  unfold tail. rewrite Nat.sub_0_r, List.skipn_all. reflexivity.
Qed.

Lemma example_external_defined : indicators_defined example_external.
Proof.
  split.
  - intros close w k Hne. destruct close; [congruence|]. simpl. repeat split; discriminate.
  - intros high low close w Hne. destruct high; [congruence|]. simpl. repeat split; discriminate.
Qed.

(** X4.  Provided the indicator classes return a series over the index of
    their input, [analyze] returns, whatever the bar series, when the
    strategy is analyzable: a look-back of at least two bars for the
    regression strategy, a look-back and a pivot window of at least one
    bar for the pivot-trendline strategy, and no condition for the band
    strategies.  On a series that passes the length test the condition is
    also necessary. *)
Theorem analyze_total `{E : External} (self : Strategy)
    (df : DataFrame) (lookback : nat) (kwargs : gmap string Q) :
  indicators_defined E ->
  (analyzable self lookback kwargs ->
   exists res, analyze self df lookback kwargs = Returns res) /\
  ((min_bars self lookback kwargs <= length df)%nat ->
   (exists res, analyze self df lookback kwargs = Returns res) ->
   analyzable self lookback kwargs).
Proof.
  intros Hind. split; [apply analyze_returns; exact Hind|].
  intros Hlen [res Hres].
  destruct self; simpl in *; try exact I.
  - destruct (Nat.lt_ge_cases lookback 2) as [Hlt|Hge]; [|exact Hge].
    rewrite (regression_raises _ _ df lookback kwargs Hlt Hlen) in Hres. discriminate Hres.
  - destruct lookback as [|lb].
    { rewrite trendline_lookback_zero in Hres. discriminate Hres. }
    split; [lia|].
    destruct (kwargs_get_int kwargs "pivot_window" pivot_window) as [|w] eqn:Hw; [|lia].
    rewrite (trendline_window_zero pivot_window df (S lb) kwargs Hw) in Hres by lia.
    discriminate Hres.
Qed.

Lemma analyze_total_witness :
  exists res, @analyze example_external (TrendlineStrategy 1) (rising_bars 1900 8) 6 ∅
              = Returns res.
Proof.
  apply (proj1 (@analyze_total example_external (TrendlineStrategy 1) (rising_bars 1900 8) 6 ∅
                  example_external_defined)).
  simpl. unfold kwargs_get_int. rewrite lookup_empty. lia.
Defined.

(** X5.  The calls of [analyze] that raise on a series that passes the
    length test.  The regression strategy raises [TypeError] for a
    look-back of zero bars (the fit of an empty window) and [LinAlgError]
    for a look-back of one bar.  The pivot-trendline strategy raises
    [IndexError] for a look-back of zero bars, whatever the series, and
    [ValueError] for a pivot window of zero bars. *)
Theorem analyze_raises `{External} (df : DataFrame) (lookback : nat) (kwargs : gmap string Q) :
  (forall adx_threshold r2_threshold,
     (lookback < 2)%nat ->
     (Nat.max lookback (kwargs_get_int kwargs "sma_long" 60 + 10) <= length df)%nat ->
     analyze (LinearRegressionStrategy adx_threshold r2_threshold) df lookback kwargs
     = Raises (if (lookback =? 0)%nat then TypeError else LinAlgError)) /\
  (forall pivot_window,
     lookback = 0%nat ->
     analyze (TrendlineStrategy pivot_window) df lookback kwargs = Raises IndexError) /\
  (forall pivot_window,
     kwargs_get_int kwargs "pivot_window" pivot_window = 0%nat ->
     (1 <= lookback)%nat -> (lookback <= length df)%nat ->
     analyze (TrendlineStrategy pivot_window) df lookback kwargs = Raises ValueError).
Proof.
  split; [|split].
  - intros adx_threshold r2_threshold. apply regression_raises.
  - intros pivot_window ->. apply trendline_lookback_zero.
  - intros pivot_window. apply trendline_window_zero.
Qed.

Lemma analyze_raises_witness :
  @analyze example_external (TrendlineStrategy 0) (rising_bars 1900 8) 6 ∅ = Raises ValueError.
Proof.
  apply (proj2 (proj2 (@analyze_raises example_external (rising_bars 1900 8) 6 ∅))).
  - reflexivity.
  - lia.
  - vm_compute. lia.
Defined.

(** ** The length test *)

Lemma analyze_short `{External} (self : Strategy)
    (df : DataFrame) (lookback : nat) (kwargs : gmap string Q) :
  (length df < min_bars self lookback kwargs)%nat ->
  analyze self df lookback kwargs
  = Returns (ErrorResult (InsufficientBars (min_bars self lookback kwargs) (length df))).
Proof.
  intros Hshort. apply Nat.ltb_lt in Hshort.
  destruct self; simpl in *;
    [ unfold LinearRegressionStrategy_analyze
    | unfold BollingerBandStrategy_analyze
    | unfold DonchianChannelStrategy_analyze
    | unfold TrendlineStrategy_analyze ];
    cbv zeta; rewrite Hshort; reflexivity.
Qed.

Lemma analyze_long `{External} (self : Strategy)
    (df : DataFrame) (lookback : nat) (kwargs : gmap string Q) (e : ErrorMsg) :
  (min_bars self lookback kwargs <= length df)%nat ->
  analyze self df lookback kwargs <> Returns (ErrorResult e).
Proof.
  intros Hlong Hr. apply Nat.ltb_ge in Hlong.
  destruct self; simpl in *;
    [ unfold LinearRegressionStrategy_analyze in Hr
    | unfold BollingerBandStrategy_analyze in Hr
    | unfold DonchianChannelStrategy_analyze in Hr
    | unfold TrendlineStrategy_analyze in Hr ];
    cbv zeta in Hr; rewrite Hlong in Hr; run_binds Hr; discriminate Hr.
Qed.

(** X6.  [analyze] returns the insufficient-bars dictionary exactly when
    the series is shorter than the minimum of the strategy, and the
    message then states that minimum and the number of bars.  On a series
    that passes the length test a returned result is a channel result. *)
Theorem insufficient_bars_iff `{External} (self : Strategy)
    (df : DataFrame) (lookback : nat) (kwargs : gmap string Q) :
  (forall e, analyze self df lookback kwargs = Returns (ErrorResult e) <->
     (length df < min_bars self lookback kwargs)%nat /\
     e = InsufficientBars (min_bars self lookback kwargs) (length df)) /\
  ((min_bars self lookback kwargs <= length df)%nat ->
   forall res, analyze self df lookback kwargs = Returns res -> has_error res = false).
Proof.
  split.
  - intros e. split.
    + intros Hr.
      destruct (Nat.lt_ge_cases (length df) (min_bars self lookback kwargs)) as [Hs|Hl].
      * split; [exact Hs|]. rewrite (analyze_short self df lookback kwargs Hs) in Hr.
        congruence.
      * exfalso. exact (analyze_long self df lookback kwargs e Hl Hr).
    + intros [Hs ->]. apply analyze_short. exact Hs.
  - intros Hl [e|r] Hr; [|reflexivity].
    exfalso. exact (analyze_long self df lookback kwargs e Hl Hr).
Qed.

Lemma insufficient_bars_iff_witness :
  @analyze example_external (TrendlineStrategy 1) (rising_bars 1900 3) 5 ∅
  = Returns (ErrorResult (InsufficientBars 5 3)).
Proof.
  apply (proj1 (@insufficient_bars_iff example_external (TrendlineStrategy 1)
                  (rising_bars 1900 3) 5 ∅)).
  split; [vm_compute; lia|reflexivity].
Defined.

(** ** Keyword arguments *)

Lemma kwargs_get_agree (kwargs kwargs' : gmap string Q) (k : string) (d : Q) :
  kwargs !! k = kwargs' !! k -> kwargs_get kwargs k d = kwargs_get kwargs' k d.
Proof. unfold kwargs_get. intros ->. reflexivity. Qed.

Lemma kwargs_get_int_agree (kwargs kwargs' : gmap string Q) (k : string) (d : nat) :
  kwargs !! k = kwargs' !! k -> kwargs_get_int kwargs k d = kwargs_get_int kwargs' k d.
Proof. unfold kwargs_get_int. intros ->. reflexivity. Qed.

Lemma analyze_agree `{External} (self : Strategy)
    (df : DataFrame) (lookback : nat) (kwargs kwargs' : gmap string Q) :
  (forall k, In k (keywords_read self) -> kwargs !! k = kwargs' !! k) ->
  analyze self df lookback kwargs = analyze self df lookback kwargs'.
Proof.
  intros Hagree. destruct self; simpl in *.
  - unfold LinearRegressionStrategy_analyze. cbv zeta.
    rewrite (kwargs_get_int_agree kwargs kwargs' "sma_short") by auto.
    rewrite (kwargs_get_int_agree kwargs kwargs' "sma_long") by auto.
    reflexivity.
  - unfold BollingerBandStrategy_analyze. cbv zeta.
    rewrite (kwargs_get_int_agree kwargs kwargs' "bb_period") by auto.
    rewrite (kwargs_get_agree kwargs kwargs' "bb_std") by auto.
    reflexivity.
  - unfold DonchianChannelStrategy_analyze. cbv zeta.
    rewrite (kwargs_get_int_agree kwargs kwargs' "dc_period") by auto.
    reflexivity.
  - unfold TrendlineStrategy_analyze. cbv zeta.
    rewrite (kwargs_get_int_agree kwargs kwargs' "pivot_window") by auto.
    reflexivity.
Qed.

(** X7.  [analyze] reads from [kwargs] only the keywords of its class
    ([sma_short] and [sma_long]; [bb_period] and [bb_std]; [dc_period];
    [pivot_window]): two dictionaries that agree on them give the same
    outcome.  In particular the moving-average periods that
    [analyze_timeframe] passes reach the regression strategy only: the
    other three behave as if called without keywords. *)
Theorem analyze_reads_keywords `{External} (self : Strategy)
    (df : DataFrame) (lookback : nat) (kwargs kwargs' : gmap string Q) :
  ((forall k, In k (keywords_read self) -> kwargs !! k = kwargs' !! k) ->
   analyze self df lookback kwargs = analyze self df lookback kwargs') /\
  (forall config,
     match self with
     | LinearRegressionStrategy _ _ => True
     | _ => analyze self df lookback (timeframe_kwargs config) = analyze self df lookback ∅
     end).
Proof.
  split; [apply analyze_agree|].
  intros config.
  destruct self; [exact I| | |]; apply analyze_agree; intros k Hin; simpl in Hin;
    unfold timeframe_kwargs;
    repeat (destruct Hin as [<-|Hin]; [reflexivity|]); contradiction.
Qed.

Lemma analyze_reads_keywords_witness :
  @analyze example_external (DonchianChannelStrategy 20) (rising_bars 1900 40) 30
           {[ "sma_short" := 5 ]}
  = @analyze example_external (DonchianChannelStrategy 20) (rising_bars 1900 40) 30 ∅.
Proof.
  refine (proj1 (@analyze_reads_keywords example_external (DonchianChannelStrategy 20)
                   (rising_bars 1900 40) 30 {[ "sma_short" := 5 ]} ∅) _).
  intros k Hin. simpl in Hin. destruct Hin as [<-|[]]. reflexivity.
Defined.

(** ** The position in the channel *)

Lemma rint_cases (x : Q) :
  (rint x = Qfloor x /\ x - inject_Z (Qfloor x) <= 1 # 2) \/
  (rint x = (Qfloor x + 1)%Z /\ 1 # 2 <= x - inject_Z (Qfloor x)).
Proof.
  unfold rint.
  destruct (Qcompare (x - inject_Z (Qfloor x)) (1 # 2)) eqn:E.
  - apply Qeq_alt in E. destruct (Z.even (Qfloor x)); [left|right]; split; try reflexivity;
      rewrite E; apply Qle_refl.
  - apply Qlt_alt in E. left. split; [reflexivity|]. apply Qlt_le_weak. exact E.
  - apply Qgt_alt in E. right. split; [reflexivity|]. apply Qlt_le_weak. exact E.
Qed.

(** Rounding to the nearest integer moves a number by at most one half. *)
Lemma rint_near (x : Q) : Qabs (inject_Z (rint x) - x) <= 1 # 2.
Proof.
  pose proof (Qfloor_le x) as Hfl.
  pose proof (Qlt_floor x) as Hfu.
  rewrite inject_Z_plus in Hfu. change (inject_Z 1) with 1 in Hfu.
  apply Qabs_Qle_condition.
  destruct (rint_cases x) as [[-> H]|[-> H]].
  - split; lra.
  - rewrite inject_Z_plus. change (inject_Z 1) with 1. split; lra.
Qed.

Lemma rint_mono (x y : Q) : x <= y -> (rint x <= rint y)%Z.
Proof.
  intros Hxy.
  pose proof (Qfloor_resp_le x y Hxy) as Hf.
  pose proof (Qfloor_le y) as Hfl.
  pose proof (Qlt_floor y) as Hfu.
  destruct (Z.eq_dec (Qfloor x) (Qfloor y)) as [Heq|Hne].
  - unfold rint. rewrite Heq.
    destruct (Qcompare (x - inject_Z (Qfloor y)) (1 # 2)) eqn:Ex;
      destruct (Qcompare (y - inject_Z (Qfloor y)) (1 # 2)) eqn:Ey;
      repeat match goal with
             | E : Qcompare _ _ = Eq |- _ => apply Qeq_alt in E
             | E : Qcompare _ _ = Lt |- _ => apply Qlt_alt in E
             | E : Qcompare _ _ = Gt |- _ => apply Qgt_alt in E
             end;
      try (destruct (Z.even (Qfloor y))); try lia; exfalso; lra.
  - assert (Hlt : (Qfloor x + 1 <= Qfloor y)%Z) by lia.
    destruct (rint_cases x) as [[-> _]|[-> _]]; destruct (rint_cases y) as [[-> _]|[-> _]]; lia.
Qed.

Lemma Qround_mono (x y : Q) (n : nat) : x <= y -> Qround x n <= Qround y n.
Proof.
  intros Hxy. unfold Qround.
  pose proof (pow10_pos n) as Hp.
  apply Qmult_le_compat_r; [|apply Qlt_le_weak, Qinv_lt_0_compat; exact Hp].
  rewrite <- Zle_Qle. apply rint_mono.
  apply Qmult_le_compat_r; [exact Hxy|apply Qlt_le_weak; exact Hp].
Qed.

Lemma Qround_near (x : Q) : Qabs (Qround x 1 - x) <= 1 # 20.
Proof.
  unfold Qround. change (pow10 1) with 10.
  pose proof (rint_near (x * 10)) as Hn.
  apply Qabs_Qle_condition in Hn. destruct Hn as [H1 H2].
  apply Qabs_Qle_condition.
  set (r := inject_Z (rint (x * 10))) in *.
  assert (Hr : r / 10 == r * (1 # 10)) by (unfold Qdiv; reflexivity).
  rewrite Hr. split; lra.
Qed.

(** The clamp [max(0, min(100, pct))] on a number. *)
Lemma clamp_fin (pct : Q) :
  exists c, max (Fin 0) (min (Fin 100) (Fin pct)) = Fin c /\
    (pct <= 0 -> c == 0) /\ (100 <= pct -> c == 100) /\
    (0 <= pct <= 100 -> c == pct) /\
    0 <= c <= 100 /\
    forall pct' c', pct <= pct' ->
      max (Fin 0) (min (Fin 100) (Fin pct')) = Fin c' -> c <= c'.
Proof.
  assert (Hval : forall p, exists c,
            max (Fin 0) (min (Fin 100) (Fin p)) = Fin c /\
            ((p <= 0 /\ c == 0) \/ (100 <= p /\ c == 100) \/ (0 <= p <= 100 /\ c == p))).
  { intros p. unfold min, max, gt, lt.
    destruct (Qltb p 100) eqn:E1.
    - apply Qltb_true in E1. destruct (Qltb 0 p) eqn:E2.
      + apply Qltb_true in E2. exists p. split; [reflexivity|].
        right. right. split; [lra|reflexivity].
      + apply Qltb_false in E2. exists 0. split; [reflexivity|].
        left. split; [lra|reflexivity].
    - apply Qltb_false in E1. exists 100. split; [reflexivity|].
      right. left. split; [lra|reflexivity]. }
  destruct (Hval pct) as (c & Hc & Hcases).
  exists c. split; [exact Hc|].
  split; [|split; [|split; [|split]]].
  - intros Hp. destruct Hcases as [[_ E]|[[Hq E]|[Hq E]]]; lra.
  - intros Hp. destruct Hcases as [[Hq E]|[[_ E]|[Hq E]]]; lra.
  - intros Hp. destruct Hcases as [[Hq E]|[[Hq E]|[_ E]]]; lra.
  - destruct Hcases as [[Hq E]|[[Hq E]|[Hq E]]]; lra.
  - intros pct' c' Hle Hc'.
    destruct (Hval pct') as (c'' & Hc'' & Hcases').
    rewrite Hc'' in Hc'. injection Hc' as <-.
    destruct Hcases as [[Hq E]|[[Hq E]|[Hq E]]];
      destruct Hcases' as [[Hq' E']|[[Hq' E']|[Hq' E']]]; lra.
Qed.

Lemma position_ratio (price upper lower : Q) :
  lower < upper ->
  (price <= lower -> (price - lower) / (upper - lower) * 100 <= 0) /\
  (upper <= price -> 100 <= (price - lower) / (upper - lower) * 100) /\
  (lower <= price <= upper -> 0 <= (price - lower) / (upper - lower) * 100 <= 100) /\
  (forall price', price <= price' ->
     (price - lower) / (upper - lower) * 100 <= (price' - lower) / (upper - lower) * 100).
Proof.
  intros Hband.
  assert (Hw : 0 < upper - lower) by lra.
  assert (Hmono : forall a b, a <= b -> a / (upper - lower) * 100 <= b / (upper - lower) * 100).
  { intros a b Hab. apply Qmult_le_compat_r; [|lra].
    unfold Qdiv. apply Qmult_le_compat_r; [exact Hab|].
    apply Qlt_le_weak, Qinv_lt_0_compat. exact Hw. }
  assert (H0 : 0 / (upper - lower) * 100 == 0) by (unfold Qdiv; ring).
  assert (H1 : (upper - lower) / (upper - lower) * 100 == 100).
  { field. lra. }
  assert (Hlo : forall a, a <= 0 -> a / (upper - lower) * 100 <= 0).
  { intros a Ha. apply (Qle_trans _ (0 / (upper - lower) * 100)).
    - apply Hmono. exact Ha.
    - rewrite H0. apply Qle_refl. }
  assert (Hlo' : forall a, 0 <= a -> 0 <= a / (upper - lower) * 100).
  { intros a Ha. apply (Qle_trans _ (0 / (upper - lower) * 100)).
    - rewrite H0. apply Qle_refl.
    - apply Hmono. exact Ha. }
  assert (Hhi : forall a, upper - lower <= a -> 100 <= a / (upper - lower) * 100).
  { intros a Ha. apply (Qle_trans _ ((upper - lower) / (upper - lower) * 100)).
    - rewrite H1. apply Qle_refl.
    - apply Hmono. exact Ha. }
  assert (Hhi' : forall a, a <= upper - lower -> a / (upper - lower) * 100 <= 100).
  { intros a Ha. apply (Qle_trans _ ((upper - lower) / (upper - lower) * 100)).
    - apply Hmono. exact Ha.
    - rewrite H1. apply Qle_refl. }
  split; [|split; [|split]].
  - intros Hp. apply Hlo. lra.
  - intros Hp. apply Hhi. lra.
  - intros [Hp1 Hp2]. split; [apply Hlo'|apply Hhi']; lra.
  - intros price' Hle. apply Hmono. lra.
Qed.

Lemma calc_position_pct_proper (price upper lower : Q) :
  lower < upper ->
  _calc_position_pct (Fin price) (Fin upper) (Fin lower)
  = round (max (Fin 0) (min (Fin 100)
             (Fin ((price - lower) / (upper - lower) * 100)))) 1.
Proof.
  intros Hband. unfold _calc_position_pct. cbv zeta.
  assert (E : gt (sub (Fin upper) (Fin lower)) (Fin 0) = true).
  { unfold gt, lt, sub, lift2. apply Qltb_true. lra. }
  rewrite E. reflexivity.
Qed.

(** X8.  For a band with [lower < upper], [_calc_position_pct] returns 0
    for a price at or below the lower bound, 100 for a price at or above
    the upper bound, and between the bounds the percentage
    [(price - lower) / (upper - lower) * 100] within 0.05 (the rounding to
    one decimal); it is monotone in the price; and a NaN price is placed
    at 100. *)
Theorem calc_position_pct_placement (price upper lower : Q) :
  lower < upper ->
  exists q,
    _calc_position_pct (Fin price) (Fin upper) (Fin lower) = Fin q /\
    (price <= lower -> q == 0) /\
    (upper <= price -> q == 100) /\
    (lower <= price <= upper ->
       Qabs (q - (price - lower) / (upper - lower) * 100) <= 1 # 20) /\
    (forall price' q', price <= price' ->
       _calc_position_pct (Fin price') (Fin upper) (Fin lower) = Fin q' -> q <= q') /\
    (exists q_nan, _calc_position_pct NaN (Fin upper) (Fin lower) = Fin q_nan /\ q_nan == 100).
Proof.
  intros Hband.
  destruct (position_ratio price upper lower Hband) as (Hlow & Hhigh & Hmid & Hmono).
  rewrite (calc_position_pct_proper price upper lower Hband).
  destruct (clamp_fin ((price - lower) / (upper - lower) * 100))
    as (c & Hc & Hc0 & Hc100 & Hcmid & Hrange & Hcmono).
  rewrite Hc. cbn [round].
  exists (Qround c 1). split; [reflexivity|].
  split; [|split; [|split; [|split]]].
  - intros Hp. specialize (Hc0 (Hlow Hp)).
    destruct (Qround_between 0 0 c 1) as [H1 H2]; [rewrite Hc0; apply Qle_refl ..|].
    apply Qle_antisym; assumption.
  - intros Hp. specialize (Hc100 (Hhigh Hp)).
    destruct (Qround_between 100 100 c 1) as [H1 H2]; [rewrite Hc100; apply Qle_refl ..|].
    apply Qle_antisym; assumption.
  - intros Hp. specialize (Hcmid (Hmid Hp)).
    pose proof (Qround_near c) as Hn.
    apply Qabs_Qle_condition in Hn. apply Qabs_Qle_condition. lra.
  - intros price' q' Hle Hq'.
    rewrite (calc_position_pct_proper price' upper lower Hband) in Hq'.
    destruct (clamp_fin ((price' - lower) / (upper - lower) * 100)) as (c' & Hc' & _).
    rewrite Hc' in Hq'. cbn [round] in Hq'. injection Hq' as <-.
    apply Qround_mono. apply (Hcmono _ c' (Hmono price' Hle) Hc').
  - unfold _calc_position_pct. cbv zeta.
    assert (E : gt (sub (Fin upper) (Fin lower)) (Fin 0) = true).
    { unfold gt, lt, sub, lift2. apply Qltb_true. lra. }
    rewrite E. eexists. split; [reflexivity|]. vm_compute. reflexivity.
Qed.

Lemma calc_position_pct_placement_witness :
  exists q, _calc_position_pct (Fin 1960) (Fin 1950) (Fin 1900) = Fin q /\ q == 100.
Proof.
  assert (Hband : 1900 < 1950) by reflexivity.
  destruct (calc_position_pct_placement 1960 1950 1900 Hband) as (q & Hq & _ & Hup & _).
  exists q. split; [exact Hq|]. apply Hup. discriminate.
Defined.

Lemma proximity_position (price : Q) (upper lower : num) :
  let dist_to_upper :=
    if gt (sub upper lower) (Fin 0)
    then div (sub upper (Fin price)) (sub upper lower)
    else Fin (1 # 2) in
  exists q, _calc_position_pct (Fin price) upper lower = Fin q /\
    (lt dist_to_upper (Fin (1 # 10)) = true -> 90 <= q) /\
    (gt dist_to_upper (Fin (9 # 10)) = true -> q <= 10).
Proof.
  cbv zeta.
  destruct (gt (sub upper lower) (Fin 0)) eqn:Ew.
  - destruct upper as [u|], lower as [l|]; try discriminate Ew.
    unfold gt, lt, sub, lift2 in Ew. apply Qltb_true in Ew.
    assert (Hband : l < u) by lra.
    rewrite (calc_position_pct_proper price u l Hband).
    destruct (clamp_fin ((price - l) / (u - l) * 100))
      as (c & Hc & Hc0 & Hc100 & Hcmid & Hrange & _).
    rewrite Hc. cbn [round]. exists (Qround c 1). split; [reflexivity|].
    assert (Hratio : (price - l) / (u - l) * 100 == 100 - (u - price) / (u - l) * 100).
    { field. lra. }
    unfold gt, lt, div, sub, lift2.
    set (d := (u - price) / (u - l)) in *.
    set (pct := (price - l) / (u - l) * 100) in *.
    destruct Hrange as [Hr0 Hr100].
    split.
    + intros Hd. apply Qltb_true in Hd.
      assert (Hge90 : 90 <= c).
      { destruct (Qlt_le_dec pct 100) as [Hlt|Hge].
        - assert (Hc' : c == pct) by (apply Hcmid; lra). lra.
        - rewrite (Hc100 Hge). discriminate. }
      apply (Qround_between 90 100); assumption.
    + intros Hd. apply Qltb_true in Hd.
      assert (Hle10 : c <= 10).
      { destruct (Qlt_le_dec 0 pct) as [Hlt|Hge].
        - assert (Hc' : c == pct) by (apply Hcmid; lra). lra.
        - rewrite (Hc0 Hge). discriminate. }
      apply (Qround_between 0 10); assumption.
  - exists 50. unfold _calc_position_pct. cbv zeta. rewrite Ew.
    split; [reflexivity|]. split; intros Hd; vm_compute in Hd; discriminate Hd.
Qed.

(** X9.  In a result of the range strategy the proximity label agrees
    with the position: near the upper bound the position is at least 90,
    near the lower bound at most 10, and a position strictly between 10
    and 90 is labelled inside the channel. *)
Theorem donchian_proximity `{External} (dc_period : nat)
    (df : DataFrame) (lookback : nat) (kwargs : gmap string Q) (r : ChannelResult) :
  DonchianChannelStrategy_analyze dc_period df lookback kwargs = Returns (Channel r) ->
  exists q, position_pct r = Fin q /\
    (sma_cross r = "接近上轨（可能突破）" -> 90 <= q) /\
    (sma_cross r = "接近下轨（可能跌破）" -> q <= 10) /\
    (10 < q -> q < 90 -> sma_cross r = "通道内部").
Proof.
  intros Hr. unfold DonchianChannelStrategy_analyze in Hr. cbv zeta in Hr.
  run_binds Hr. subst r. cbn [position_pct sma_cross].
  match goal with
  | |- context [_calc_position_pct (Fin ?p) ?u ?l] =>
      destruct (proximity_position p u l) as (q & Hq & Hup & Hdown)
  end.
  cbv zeta in Hup, Hdown. exists q. split; [exact Hq|].
  match goal with
  | |- context [if ?near then _ else if ?far then _ else _] =>
      assert (Hup' : near = true -> 90 <= q) by exact Hup;
      assert (Hdown' : far = true -> q <= 10) by exact Hdown;
      destruct near; [|destruct far]
  end.
  - split; [intros _; apply Hup'; reflexivity|].
    split; [intros Hs; discriminate Hs|].
    intros H1 H2. specialize (Hup' eq_refl). exfalso. lra.
  - split; [intros Hs; discriminate Hs|].
    split; [intros _; apply Hdown'; reflexivity|].
    intros H1 H2. specialize (Hdown' eq_refl). exfalso. lra.
  - split; [intros Hs; discriminate Hs|].
    split; [intros Hs; discriminate Hs|]. reflexivity.
Qed.

Lemma donchian_proximity_witness :
  exists r q,
    @analyze example_external (DonchianChannelStrategy 2) (rising_bars 1900 12) 5 ∅
      = Returns (Channel r) /\
    position_pct r = Fin q /\ 90 <= q.
Proof.
  assert (E : exists r,
    @DonchianChannelStrategy_analyze example_external 2 (rising_bars 1900 12) 5 ∅
      = Returns (Channel r) /\ sma_cross r = "接近上轨（可能突破）")
    by (vm_compute; eexists; split; reflexivity).
  destruct E as (r & E & Hnear).
  destruct (@donchian_proximity example_external 2 (rising_bars 1900 12) 5 ∅ r E)
    as (q & Hq & Hup & _).
  exists r, q. split; [exact E|]. split; [exact Hq|]. apply Hup. exact Hnear.
Defined.

(** ** The pattern of the trendlines *)

(** X10.  In a result of the pivot-trendline strategy the class and the
    pattern agree: Up comes with the ascending-channel pattern, Down with
    the descending-channel pattern, Transitioning with one of the two, and
    Sideways exactly with the insufficient-pivots mark, the converging
    triangle, the expanding formation and the unclear pattern. *)
Theorem trendline_pattern `{External} (pivot_window : nat)
    (df : DataFrame) (lookback : nat) (kwargs : gmap string Q) (r : ChannelResult) :
  TrendlineStrategy_analyze pivot_window df lookback kwargs = Returns (Channel r) ->
  (channel_type r = CHANNEL_UP -> sma_cross r = "上升通道") /\
  (channel_type r = CHANNEL_DOWN -> sma_cross r = "下降通道") /\
  (channel_type r = CHANNEL_TRANSITION ->
     sma_cross r = "上升通道" \/ sma_cross r = "下降通道") /\
  (channel_type r = CHANNEL_SIDEWAYS <->
     In (sma_cross r) ["极值点不足"; "收敛三角形"; "扩张形态"; "不明确"]).
Proof.
  intros Hr. unfold TrendlineStrategy_analyze in Hr. cbv zeta in Hr.
  run_binds Hr; subst r; cbn [channel_type sma_cross].
  - repeat split; try discriminate; intros; simpl; auto.
  - match goal with
    | |- context [polyfit ?x ?y] => idtac
    | _ => idtac
    end.
    repeat match goal with
           | |- context [Qgtb ?a 0] =>
               let b := fresh "b" in set (b := Qgtb a 0) in *; clearbody b
           | |- context [Qltb ?a 0] =>
               let b := fresh "b" in set (b := Qltb a 0) in *; clearbody b
           | |- context [Qgeb ?a 20] =>
               let b := fresh "b" in set (b := Qgeb a 20) in *; clearbody b
           end.
    repeat match goal with b : bool |- _ => destruct b end;
      cbn [andb orb];
      (split; [|split; [|split; [|split]]]);
      try (intros Hx; discriminate Hx); try reflexivity;
      try (intros _; first [left; reflexivity | right; reflexivity]);
      try (intros _; simpl; tauto);
      try (intros Hx; simpl in Hx;
           repeat (destruct Hx as [Hx|Hx]; [discriminate Hx|]); contradiction).
Qed.

Lemma trendline_pattern_witness :
  exists r,
    @analyze example_external (TrendlineStrategy 1) (rising_bars 1900 8) 6 ∅
      = Returns (Channel r) /\
    channel_type r = CHANNEL_SIDEWAYS.
Proof.
  assert (E : exists r,
    @TrendlineStrategy_analyze example_external 1 (rising_bars 1900 8) 6 ∅
      = Returns (Channel r) /\ sma_cross r = "极值点不足")
    by (vm_compute; eexists; split; reflexivity).
  destruct E as (r & E & Hmark).
  exists r. split; [exact E|].
  apply (proj2 (proj2 (proj2 (@trendline_pattern example_external 1 (rising_bars 1900 8) 6 ∅
                                r E)))).
  rewrite Hmark. left. reflexivity.
Defined.

(** ** The bounds of the regression channel *)

Lemma np_mean_nonneg (xs : list Q) : Forall (fun x => 0 <= x) xs -> 0 <= np_mean xs.
Proof.
  intros Hxs. unfold np_mean, Qdiv.
  apply Qmult_le_0_compat; [apply Qsum_nonneg; exact Hxs|].
  apply Qinv_le_0_compat. unfold Qlen. rewrite <- (Zle_Qle 0). lia.
Qed.

(** X28.  The bounds of the regression channel.  The centre is the value of
    the fitted line at the last bar of the window and the bounds lie one
    and a half standard deviations of the residuals below and above it:
    as the standard deviation is not negative, the three values stored in
    the result are in order, and the stored width is not negative. *)
Theorem regression_bands `{External} (adx_threshold r2_threshold : Q)
    (df : DataFrame) (lookback : nat) (kwargs : gmap string Q) (r : ChannelResult) :
  (forall q, 0 <= q -> 0 <= np_sqrt q) ->
  LinearRegressionStrategy_analyze adx_threshold r2_threshold df lookback kwargs
    = Returns (Channel r) ->
  let close := List.map bar_close (tail lookback df) in
  exists coeffs lo up width,
    polyfit (arange lookback) close = Returns coeffs /\
    center r = Fin (Qround (polyval coeffs (of_int (lookback - 1))) 2) /\
    lower_band r = Fin lo /\
    upper_band r = Fin up /\
    In ("band_width"%string, DNum (Fin width)) (details r) /\
    lo <= Qround (polyval coeffs (of_int (lookback - 1))) 2 /\
    Qround (polyval coeffs (of_int (lookback - 1))) 2 <= up /\
    0 <= width.
Proof.
  intros Hsqrt Hr close.
  unfold LinearRegressionStrategy_analyze in Hr. cbv zeta in Hr. fold close in Hr.
  destruct (length df <? Nat.max lookback (kwargs_get_int kwargs "sma_long" 60 + 10))%nat
    eqn:Elen; [discriminate Hr|].
  apply Nat.ltb_ge in Elen.
  assert (Hn : length close = lookback).
  { unfold close. rewrite List.length_map. apply tail_length. lia. }
  rewrite Hn in Hr.
  destruct (polyfit (arange lookback) close) as [coeffs|e] eqn:Hfit; [|discriminate Hr].
  cbn [bind] in Hr.
  assert (Hlb : (2 <= lookback)%nat).
  { rewrite <- Hn in Hfit. rewrite <- Hn. exact (polyfit_arange_inv close coeffs Hfit). }
  assert (Hcenter : last_item (List.map (polyval coeffs) (arange lookback))
                    = Returns (polyval coeffs (of_int (lookback - 1)))).
  { unfold arange. rewrite List.map_map.
    replace lookback with (S (lookback - 1)) at 1 by lia.
    apply (last_item_map_seq (fun i => polyval coeffs (inject_Z (Z.of_nat i)))). }
  rewrite Hcenter in Hr. cbn [bind] in Hr.
  set (c := polyval coeffs (of_int (lookback - 1))) in *.
  set (std_dev := np_std (zip_with Qminus close (List.map (polyval coeffs) (arange lookback))))
    in *.
  assert (Hstd : 0 <= std_dev).
  { unfold std_dev, np_std. cbv zeta. apply Hsqrt. apply np_mean_nonneg. apply squares_nonneg. }
  run_binds Hr. subst r. cbn [center lower_band upper_band details].
  exists coeffs. eexists _, _, _.
  split; [reflexivity|]. split; [reflexivity|]. split; [reflexivity|]. split; [reflexivity|].
  split; [do 6 right; left; reflexivity|].
  fold c. clearbody c std_dev.
  split; [apply Qround_mono; lra|]. split; [apply Qround_mono; lra|].
  assert (H0 : Qround 0 2 == 0) by reflexivity.
  rewrite <- H0. apply Qround_mono. lra.
Qed.

Lemma regression_bands_witness :
  exists r,
    @analyze example_external (LinearRegressionStrategy 25 (1 # 2)) (rising_bars 1900 20) 5
             {[ "sma_short" := 2; "sma_long" := 5 ]}
      = Returns (Channel r) /\
    exists c, center r = Fin c /\ c == 1919.
Proof.
  assert (E : exists r,
    @analyze example_external (LinearRegressionStrategy 25 (1 # 2)) (rising_bars 1900 20) 5
             {[ "sma_short" := 2; "sma_long" := 5 ]}
      = Returns (Channel r)) by (vm_compute; eexists; reflexivity).
  destruct E as [r E]. exists r. split; [exact E|].
  destruct (@regression_bands example_external 25 (1 # 2) (rising_bars 1900 20) 5
              {[ "sma_short" := 2; "sma_long" := 5 ]} r)
    as (coeffs & lo & up & width & Hfit & Hc & _); [intros q Hq; exact Hq | exact E |].
  eexists. split; [exact Hc|]. vm_compute in Hfit. injection Hfit as <-. reflexivity.
Defined.

(** ** The registry and construction parameters *)

Lemma registry_construct (n : string) (kwargs : gmap string Q) :
  match ALL_STRATEGIES !! n with
  | Some cls =>
      (n ∈ dom ALL_STRATEGIES) /\
      exists params, init_params n = Some params /\
        (dom kwargs ⊆ params -> exists s, cls kwargs = Returns s /\ name s = n) /\
        (~ dom kwargs ⊆ params -> cls kwargs = Raises TypeError)
  | None => (n ∉ dom ALL_STRATEGIES) /\ init_params n = None
  end.
Proof.
  destruct (ALL_STRATEGIES !! n) as [cls|] eqn:E.
  - split; [apply elem_of_dom; eauto|].
    unfold ALL_STRATEGIES in E.
    assert (Hcons : forall params init,
              (forall kw, name (init kw) = n) ->
              (dom kwargs ⊆ params ->
                 exists s, construct params init kwargs = Returns s /\ name s = n) /\
              (~ dom kwargs ⊆ params -> construct params init kwargs = Raises TypeError)).
    { intros params init Hname. unfold construct.
      destruct (decide (dom kwargs ⊆ params)) as [Hsub|Hsub].
      - split; [intros _; eauto|]. intros Hn. contradiction.
      - split; [intros Hs; contradiction|reflexivity]. }
    repeat (apply lookup_insert_Some in E; destruct E as [[<- <-]|[? E]];
            [eexists; split; [reflexivity|]; apply Hcons; reflexivity|]).
    apply lookup_singleton_Some in E. destruct E as [<- <-].
    eexists; split; [reflexivity|]. apply Hcons. reflexivity.
  - split; [apply not_elem_of_dom; exact E|].
    unfold ALL_STRATEGIES in E.
    repeat (apply lookup_insert_None in E; destruct E as [E ?]).
    apply lookup_singleton_None in E.
    unfold init_params.
    repeat match goal with
           | |- context [String.eqb n ?k] =>
               destruct (String.eqb_spec n k) as [->|_]; [congruence|]
           end.
    reflexivity.
Qed.

Lemma get_strategies_loop_accepts (names : list string) (kwargs : gmap string Q) :
  Forall (accepts kwargs) (List.map normalise names) ->
  exists strategies unknown,
    get_strategies_loop names kwargs = Returns (strategies, unknown) /\
    List.map name strategies
      = filter (fun n => n ∈ dom ALL_STRATEGIES) (List.map normalise names) /\
    unknown = filter (fun n => n ∉ dom ALL_STRATEGIES) (List.map normalise names).
Proof.
  induction names as [|n rest IH]; intros Hall.
  - exists [], []. repeat split.
  - simpl in Hall. apply List.Forall_cons_iff in Hall. destruct Hall as [Hn Hrest].
    destruct (IH Hrest) as (strategies & unknown & Hloop & Hs & Hu).
    simpl. fold (normalise n). rewrite Hloop.
    pose proof (registry_construct (normalise n) kwargs) as Hl.
    destruct (ALL_STRATEGIES !! normalise n) as [cls|].
    + destruct Hl as (Hin & params & Hp & Hok & _).
      unfold accepts in Hn. rewrite Hp in Hn.
      destruct (Hok Hn) as (s & Hcls & Hname). rewrite Hcls. simpl.
      exists (s :: strategies), unknown. split; [reflexivity|].
      rewrite filter_cons_True by assumption.
      rewrite filter_cons_False by (intros Hx; apply Hx; assumption).
      simpl. rewrite Hname, Hs. split; [reflexivity|assumption].
    + destruct Hl as [Hnot _]. simpl.
      exists strategies, (normalise n :: unknown). split; [reflexivity|].
      rewrite filter_cons_False by assumption.
      rewrite filter_cons_True by assumption.
      split; [assumption|congruence].
Qed.

Lemma get_strategies_loop_outcome (names : list string) (kwargs : gmap string Q) :
  (exists r, get_strategies_loop names kwargs = Returns r /\
             Forall (accepts kwargs) (List.map normalise names)) \/
  (get_strategies_loop names kwargs = Raises TypeError /\
   ~ Forall (accepts kwargs) (List.map normalise names)).
Proof.
  induction names as [|n rest IH].
  - left. eexists. split; [reflexivity|constructor].
  - simpl. fold (normalise n).
    pose proof (registry_construct (normalise n) kwargs) as Hl.
    destruct (ALL_STRATEGIES !! normalise n) as [cls|].
    + destruct Hl as (_ & params & Hp & Hok & Hbad).
      destruct (decide (dom kwargs ⊆ params)) as [Hsub|Hsub].
      * destruct (Hok Hsub) as (s & -> & _). simpl.
        destruct IH as [(r & -> & Hall)|[-> Hnot]]; simpl.
        -- left. eexists. split; [reflexivity|].
           constructor; [unfold accepts; rewrite Hp; exact Hsub|exact Hall].
        -- right. split; [reflexivity|]. intros Hall.
           apply List.Forall_cons_iff in Hall. apply Hnot. apply Hall.
      * rewrite (Hbad Hsub). simpl. right. split; [reflexivity|].
        intros Hall. apply List.Forall_cons_iff in Hall. destruct Hall as [Hn _].
        unfold accepts in Hn. rewrite Hp in Hn. contradiction.
    + destruct Hl as [_ Hp].
      destruct IH as [(r & -> & Hall)|[-> Hnot]]; simpl.
      * left. eexists. split; [reflexivity|].
        constructor; [unfold accepts; rewrite Hp; exact I|exact Hall].
      * right. split; [reflexivity|]. intros Hall.
        apply List.Forall_cons_iff in Hall. apply Hnot. apply Hall.
Qed.

(** Two registered classes that declare a common parameter are the same. *)
Lemma init_params_disjoint (n n' k : string) (p p' : gset string) :
  init_params n = Some p -> init_params n' = Some p' -> k ∈ p -> k ∈ p' -> n = n'.
Proof.
  unfold init_params. intros Hp Hp' Hk Hk'.
  repeat match type of Hp with
         | context [String.eqb n ?a] => destruct (String.eqb_spec n a) as [->|_]
         end;
  repeat match type of Hp' with
         | context [String.eqb n' ?a] => destruct (String.eqb_spec n' a) as [->|_]
         end;
  try discriminate; try reflexivity;
  injection Hp as <-; injection Hp' as <-; exfalso;
  revert Hk Hk'; set_unfold; intuition congruence.
Qed.

(** X12.  [get_strategies] with construction parameters.  The call
    returns exactly when every recognised class among the requested names
    declares all the keywords, and raises [TypeError], and nothing else,
    otherwise.  When it returns, the instances are those of the recognised
    names, in the order requested and with repetitions, and the other
    names are reported as unknown.  As no two classes share a parameter, a
    call with at least one keyword returns instances of one class only. *)
Theorem get_strategies_keywords (names : option (list string)) (kwargs : gmap string Q) :
  let requested := List.map normalise (requested_names names) in
  (Forall (accepts kwargs) requested <-> exists r, get_strategies names kwargs = Returns r) /\
  (~ Forall (accepts kwargs) requested <-> get_strategies names kwargs = Raises TypeError) /\
  (forall e, get_strategies names kwargs = Raises e -> e = TypeError) /\
  (forall strategies unknown,
     get_strategies names kwargs = Returns (strategies, unknown) ->
     List.map name strategies = filter (fun n => n ∈ dom ALL_STRATEGIES) requested /\
     unknown = filter (fun n => n ∉ dom ALL_STRATEGIES) requested /\
     (kwargs <> ∅ ->
      forall s s', In s strategies -> In s' strategies -> name s = name s')).
Proof.
  intros requested.
  assert (Hget : get_strategies names kwargs
                 = get_strategies_loop (requested_names names) kwargs) by reflexivity.
  rewrite Hget. subst requested.
  pose proof (get_strategies_loop_outcome (requested_names names) kwargs) as Hout.
  split; [|split; [|split]].
  - split.
    + intros Hall. destruct Hout as [(r & Hr & _)|[_ Hnot]]; [eauto|contradiction].
    + intros [r Hr]. destruct Hout as [(r' & _ & Hall)|[Hraise _]]; [exact Hall|congruence].
  - split.
    + intros Hnot. destruct Hout as [(r & _ & Hall)|[Hraise _]]; [contradiction|exact Hraise].
    + intros Hraise. destruct Hout as [(r & Hr & _)|[_ Hnot]]; [congruence|exact Hnot].
  - intros e He. destruct Hout as [(r & Hr & _)|[Hraise _]]; congruence.
  - intros strategies unknown Hr.
    assert (Hall : Forall (accepts kwargs) (List.map normalise (requested_names names))).
    { destruct Hout as [(r & _ & Hall)|[Hraise _]]; [exact Hall|congruence]. }
    destruct (get_strategies_loop_accepts _ kwargs Hall) as (ss & us & Hloop & Hs & Hu).
    rewrite Hloop in Hr. injection Hr as <- <-.
    split; [exact Hs|]. split; [exact Hu|].
    intros Hne s s' Hin Hin'.
    assert (Hk : exists k, k ∈ dom kwargs).
    { destruct (decide (dom kwargs = ∅)) as [He|He].
      - apply dom_empty_inv_L in He. contradiction.
      - apply set_choose_L in He. exact He. }
    destruct Hk as [k Hk].
    assert (Hparams : forall t, In t ss ->
              exists p, init_params (name t) = Some p /\ k ∈ p).
    { intros t Ht.
      assert (Hn : In (name t) (List.map name ss)) by (apply in_map; exact Ht).
      rewrite Hs in Hn. apply list_elem_of_In in Hn. apply list_elem_of_filter in Hn.
      destruct Hn as [Hdom Hreq].
      rewrite List.Forall_forall in Hall. apply list_elem_of_In in Hreq.
      specialize (Hall _ Hreq). unfold accepts in Hall.
      pose proof (registry_construct (name t) kwargs) as Hl.
      destruct (ALL_STRATEGIES !! name t) as [cls|] eqn:E.
      - destruct Hl as (_ & p & Hp & _). rewrite Hp in Hall.
        exists p. split; [exact Hp|]. apply Hall. exact Hk.
      - destruct Hl as [Hnot _]. contradiction. }
    destruct (Hparams s Hin) as (p & Hp & Hkp).
    destruct (Hparams s' Hin') as (p' & Hp' & Hkp').
    exact (init_params_disjoint _ _ k p p' Hp Hp' Hkp Hkp').
Qed.

Lemma get_strategies_keywords_witness :
  (exists r, get_strategies (Some [(NBSP ++ "Bollinger ")%string; "macd"]) {[ "bb_period" := 30 ]}
             = Returns r) /\
  get_strategies (Some [(NBSP ++ "bollinger")%string]) {[ "adx_threshold" := 30 ]}
    = Raises TypeError.
Proof.
  split.
  - apply (proj1 (get_strategies_keywords (Some [(NBSP ++ "Bollinger ")%string; "macd"])
                    {[ "bb_period" := 30 ]})).
    repeat constructor. unfold accepts. simpl. rewrite dom_singleton_L. set_solver.
  - apply (proj1 (proj1 (proj2 (get_strategies_keywords (Some [(NBSP ++ "bollinger")%string])
                    {[ "adx_threshold" := 30 ]})))).
    intros Hall. apply List.Forall_cons_iff in Hall. destruct Hall as [Hacc _].
    unfold accepts in Hacc. simpl in Hacc. rewrite dom_singleton_L in Hacc.
    assert (Hin : "adx_threshold"%string ∈ ({[ "bb_period"; "bb_std" ]} : gset string))
      by (apply Hacc; apply elem_of_singleton; reflexivity).
    apply elem_of_union in Hin. rewrite !elem_of_singleton in Hin.
    destruct Hin as [Hin|Hin]; discriminate Hin.
Defined.

(** ** White space around the names *)

Lemma lstrip_space (p : N) (l : list ascii) :
  In p WHITESPACE -> lstrip (utf8_encode_char p ++ l) = lstrip l.
Proof.
  intros Hin. unfold WHITESPACE in Hin. simpl in Hin.
  repeat (destruct Hin as [<-|Hin]; [reflexivity|]). contradiction.
Qed.

Lemma rstrip_space (p : N) (l : list ascii) :
  In p WHITESPACE -> rstrip_rev (List.rev (utf8_encode_char p) ++ l) = rstrip_rev l.
Proof.
  intros Hin. unfold WHITESPACE in Hin. simpl in Hin.
  repeat (destruct Hin as [<-|Hin]; [reflexivity|]). contradiction.
Qed.

Lemma lstrip_blank (ps : list N) (l : list ascii) :
  blank ps -> lstrip (utf8_encode ps ++ l) = lstrip l.
Proof.
  induction 1 as [|p ps Hp _ IH]; [reflexivity|].
  unfold utf8_encode. simpl. fold (utf8_encode ps).
  rewrite <- List.app_assoc. rewrite lstrip_space by exact Hp. exact IH.
Qed.

Lemma rstrip_blank (ps : list N) (l : list ascii) :
  blank ps -> rstrip_rev (List.rev (utf8_encode ps) ++ l) = rstrip_rev l.
Proof.
  intros Hb. revert l. induction Hb as [|p ps Hp _ IH]; intros l; [reflexivity|].
  unfold utf8_encode. simpl. fold (utf8_encode ps).
  rewrite List.rev_app_distr, <- List.app_assoc, IH.
  apply rstrip_space. exact Hp.
Qed.

Lemma is_space2_start (a b : ascii) :
  (nat_of_ascii b < 128 \/ 192 <= nat_of_ascii b)%nat -> is_space2 a b = false.
Proof.
  intros Hb. unfold is_space2. cbv zeta.
  destruct (Nat.eqb_spec (nat_of_ascii b) 133); [lia|].
  destruct (Nat.eqb_spec (nat_of_ascii b) 160); [lia|].
  apply andb_false_r.
Qed.

Lemma is_space3_start (a b c : ascii) :
  (nat_of_ascii c < 128 \/ 192 <= nat_of_ascii c)%nat -> is_space3 a b c = false.
Proof.
  intros Hc. unfold is_space3. cbv zeta.
  destruct (Nat.eqb_spec (nat_of_ascii c) 128); [lia|].
  destruct (Nat.eqb_spec (nat_of_ascii c) 159); [lia|].
  destruct (Nat.eqb_spec (nat_of_ascii c) 168); [lia|].
  destruct (Nat.eqb_spec (nat_of_ascii c) 169); [lia|].
  destruct (Nat.eqb_spec (nat_of_ascii c) 175); [lia|].
  destruct (Nat.leb_spec 128 (nat_of_ascii c)); destruct (Nat.leb_spec (nat_of_ascii c) 138);
    try lia; cbn [andb orb]; rewrite ?andb_false_r; reflexivity.
Qed.

Lemma is_space3_start2 (a b c : ascii) :
  (nat_of_ascii b < 128 \/ 192 <= nat_of_ascii b)%nat -> is_space3 a b c = false.
Proof.
  intros Hb. unfold is_space3. cbv zeta.
  destruct (Nat.eqb_spec (nat_of_ascii b) 154); [lia|].
  destruct (Nat.eqb_spec (nat_of_ascii b) 128); [lia|].
  destruct (Nat.eqb_spec (nat_of_ascii b) 129); [lia|].
  rewrite ?andb_false_r. reflexivity.
Qed.

(** Stripping on the left looks at most at the start of what follows the
    text: white space after the text stays, unless the text is blank. *)
Lemma lstrip_app (n : nat) (s t : list ascii) :
  (length s <= n)%nat -> starts_char t ->
  lstrip (s ++ t) = match lstrip s with [] => lstrip t | _ :: _ => lstrip s ++ t end.
Proof.
  revert s. induction n as [|n IH]; intros s Hlen Ht.
  - destruct s; [reflexivity|simpl in Hlen; lia].
  - destruct s as [|a r1]; [reflexivity|]. simpl in Hlen.
    change ((a :: r1) ++ t) with (a :: (r1 ++ t)).
    cbn [lstrip]. destruct (is_space a) eqn:Ea.
    { apply IH; [lia|exact Ht]. }
    destruct r1 as [|b r2].
    { cbn [app]. destruct t as [|c t1]; [reflexivity|].
      cbn [starts_char] in Ht. rewrite (is_space2_start a c Ht).
      destruct t1 as [|d t2]; [reflexivity|].
      rewrite (is_space3_start2 a c d Ht). reflexivity. }
    change ((b :: r2) ++ t) with (b :: (r2 ++ t)). cbn iota.
    destruct (is_space2 a b) eqn:E2.
    { apply IH; [simpl in Hlen; lia|exact Ht]. }
    destruct r2 as [|c r3].
    { cbn [app]. destruct t as [|c t1]; [reflexivity|].
      cbn [starts_char] in Ht. rewrite (is_space3_start a b c Ht). reflexivity. }
    change ((c :: r3) ++ t) with (c :: (r3 ++ t)). cbn iota.
    destruct (is_space3 a b c) eqn:E3.
    { apply IH; [simpl in Hlen; lia|exact Ht]. }
    reflexivity.
Qed.

Lemma utf8_encode_starts (ps : list N) (l : list ascii) :
  blank ps -> starts_char l -> starts_char (utf8_encode ps ++ l).
Proof.
  intros Hb Hl. destruct Hb as [|p ps Hp _]; [exact Hl|].
  unfold utf8_encode. simpl List.concat. fold (utf8_encode ps).
  rewrite <- List.app_assoc.
  unfold WHITESPACE in Hp. simpl in Hp.
  repeat (destruct Hp as [<-|Hp]; [vm_compute; lia|]). contradiction.
Qed.

Lemma strip_padded (ps qs : list N) (l : list ascii) :
  blank ps -> blank qs ->
  List.rev (rstrip_rev (List.rev (lstrip (utf8_encode ps ++ l ++ utf8_encode qs))))
  = List.rev (rstrip_rev (List.rev (lstrip l))).
Proof.
  intros Hp Hq.
  rewrite (lstrip_blank ps _ Hp).
  rewrite (lstrip_app (length l) l (utf8_encode qs) (le_n _)).
  2:{ rewrite <- (List.app_nil_r (utf8_encode qs)). apply utf8_encode_starts; [exact Hq|exact I]. }
  destruct (lstrip l) as [|a r] eqn:El.
  - rewrite <- (List.app_nil_r (utf8_encode qs)). rewrite (lstrip_blank qs [] Hq). reflexivity.
  - rewrite List.rev_app_distr. rewrite (rstrip_blank qs _ Hq). reflexivity.
Qed.

Lemma list_ascii_of_string_app (a b : string) :
  list_ascii_of_string (a ++ b) = list_ascii_of_string a ++ list_ascii_of_string b.
Proof. induction a as [|c a IH]; simpl; [reflexivity|]. rewrite IH. reflexivity. Qed.

Lemma normalise_padded (n n' : string) : padded n n' -> normalise n' = normalise n.
Proof.
  intros (ps & qs & Hp & Hq & ->). unfold normalise. f_equal. unfold strip. f_equal.
  rewrite !list_ascii_of_string_app, !list_ascii_of_string_of_list_ascii.
  apply (strip_padded ps qs _ Hp Hq).
Qed.

Lemma get_strategies_loop_padded (names names' : list string) (kwargs : gmap string Q) :
  Forall2 padded names names' ->
  get_strategies_loop names' kwargs = get_strategies_loop names kwargs.
Proof.
  induction 1 as [|n n' names names' Hn _ IH]; [reflexivity|].
  simpl. fold (normalise n') (normalise n).
  rewrite (normalise_padded n n' Hn), IH. reflexivity.
Qed.

(** X27.  White space around the requested names is ignored: a call with names
    padded on either side with white-space characters, those of ASCII or
    others, does what the call with the bare names does. *)
Theorem get_strategies_padding (names names' : list string) (kwargs : gmap string Q) :
  Forall2 padded names names' ->
  get_strategies (Some names') kwargs = get_strategies (Some names) kwargs.
Proof.
  intros Hpad. unfold get_strategies.
  destruct Hpad as [|n n' names names' Hn Hrest]; [reflexivity|].
  apply get_strategies_loop_padded. constructor; assumption.
Qed.

Lemma get_strategies_padding_witness :
  get_strategies (Some [(NBSP ++ "Bollinger" ++ " ")%string]) ∅
  = get_strategies (Some ["Bollinger"]) ∅.
Proof.
  apply get_strategies_padding. constructor; [|constructor].
  exists [160%N], [32%N].
  split; [repeat constructor; unfold WHITESPACE; simpl; tauto|].
  split; [repeat constructor; unfold WHITESPACE; simpl; tauto|].
  reflexivity.
Defined.

(** ** Invariance of the verdict and the summary *)

Lemma valid_results_app (a b : list Result) :
  valid_results (a ++ b) = valid_results a ++ valid_results b.
Proof.
  induction a as [|[e|r] rest IH]; simpl; [reflexivity|exact IH|].
  rewrite IH. reflexivity.
Qed.

Lemma valid_results_perm (rs rs' : list Result) :
  Permutation rs rs' -> Permutation (valid_results rs) (valid_results rs').
Proof.
  induction 1 as [|x l l' _ IH|x y l|l l' l'' _ IH1 _ IH2]; simpl.
  - constructor.
  - destruct x; [exact IH|constructor; exact IH].
  - destruct x, y; first [reflexivity | apply perm_swap].
  - etransitivity; eassumption.
Qed.

Lemma filter_length_perm {A : Type} (f : A -> bool) (l l' : list A) :
  Permutation l l' -> length (List.filter f l) = length (List.filter f l').
Proof.
  induction 1 as [|x l l' _ IH|x y l|l l' l'' _ IH1 _ IH2]; simpl.
  - reflexivity.
  - destruct (f x); simpl; congruence.
  - destruct (f x), (f y); reflexivity.
  - congruence.
Qed.

(** The verdict depends on the valid results through three numbers. *)
Lemma consensus_by_counts (rs rs' : list Result) :
  count_type CHANNEL_UP (valid_results rs) = count_type CHANNEL_UP (valid_results rs') ->
  count_type CHANNEL_DOWN (valid_results rs) = count_type CHANNEL_DOWN (valid_results rs') ->
  length (valid_results rs) = length (valid_results rs') ->
  _consensus rs = _consensus rs'.
Proof.
  intros Hu Hd Hl. unfold _consensus.
  destruct (valid_results rs) as [|v vs], (valid_results rs') as [|v' vs'];
    try discriminate Hl; [reflexivity|].
  cbv zeta. rewrite Hu, Hd, Hl. reflexivity.
Qed.

Lemma valid_results_filter (rs : list Result) :
  valid_results (List.filter (fun r => negb (has_error r)) rs) = valid_results rs.
Proof.
  induction rs as [|[e|r] rest IH]; simpl; [reflexivity|exact IH|].
  rewrite IH. reflexivity.
Qed.

Lemma valid_results_length (rs : list Result) :
  (length (valid_results rs) <= length rs)%nat.
Proof. induction rs as [|[e|r] rest IH]; simpl; lia. Qed.

Lemma consensus_fields (rs : list Result) :
  up (_consensus rs) = count_type CHANNEL_UP (valid_results rs) /\
  down (_consensus rs) = count_type CHANNEL_DOWN (valid_results rs) /\
  total (_consensus rs) = length (valid_results rs).
Proof.
  unfold _consensus. destruct (valid_results rs); repeat split.
Qed.

(** X14.  The verdict of [_consensus] does not depend on the order of the
    strategy results, nor on the error results among them; Up and Down
    together never count more than the valid results, and these never
    more than the results. *)
Theorem consensus_invariance (rs rs' : list Result) :
  (Permutation rs rs' -> _consensus rs = _consensus rs') /\
  _consensus (List.filter (fun r => negb (has_error r)) rs) = _consensus rs /\
  (forall e, _consensus (ErrorResult e :: rs) = _consensus rs) /\
  (up (_consensus rs) + down (_consensus rs) <= total (_consensus rs))%nat /\
  (total (_consensus rs) <= length rs)%nat.
Proof.
  split; [|split; [|split; [|split]]].
  - intros Hp. apply valid_results_perm in Hp.
    apply consensus_by_counts.
    + apply filter_length_perm. exact Hp.
    + apply filter_length_perm. exact Hp.
    + apply Permutation_length. exact Hp.
  - apply consensus_by_counts; rewrite valid_results_filter; reflexivity.
  - intros e. reflexivity.
  - destruct (consensus_fields rs) as (-> & -> & ->). apply count_up_down.
  - destruct (consensus_fields rs) as (_ & _ & ->). apply valid_results_length.
Qed.

Lemma consensus_invariance_witness :
  _consensus [example_result CHANNEL_UP; example_result CHANNEL_DOWN; example_result CHANNEL_UP]
  = _consensus [example_result CHANNEL_DOWN; example_result CHANNEL_UP; example_result CHANNEL_UP].
Proof.
  apply (proj1 (consensus_invariance _ _)).
  apply perm_swap.
Defined.

(** X15.  The detail list of [_generate_summary] is the lines of the
    non-error time-frames, in order, followed by at most one warning.
    The first warning is present exactly when a long-horizon time-frame
    leans bullish while a short-horizon one leans bearish, the second
    exactly when the opposite conflict holds and the first does not.  The
    error time-frames do not enter the summary. *)
Theorem generate_summary_warnings (timeframes : list Timeframe) :
  let valid := valid_timeframes timeframes in
  let details := summary_details (_generate_summary timeframes) in
  let lines :=
    List.map (fun tf => TimeframeLine (tf_name_of tf) (option_map label (tf_consensus tf)))
             valid in
  (In WARN_LONG_BULLISH_SHORT_BEARISH details <-> long_bullish_short_bearish valid) /\
  (In WARN_LONG_BEARISH_SHORT_BULLISH details <->
     long_bearish_short_bullish valid /\ ~ long_bullish_short_bearish valid) /\
  (details = lines \/ details = lines ++ [WARN_LONG_BULLISH_SHORT_BEARISH]
   \/ details = lines ++ [WARN_LONG_BEARISH_SHORT_BULLISH]) /\
  _generate_summary valid = _generate_summary timeframes.
Proof.
  cbv zeta.
  assert (Hidem : _generate_summary (valid_timeframes timeframes)
                  = _generate_summary timeframes).
  { unfold _generate_summary, valid_timeframes.
    assert (Hf : List.filter (fun tf => negb (tf_has_error tf))
                   (List.filter (fun tf => negb (tf_has_error tf)) timeframes)
                 = List.filter (fun tf => negb (tf_has_error tf)) timeframes).
    { induction timeframes as [|tf rest IH]; simpl; [reflexivity|].
      destruct (negb (tf_has_error tf)) eqn:E; simpl; [rewrite E, IH; reflexivity|exact IH]. }
    rewrite Hf. reflexivity. }
  destruct (valid_timeframes timeframes) as [|v vs] eqn:Hvalid.
  - assert (Hd : summary_details (_generate_summary timeframes) = []).
    { unfold _generate_summary. rewrite valid_timeframes_fixed, Hvalid. reflexivity. }
    rewrite Hd. simpl.
    split; [|split; [|split]].
    + split; [intros []|]. intros [(tf & [] & _) _].
    + split; [intros []|]. intros [[(tf & [] & _) _] _].
    + left. reflexivity.
    + exact Hidem.
  - assert (Hne : valid_timeframes timeframes <> []) by (rewrite Hvalid; discriminate).
    pose proof (generate_summary_details timeframes Hne) as Hdet.
    cbv zeta in Hdet. rewrite Hvalid in Hdet.
    pose proof (conflict_first_iff (v :: vs)) as Hf.
    pose proof (conflict_second_iff (v :: vs)) as Hs.
    pose proof (line_not_warning (v :: vs) WARN_LONG_BULLISH_SHORT_BEARISH (or_introl eq_refl))
      as Hn1.
    pose proof (line_not_warning (v :: vs) WARN_LONG_BEARISH_SHORT_BULLISH (or_intror eq_refl))
      as Hn2.
    set (lines := List.map (fun tf => TimeframeLine (tf_name_of tf)
                                        (option_map label (tf_consensus tf))) (v :: vs)) in *.
    destruct (existsb leans_bullish (List.filter is_long_tf (v :: vs))
              && existsb leans_bearish (List.filter is_short_tf (v :: vs))) eqn:E1;
      [|destruct (existsb leans_bearish (List.filter is_long_tf (v :: vs))
                  && existsb leans_bullish (List.filter is_short_tf (v :: vs))) eqn:E2];
      rewrite Hdet.
    + assert (H1 : long_bullish_short_bearish (v :: vs)) by (apply Hf; reflexivity).
      split; [|split; [|split]].
      * split; [intros _; exact H1|]. intros _. apply in_or_app. right. left. reflexivity.
      * split.
        -- intros Hin. apply in_app_or in Hin. destruct Hin as [Hin|[Hin|[]]];
             [contradiction|discriminate].
        -- intros [_ Hnot]. contradiction.
      * right. left. reflexivity.
      * exact Hidem.
    + assert (H1 : ~ long_bullish_short_bearish (v :: vs)).
      { intros Hc. apply Hf in Hc. discriminate. }
      assert (H2 : long_bearish_short_bullish (v :: vs)) by (apply Hs; reflexivity).
      split; [|split; [|split]].
      * split; [|intros Hc; contradiction].
        intros Hin. apply in_app_or in Hin. destruct Hin as [Hin|[Hin|[]]];
          [contradiction|discriminate].
      * split; [intros _; split; assumption|].
        intros _. apply in_or_app. right. left. reflexivity.
      * right. right. reflexivity.
      * exact Hidem.
    + assert (H1 : ~ long_bullish_short_bearish (v :: vs)).
      { intros Hc. apply Hf in Hc. discriminate. }
      assert (H2 : ~ long_bearish_short_bullish (v :: vs)).
      { intros Hc. apply Hs in Hc. discriminate. }
      split; [|split; [|split]].
      * split; [intros Hin; contradiction|intros Hc; contradiction].
      * split; [intros Hin; contradiction|intros [Hc _]; contradiction].
      * left. reflexivity.
      * exact Hidem.
Qed.

Lemma filter_length_lt {A : Type} (f : A -> bool) (l : list A) (x : A) :
  In x l -> f x = false -> (length (List.filter f l) < length l)%nat.
Proof.
  intros Hin Hf.
  pose proof (List.filter_length_le f l) as Hle.
  destruct (Nat.eq_dec (length (List.filter f l)) (length l)) as [Heq|]; [|lia].
  apply filter_length_all in Heq. rewrite List.Forall_forall in Heq.
  apply Heq in Hin. congruence.
Qed.

(** X16.  A non-error time-frame whose verdict counts as many Up as Down
    results (none of either, for instance, when every strategy reported
    too few bars) leans neither way: its line is in the detail list, and
    the conclusion is neither of the two strong ones nor the
    insufficient-data text. *)
Theorem neutral_timeframe_summary (timeframes : list Timeframe) (tf : Timeframe) :
  In tf timeframes -> tf_has_error tf = false -> con_up tf = con_down tf ->
  let s := _generate_summary timeframes in
  conclusion s <> CONCLUSION_NO_DATA /\
  conclusion s <> STRONG_BULLISH /\
  conclusion s <> STRONG_BEARISH /\
  In (TimeframeLine (tf_name_of tf) (option_map label (tf_consensus tf))) (summary_details s).
Proof.
  intros Hin Herr Heq s.
  assert (Hv : In tf (valid_timeframes timeframes)).
  { apply List.filter_In. split; [exact Hin|]. rewrite Herr. reflexivity. }
  assert (Hne : valid_timeframes timeframes <> []).
  { intros Hempty. rewrite Hempty in Hv. contradiction. }
  assert (Hb : leans_bullish tf = false).
  { unfold leans_bullish. apply Nat.ltb_ge. lia. }
  assert (Hs : leans_bearish tf = false).
  { unfold leans_bearish. apply Nat.ltb_ge. lia. }
  pose proof (filter_length_lt leans_bullish _ tf Hv Hb) as Hlb.
  pose proof (filter_length_lt leans_bearish _ tf Hv Hs) as Hls.
  pose proof (generate_summary_conclusion timeframes Hne) as Hc. cbv zeta in Hc.
  fold s in Hc.
  destruct (Nat.eqb_spec (length (List.filter leans_bullish (valid_timeframes timeframes)))
                         (length (valid_timeframes timeframes))) as [E|_]; [lia|].
  destruct (Nat.eqb_spec (length (List.filter leans_bearish (valid_timeframes timeframes)))
                         (length (valid_timeframes timeframes))) as [E|_]; [lia|].
  split; [|split; [|split]].
  - rewrite Hc. repeat match goal with |- context [if ?b then _ else _] => destruct b end;
      discriminate.
  - rewrite Hc. repeat match goal with |- context [if ?b then _ else _] => destruct b end;
      discriminate.
  - rewrite Hc. repeat match goal with |- context [if ?b then _ else _] => destruct b end;
      discriminate.
  - subst s. rewrite (generate_summary_details timeframes Hne).
    assert (Hl : In (TimeframeLine (tf_name_of tf) (option_map label (tf_consensus tf)))
                    (List.map (fun tf => TimeframeLine (tf_name_of tf)
                                           (option_map label (tf_consensus tf)))
                              (valid_timeframes timeframes))).
    { apply in_map_iff. exists tf. split; [reflexivity|exact Hv]. }
    repeat match goal with |- context [if ?b then _ else _] => destruct b end;
      try (apply in_or_app; left); exact Hl.
Qed.

Lemma neutral_timeframe_summary_witness :
  conclusion (_generate_summary [example_timeframe "1H" [CHANNEL_UP];
                                 example_timeframe "日线" [CHANNEL_SIDEWAYS]])
  <> STRONG_BULLISH.
Proof.
  apply (neutral_timeframe_summary
           [example_timeframe "1H" [CHANNEL_UP]; example_timeframe "日线" [CHANNEL_SIDEWAYS]]
           (example_timeframe "日线" [CHANNEL_SIDEWAYS])).
  - right. left. reflexivity.
  - reflexivity.
  - reflexivity.
Defined.

(** ** The shape of the resampled frame *)

Lemma list_sum_map_plus {A : Type} (f g : A -> nat) (l : list A) :
  list_sum (List.map (fun x => f x + g x)%nat l)
  = (list_sum (List.map f l) + list_sum (List.map g l))%nat.
Proof. induction l as [|x r IH]; simpl; lia. Qed.

Lemma list_sum_indicator (k : Z) (bins : list Z) :
  List.NoDup bins ->
  (list_sum (List.map (fun b => if (k =? b)%Z then 1 else 0)%nat bins) <= 1)%nat.
Proof.
  induction 1 as [|b bins Hnotin _ IH]; simpl; [lia|].
  destruct (Z.eqb_spec k b) as [->|_]; [|lia].
  assert (Hz : list_sum (List.map (fun b' => if (b =? b')%Z then 1 else 0)%nat bins) = 0%nat).
  { clear IH. induction bins as [|c bins IHb]; simpl; [reflexivity|].
    destruct (Z.eqb_spec b c) as [->|_].
    - exfalso. apply Hnotin. left. reflexivity.
    - apply IHb. intros Hin. apply Hnotin. right. exact Hin. }
  lia.
Qed.

(** Each bar lies in at most one of a list of distinct bins. *)
Lemma bins_disjoint (origin rule : Z) (df : DataFrame) (bins : list Z) :
  List.NoDup bins ->
  (list_sum (List.map (fun b => length (rows_in_bin origin rule b df)) bins) <= length df)%nat.
Proof.
  intros Hnd. induction df as [|r df IH].
  - simpl. induction bins as [|b bins IHb]; simpl; [lia|].
    apply IHb. inversion Hnd; assumption.
  - assert (Hext : List.map (fun b => length (rows_in_bin origin rule b (r :: df))) bins
                   = List.map (fun b => (if (bin_of origin rule (bar_time r) =? b)%Z
                                         then 1 else 0)
                                        + length (rows_in_bin origin rule b df))%nat bins).
    { apply List.map_ext. intros b. unfold rows_in_bin. simpl.
      destruct (bin_of origin rule (bar_time r) =? b)%Z; reflexivity. }
    rewrite Hext, list_sum_map_plus.
    pose proof (list_sum_indicator (bin_of origin rule (bar_time r)) bins Hnd) as Hone.
    simpl length. lia.
Qed.

Section BinShape.
Variables (origin rule : Z) (df : DataFrame).

Lemma agg_bins_cons_empty (b : Z) (bins : list Z) :
  bin_rows origin rule df b = [] ->
  agg_bins origin rule df (b :: bins) = agg_bins origin rule df bins.
Proof. intros Hempty. unfold agg_bins. cbn [List.map]. apply dropna_rows_cons_empty. exact Hempty. Qed.

Lemma agg_bins_cons_full (b : Z) (bins : list Z) :
  bin_rows origin rule df b <> [] ->
  exists row,
    agg_bins origin rule df (b :: bins) = row :: agg_bins origin rule df bins /\
    bar_time row = (origin + b * rule)%Z.
Proof.
  intros Hfull. unfold agg_bins. cbn [List.map].
  destruct (dropna_rows_cons_full origin rule df b
              (List.map (fun b => agg origin rule b df) bins) Hfull) as (row & Heq & Ht & _).
  exists row. split; assumption.
Qed.

Lemma agg_bins_cases (b : Z) (bins : list Z) :
  (bin_rows origin rule df b = [] /\
   agg_bins origin rule df (b :: bins) = agg_bins origin rule df bins) \/
  (bin_rows origin rule df b <> [] /\
   exists row, agg_bins origin rule df (b :: bins) = row :: agg_bins origin rule df bins /\
               bar_time row = (origin + b * rule)%Z).
Proof.
  destruct (bin_rows origin rule df b) as [|r0 rs] eqn:E.
  - left. split; [reflexivity|]. apply agg_bins_cons_empty. exact E.
  - right. assert (Hfull : bin_rows origin rule df b <> []) by (rewrite E; discriminate).
    split; [discriminate|]. apply agg_bins_cons_full. exact Hfull.
Qed.

Lemma agg_bins_length (bins : list Z) :
  (length (agg_bins origin rule df bins)
   <= list_sum (List.map (fun b => length (rows_in_bin origin rule b df)) bins))%nat.
Proof.
  induction bins as [|b bins IH]; [simpl; lia|].
  change (list_sum (List.map (fun b => length (rows_in_bin origin rule b df)) (b :: bins)))
    with (length (rows_in_bin origin rule b df)
          + list_sum (List.map (fun b => length (rows_in_bin origin rule b df)) bins))%nat.
  destruct (agg_bins_cases b bins) as [[_ ->]|[Hfull (row & -> & _)]]; [lia|].
  unfold bin_rows in Hfull.
  destruct (rows_in_bin origin rule b df); [congruence|]. simpl length. lia.
Qed.

Lemma agg_bins_sorted (bins : list Z) :
  (0 < rule)%Z -> StronglySorted Z.lt bins ->
  StronglySorted Z.lt (List.map bar_time (agg_bins origin rule df bins)).
Proof.
  intros Hrule. induction 1 as [|b bins Hs IH Hall]; [constructor|].
  destruct (agg_bins_cases b bins) as [[_ ->]|[_ (row & -> & Ht)]]; [exact IH|].
  cbn [List.map]. constructor; [exact IH|].
  apply List.Forall_forall. intros t Hin. apply in_map_iff in Hin.
  destruct Hin as (row' & <- & Hin).
  destruct (agg_bins_rows origin rule df bins row' Hin) as (b' & Hb' & _ & Ht' & _).
  rewrite List.Forall_forall in Hall. specialize (Hall b' Hb').
  rewrite Ht, Ht'. nia.
Qed.

Lemma agg_bins_row_of_bin (bins : list Z) (b : Z) :
  In b bins -> bin_rows origin rule df b <> [] ->
  exists row, In row (agg_bins origin rule df bins) /\ bar_time row = (origin + b * rule)%Z.
Proof.
  induction bins as [|b' bins IH]; intros Hin Hfull; [contradiction|].
  destruct Hin as [->|Hin].
  - destruct (agg_bins_cons_full b bins Hfull) as (row & -> & Ht).
    exists row. split; [left; reflexivity|exact Ht].
  - destruct (IH Hin Hfull) as (row & Hrow & Ht).
    exists row. split; [|exact Ht].
    destruct (agg_bins_cases b' bins) as [[_ ->]|[_ (row' & -> & _)]];
      [exact Hrow|right; exact Hrow].
Qed.

End BinShape.

Lemma bin_range_sorted (b_lo b_hi : Z) : StronglySorted Z.lt (bin_range b_lo b_hi).
Proof.
  unfold bin_range. generalize (Z.to_nat (b_hi - b_lo + 1)) as n. generalize 0%nat as s.
  intros s n. revert s. induction n as [|n IH]; intros s; simpl; constructor.
  - apply IH.
  - apply List.Forall_forall. intros x Hin. apply in_map_iff in Hin.
    destruct Hin as (k & <- & Hk). apply in_seq in Hk. lia.
Qed.

Lemma last_item_In {A : Type} (l : list A) (x : A) : last_item l = Returns x -> In x l.
Proof.
  unfold last_item. destruct (List.rev l) as [|y r] eqn:E; [discriminate|].
  intros Hx. injection Hx as <-. apply in_rev. rewrite E. left. reflexivity.
Qed.

Lemma bin_bounds (origin rule t : Z) :
  (0 < rule)%Z ->
  (origin + bin_of origin rule t * rule <= t < origin + bin_of origin rule t * rule + rule)%Z.
Proof.
  intros Hrule. unfold bin_of.
  pose proof (Z.div_mod (t - origin) rule) as Hdm.
  pose proof (Z.mod_pos_bound (t - origin) rule Hrule) as Hb.
  nia.
Qed.

Lemma row_consistent (rows : list Bar) (row : Bar) :
  Forall bar_consistent rows ->
  hd_error (List.map bar_open rows) = Some (bar_open row) ->
  np_max (List.map bar_high rows) = Returns (bar_high row) ->
  np_min (List.map bar_low rows) = Returns (bar_low row) ->
  last_item (List.map bar_close rows) = Returns (bar_close row) ->
  bar_consistent row.
Proof.
  intros Hall Hopen Hmax Hmin Hclose.
  rewrite List.Forall_forall in Hall.
  apply np_max_is_maximum in Hmax. destruct Hmax as [_ Hmax].
  apply np_min_is_minimum in Hmin. destruct Hmin as [_ Hmin].
  rewrite List.Forall_forall in Hmax, Hmin.
  assert (Hhi : forall r, In r rows -> bar_high r <= bar_high row).
  { intros r Hr. apply Hmax. apply in_map. exact Hr. }
  assert (Hlo : forall r, In r rows -> bar_low row <= bar_low r).
  { intros r Hr. apply Hmin. apply in_map. exact Hr. }
  apply last_item_In in Hclose. apply in_map_iff in Hclose.
  destruct Hclose as (rl & Hcl & Hrl).
  destruct rows as [|r0 rs]; [contradiction|].
  simpl in Hopen. injection Hopen as Hop.
  assert (Hr0 : In r0 (r0 :: rs)) by (left; reflexivity).
  destruct (Hall r0 Hr0) as (H1 & H2 & _ & _).
  destruct (Hall rl Hrl) as (_ & _ & H3 & H4).
  pose proof (Hhi r0 Hr0). pose proof (Hlo r0 Hr0).
  pose proof (Hhi rl Hrl). pose proof (Hlo rl Hrl).
  unfold bar_consistent. rewrite <- Hop, <- Hcl. repeat split; lra.
Qed.

(** X17.  The frame that [_resample] returns has no more rows than the
    source; its timestamps are strictly increasing and lie on the grid of
    the target interval counted from midnight of the first day; every
    source bar falls into the interval of one of its rows, so that a
    non-empty source gives a non-empty frame; and if in every source bar
    the open and the close lie between the low and the high, the same
    holds in every row. *)
Theorem resample_shape (df resampled : DataFrame) (rule : Z) :
  _resample df rule = Some resampled ->
  (0 < rule)%Z /\
  (length resampled <= length df)%nat /\
  StronglySorted Z.lt (List.map bar_time resampled) /\
  Forall (fun row => ((bar_time row - resample_origin df) mod rule = 0)%Z) resampled /\
  (forall r, In r df ->
     exists row, In row resampled /\
                 (bar_time row <= bar_time r < bar_time row + rule)%Z) /\
  (df <> [] -> resampled <> []) /\
  (Forall bar_consistent df -> Forall bar_consistent resampled).
Proof.
  intros Hres.
  assert (Hrule : (0 < rule)%Z).
  { unfold _resample in Hres. destruct (Z.leb_spec rule 0); [discriminate Hres|assumption]. }
  split; [exact Hrule|].
  destruct (List.map bar_time df) as [|t ts] eqn:Htimes.
  - assert (Hdf : df = []) by (destruct df; [reflexivity|discriminate]).
    subst df. unfold _resample in Hres.
    destruct (Z.leb_spec rule 0) as [Hle|_]; [lia|].
    injection Hres as <-. simpl.
    repeat split; try constructor; try contradiction; try lia.
  - rewrite (resample_unfold df rule t ts Hrule Htimes) in Hres. injection Hres as <-.
    pose proof (resample_cover df rule t ts Hrule Htimes) as Hcover.
    rewrite List.Forall_forall in Hcover.
    set (origin := resample_origin df) in *.
    set (bins := bin_range (bin_of origin rule (Zlist_min t ts))
                           (bin_of origin rule (Zlist_max t ts))) in *.
    assert (Hrows : forall r, In r df ->
              exists row, In row (agg_bins origin rule df bins) /\
                          (bar_time row <= bar_time r < bar_time row + rule)%Z).
    { intros r Hr.
      destruct (agg_bins_row_of_bin origin rule df bins (bin_of origin rule (bar_time r)))
        as (row & Hrow & Ht).
      - apply Hcover. exact Hr.
      - intros Hempty. pose proof (in_bin_rows origin rule df r Hr) as Hin.
        rewrite Hempty in Hin. contradiction.
      - exists row. split; [exact Hrow|]. rewrite Ht. apply bin_bounds. exact Hrule. }
    split; [|split; [|split; [|split; [|split]]]].
    + etransitivity; [apply agg_bins_length|].
      apply bins_disjoint. apply bin_range_NoDup.
    + apply agg_bins_sorted; [exact Hrule|apply bin_range_sorted].
    + apply List.Forall_forall. intros row Hrow.
      destruct (agg_bins_rows origin rule df bins row Hrow) as (b & _ & _ & Ht & _).
      rewrite Ht. replace (origin + b * rule - origin)%Z with (b * rule)%Z by lia.
      apply Z_mod_mult.
    + exact Hrows.
    + intros Hne. destruct df as [|r0 rest]; [congruence|].
      destruct (Hrows r0 (or_introl eq_refl)) as (row & Hrow & _).
      intros Hempty. rewrite Hempty in Hrow. contradiction.
    + intros Hall. apply List.Forall_forall. intros row Hrow.
      destruct (agg_bins_rows origin rule df bins row Hrow)
        as (b & _ & _ & _ & Hopen & Hmax & Hmin & Hclose & _).
      apply (row_consistent (bin_rows origin rule df b)); try assumption.
      apply List.Forall_forall. intros r Hr. rewrite List.Forall_forall in Hall.
      apply Hall. eapply bin_rows_incl. exact Hr.
Qed.

Lemma resample_shape_witness :
  exists resampled,
    _resample (rising_bars 1900 9) 14400 = Some resampled /\
    (length resampled <= 9)%nat.
Proof.
  assert (E : exists resampled, _resample (rising_bars 1900 9) 14400 = Some resampled)
    by (vm_compute; eexists; reflexivity).
  destruct E as [resampled E]. exists resampled. split; [exact E|].
  exact (proj1 (proj2 (resample_shape (rising_bars 1900 9) resampled 14400 E))).
Defined.

Lemma Qplus_0_r_eq (v : Q) : v + 0 = v.
Proof.
  destruct v as [n d]. unfold Qplus. simpl.
  rewrite Z.mul_1_r, Z.add_0_r, Pos.mul_1_r. reflexivity.
Qed.

Lemma agg_bins_ext (origin rule : Z) (l l' : DataFrame) (bins : list Z) :
  (forall b, In b bins -> rows_in_bin origin rule b l = rows_in_bin origin rule b l') ->
  agg_bins origin rule l bins = agg_bins origin rule l' bins.
Proof.
  intros Hext. unfold agg_bins. f_equal. apply List.map_ext_in.
  intros b Hb. unfold agg. rewrite (Hext b Hb). reflexivity.
Qed.

Lemma agg_bins_nil (origin rule : Z) (bins : list Z) : agg_bins origin rule [] bins = [].
Proof. unfold agg_bins. induction bins as [|b bins IH]; simpl; [reflexivity|exact IH]. Qed.

Lemma bin_of_grid (origin rule k : Z) :
  (0 < rule)%Z -> bin_of origin rule (origin + k * rule) = k.
Proof.
  intros Hrule. unfold bin_of.
  replace (origin + k * rule - origin)%Z with (k * rule)%Z by lia.
  apply Z.div_mul. lia.
Qed.

(** The bars of a frame in strictly increasing time order, each on the
    grid, are the resampled rows of the bins that hold them. *)
Lemma agg_bins_grid (origin rule : Z) (n : nat) :
  (0 < rule)%Z ->
  forall (lo : Z) (l : DataFrame),
    StronglySorted Z.lt (List.map bar_time l) ->
    Forall (fun r => exists k, (lo <= k < lo + Z.of_nat n)%Z /\
                               bar_time r = (origin + k * rule)%Z) l ->
    agg_bins origin rule l (List.map (fun i => (lo + Z.of_nat i)%Z) (seq 0 n)) = l.
Proof.
  intros Hrule. induction n as [|n IH]; intros lo l Hsorted Hgrid.
  - destruct l as [|r l]; [reflexivity|].
    inversion Hgrid as [|? ? (k & Hk & _) _]; subst. lia.
  - assert (Hbins : List.map (fun i => (lo + Z.of_nat i)%Z) (seq 0 (S n))
                    = lo :: List.map (fun i => (lo + 1 + Z.of_nat i)%Z) (seq 0 n)).
    { simpl. rewrite Z.add_0_r. f_equal. rewrite <- seq_shift, List.map_map.
      apply List.map_ext. intros i. lia. }
    rewrite Hbins.
    destruct l as [|r l]; [apply agg_bins_nil|].
    inversion Hgrid as [|? ? (k & Hk & Ht) Hrest]; subst.
    cbn [List.map] in Hsorted. inversion Hsorted as [|? ? Hsorted' Hlt]; subst.
    assert (Hlater : Forall (fun r' => exists k', (k < k' < lo + Z.of_nat (S n))%Z /\
                                          bar_time r' = (origin + k' * rule)%Z) l).
    { apply List.Forall_forall. intros r' Hr'.
      rewrite List.Forall_forall in Hrest, Hlt.
      destruct (Hrest r' Hr') as (k' & Hk' & Ht').
      exists k'. split; [|exact Ht'].
      assert (Hcmp : (bar_time r < bar_time r')%Z) by (apply Hlt; apply in_map; exact Hr').
      rewrite Ht, Ht' in Hcmp. nia. }
    assert (Hnot : forall b, (b <= k)%Z -> rows_in_bin origin rule b l = []).
    { intros b Hb. unfold rows_in_bin.
      clear - Hrule Hlater Hb.
      induction Hlater as [|r' l (k' & Hk' & Ht') _ IHl]; [reflexivity|].
      simpl. rewrite Ht', (bin_of_grid origin rule k' Hrule).
      destruct (Z.eqb_spec k' b) as [->|_]; [lia|exact IHl]. }
    destruct (Z.eq_dec k lo) as [->|Hne].
    + assert (Hrow : rows_in_bin origin rule lo (r :: l) = [r]).
      { unfold rows_in_bin. simpl. rewrite Ht, (bin_of_grid origin rule lo Hrule), Z.eqb_refl.
        f_equal. apply (Hnot lo). lia. }
      unfold agg_bins. cbn [List.map]. unfold agg at 1. rewrite Hrow.
      cbn [List.map first_num max_num min_num last_num List.rev app fold_left dropna_rows
           agg_open agg_high agg_low agg_close agg_time agg_volume Qsum fold_right].
      rewrite Qplus_0_r_eq, <- Ht.
      fold (agg_bins origin rule (r :: l)
              (List.map (fun i => (lo + 1 + Z.of_nat i)%Z) (seq 0 n))).
      destruct r as [t o h lw c v]. cbn [bar_time bar_open bar_high bar_low bar_close bar_volume].
      f_equal.
      rewrite (agg_bins_ext origin rule _ l).
      * apply IH.
        -- exact Hsorted'.
        -- eapply List.Forall_impl; [|exact Hlater].
           intros r' (k' & Hk' & Ht'). exists k'. split; [lia|exact Ht'].
      * intros b Hb. apply in_map_iff in Hb. destruct Hb as (i & <- & _).
        unfold rows_in_bin. simpl. cbn [bar_time] in Ht.
        rewrite Ht, (bin_of_grid origin rule lo Hrule).
        destruct (Z.eqb_spec lo (lo + 1 + Z.of_nat i)) as [Heq|_]; [lia|reflexivity].
    + assert (Hempty : bin_rows origin rule (r :: l) lo = []).
      { unfold bin_rows, rows_in_bin. simpl.
        rewrite Ht, (bin_of_grid origin rule k Hrule).
        destruct (Z.eqb_spec k lo) as [Heq|_]; [contradiction|].
        apply (Hnot lo). lia. }
      rewrite (agg_bins_cons_empty origin rule (r :: l) lo _ Hempty).
      apply IH.
      * constructor; assumption.
      * constructor.
        -- exists k. split; [lia|exact Ht].
        -- eapply List.Forall_impl; [|exact Hlater].
           intros r' (k' & Hk' & Ht'). exists k'. split; [lia|exact Ht'].
Qed.

Lemma bin_range_bounds (b_lo b_hi b : Z) :
  In b (bin_range b_lo b_hi) -> (b_lo <= b < b_lo + Z.of_nat (Z.to_nat (b_hi - b_lo + 1)))%Z.
Proof.
  unfold bin_range. intros Hin. apply in_map_iff in Hin.
  destruct Hin as (k & <- & Hk). apply in_seq in Hk. lia.
Qed.

Lemma resample_fixed (df : DataFrame) (rule : Z) :
  (0 < rule)%Z ->
  StronglySorted Z.lt (List.map bar_time df) ->
  Forall (fun r => ((bar_time r - resample_origin df) mod rule = 0)%Z) df ->
  _resample df rule = Some df.
Proof.
  intros Hrule Hsorted Hgrid.
  destruct (List.map bar_time df) as [|t ts] eqn:Htimes.
  - assert (Hdf : df = []) by (destruct df; [reflexivity|discriminate]).
    subst df. unfold _resample.
    destruct (Z.leb_spec rule 0) as [Hle|_]; [lia|]. reflexivity.
  - rewrite (resample_unfold df rule t ts Hrule Htimes). f_equal.
    pose proof (resample_cover df rule t ts Hrule Htimes) as Hcover.
    set (origin := resample_origin df) in *.
    unfold bin_range at 1.
    apply agg_bins_grid; [exact Hrule|rewrite Htimes; exact Hsorted|].
    apply List.Forall_forall. intros r Hr.
    rewrite List.Forall_forall in Hcover, Hgrid.
    exists (bin_of origin rule (bar_time r)). split.
    + apply bin_range_bounds. apply Hcover. exact Hr.
    + specialize (Hgrid r Hr). unfold bin_of.
      pose proof (Z.div_mod (bar_time r - origin) rule) as Hdm. lia.
Qed.

Lemma Zlist_min_In (x : Z) (xs : list Z) : In (Zlist_min x xs) (x :: xs).
Proof.
  unfold Zlist_min. revert x. induction xs as [|y r IH]; intros x; simpl.
  - left. reflexivity.
  - destruct (IH (Z.min x y)) as [Heq|Hin].
    + rewrite <- Heq. destruct (Z.min_spec x y) as [[_ ->]|[_ ->]]; auto.
    + right. right. exact Hin.
Qed.

(** The resampled frame starts on the day on which the source starts. *)
Lemma resample_origin_kept (df resampled : DataFrame) (rule : Z) :
  _resample df rule = Some resampled -> df <> [] ->
  resample_origin resampled = resample_origin df.
Proof.
  intros Hres Hne.
  assert (Hrule : (0 < rule)%Z).
  { unfold _resample in Hres. destruct (Z.leb_spec rule 0); [discriminate Hres|assumption]. }
  destruct (List.map bar_time df) as [|t ts] eqn:Htimes.
  { destruct df; [congruence|discriminate]. }
  rewrite (resample_unfold df rule t ts Hrule Htimes) in Hres. injection Hres as <-.
  pose proof (resample_cover df rule t ts Hrule Htimes) as Hcover.
  rewrite List.Forall_forall in Hcover.
  assert (Horigin : resample_origin df = (Zlist_min t ts / 86400 * 86400)%Z).
  { unfold resample_origin. rewrite Htimes. reflexivity. }
  set (origin := resample_origin df) in *.
  set (bins := bin_range (bin_of origin rule (Zlist_min t ts))
                         (bin_of origin rule (Zlist_max t ts))) in *.
  set (m := Zlist_min t ts) in *.
  assert (Hom : (origin <= m)%Z).
  { rewrite Horigin. pose proof (Z.mul_div_le m 86400). lia. }
  assert (Hmin_all : forall r, In r df -> (m <= bar_time r)%Z).
  { intros r Hr. pose proof (Zlist_min_le t ts) as Hle. rewrite List.Forall_forall in Hle.
    apply Hle. rewrite <- Htimes. apply in_map. exact Hr. }
  assert (Hmin_in : exists r, In r df /\ bar_time r = m).
  { pose proof (Zlist_min_In t ts) as Hin. rewrite <- Htimes in Hin.
    apply in_map_iff in Hin. destruct Hin as (r & Hr & Hin). eauto. }
  destruct Hmin_in as (rm & Hrm & Htm).
  assert (Hrow_lo : forall row, In row (agg_bins origin rule df bins) ->
            (origin <= bar_time row)%Z).
  { intros row Hrow.
    destruct (agg_bins_rows origin rule df bins row Hrow) as (b & _ & Hfull & Ht & _).
    destruct (bin_rows origin rule df b) as [|r0 rs] eqn:E; [congruence|].
    assert (Hr0 : In r0 (bin_rows origin rule df b)) by (rewrite E; left; reflexivity).
    pose proof (bin_rows_incl origin rule df b r0 Hr0) as Hr0df.
    unfold bin_rows, rows_in_bin in Hr0. apply List.filter_In in Hr0.
    destruct Hr0 as [_ Hb]. apply Z.eqb_eq in Hb.
    pose proof (bin_bounds origin rule (bar_time r0) Hrule) as Hbb.
    rewrite Hb in Hbb. specialize (Hmin_all r0 Hr0df).
    rewrite Ht.
    assert (Hb0 : (0 <= b)%Z).
    { destruct (Z.lt_ge_cases b 0) as [Hneg|Hpos]; [|exact Hpos].
      assert (Hle : ((b + 1) * rule <= 0)%Z) by (apply Z.mul_nonpos_nonneg; lia).
      lia. }
    assert (Hbr : (0 <= b * rule)%Z) by (apply Z.mul_nonneg_nonneg; lia).
    lia. }
  destruct (agg_bins_row_of_bin origin rule df bins (bin_of origin rule (bar_time rm)))
    as (row_m & Hrow_m & Ht_m).
  { apply Hcover. exact Hrm. }
  { intros Hempty. pose proof (in_bin_rows origin rule df rm Hrm) as Hin.
    rewrite Hempty in Hin. contradiction. }
  pose proof (bin_bounds origin rule (bar_time rm) Hrule) as Hbm.
  destruct (List.map bar_time (agg_bins origin rule df bins)) as [|t' ts'] eqn:Htimes'.
  { destruct (agg_bins origin rule df bins); [contradiction|discriminate]. }
  unfold resample_origin at 1. rewrite Htimes'.
  set (m' := Zlist_min t' ts').
  assert (Hm'le : (m' <= m)%Z).
  { pose proof (Zlist_min_le t' ts') as Hle. rewrite List.Forall_forall in Hle.
    assert (Hin : In (bar_time row_m) (t' :: ts')).
    { rewrite <- Htimes'. apply in_map. exact Hrow_m. }
    specialize (Hle _ Hin). fold m' in Hle. lia. }
  assert (Hm'ge : (origin <= m')%Z).
  { pose proof (Zlist_min_In t' ts') as Hin. fold m' in Hin. rewrite <- Htimes' in Hin.
    apply in_map_iff in Hin. destruct Hin as (row & <- & Hrow). apply Hrow_lo. exact Hrow. }
  rewrite Horigin in Hm'ge |- *.
  f_equal.
  assert (H1 : (m / 86400 * 86400 / 86400 <= m' / 86400)%Z)
    by (apply Z.div_le_mono; lia).
  assert (H2 : (m' / 86400 <= m / 86400)%Z) by (apply Z.div_le_mono; lia).
  rewrite Z.div_mul in H1 by lia. lia.
Qed.

(** X18.  [_resample] leaves unchanged a frame whose timestamps are
    strictly increasing and lie on the grid of the target interval.  In
    particular resampling is idempotent: resampling a resampled frame to
    the same interval returns it as it is. *)
Theorem resample_idempotent (df : DataFrame) (rule : Z) :
  ((0 < rule)%Z ->
   StronglySorted Z.lt (List.map bar_time df) ->
   Forall (fun r => ((bar_time r - resample_origin df) mod rule = 0)%Z) df ->
   _resample df rule = Some df) /\
  (forall resampled,
     _resample df rule = Some resampled -> _resample resampled rule = Some resampled).
Proof.
  split; [apply resample_fixed|].
  intros resampled Hres.
  assert (Hrule : (0 < rule)%Z).
  { unfold _resample in Hres. destruct (Z.leb_spec rule 0); [discriminate Hres|assumption]. }
  destruct df as [|r0 df].
  { unfold _resample in Hres. destruct (Z.leb_spec rule 0) as [Hle|_]; [lia|].
    injection Hres as <-. unfold _resample.
    destruct (Z.leb_spec rule 0) as [Hle|_]; [lia|]. reflexivity. }
  assert (Hne : r0 :: df <> []) by discriminate.
  pose proof (resample_origin_kept _ _ _ Hres Hne) as Horigin.
  destruct (List.map bar_time (r0 :: df)) as [|t ts] eqn:Htimes; [discriminate|].
  rewrite (resample_unfold (r0 :: df) rule t ts Hrule Htimes) in Hres.
  injection Hres as Hres.
  apply resample_fixed; [exact Hrule| |].
  - rewrite <- Hres. apply agg_bins_sorted; [exact Hrule|apply bin_range_sorted].
  - rewrite Horigin. apply List.Forall_forall. intros row Hrow. rewrite <- Hres in Hrow.
    destruct (agg_bins_rows _ _ _ _ row Hrow) as (b & _ & _ & Ht & _).
    rewrite Ht.
    replace (resample_origin (r0 :: df) + b * rule - resample_origin (r0 :: df))%Z
      with (b * rule)%Z by lia.
    apply Z_mod_mult.
Qed.

Lemma resample_idempotent_witness :
  _resample (rising_bars 1900 5) 3600 = Some (rising_bars 1900 5).
Proof.
  apply (proj1 (resample_idempotent (rising_bars 1900 5) 3600)).
  - lia.
  - vm_compute. repeat constructor.
  - vm_compute. repeat constructor.
Defined.

Lemma resample_length_le (df resampled : DataFrame) (rule : Z) :
  _resample df rule = Some resampled -> (length resampled <= length df)%nat.
Proof.
  intros Hres.
  assert (Hrule : (0 < rule)%Z).
  { unfold _resample in Hres. destruct (Z.leb_spec rule 0); [discriminate Hres|assumption]. }
  destruct (List.map bar_time df) as [|t ts] eqn:Htimes.
  - assert (Hdf : df = []) by (destruct df; [reflexivity|discriminate]).
    subst df. unfold _resample in Hres.
    destruct (Z.leb_spec rule 0) as [Hle|_]; [lia|].
    injection Hres as <-. simpl. lia.
  - rewrite (resample_unfold df rule t ts Hrule Htimes) in Hres. injection Hres as <-.
    etransitivity; [apply agg_bins_length|].
    apply bins_disjoint. apply bin_range_NoDup.
Qed.

(** ** Time-frames and the report *)

(** [analyze_all] returns one result per strategy, in order; it raises
    as soon as one [analyze] raises. *)
Lemma analyze_all_spec `{External} (strategies : list Strategy)
    (df : DataFrame) (lookback : nat) (kwargs : gmap string Q) (results : list Result) :
  analyze_all strategies df lookback kwargs = Returns results <->
  Forall2 (fun s r => analyze s df lookback kwargs = Returns r) strategies results.
Proof.
  revert results. induction strategies as [|s rest IH]; intros results; simpl.
  - split.
    + intros Hr. injection Hr as <-. constructor.
    + intros Hf. inversion Hf. reflexivity.
  - split.
    + intros Hr. run_binds Hr. subst results.
      apply List.Forall2_cons; [eassumption|]. apply IH. reflexivity.
    + intros Hf. inversion Hf as [|? r ? rs Hs Hrest]; subst.
      rewrite Hs. simpl. apply IH in Hrest. rewrite Hrest. reflexivity.
Qed.

Lemma analyze_all_returns `{E : External} (strategies : list Strategy)
    (df : DataFrame) (lookback : nat) (kwargs : gmap string Q) :
  indicators_defined E ->
  Forall (fun s => analyzable s lookback kwargs) strategies ->
  exists results, analyze_all strategies df lookback kwargs = Returns results.
Proof.
  intros Hind. induction 1 as [|s rest Hs _ [results IH]]; simpl.
  - eauto.
  - destruct (analyze_returns s df lookback kwargs Hind Hs) as [res ->].
    rewrite IH. simpl. eauto.
Qed.

Lemma analyze_timeframe_unfold `{External} (symbol : string) (strategies : list Strategy)
    (config : TimeframeConfig) :
  analyze_timeframe symbol strategies config
  = match analysed_frame symbol config with
    | None =>
        Returns (TimeframeError (cfg_name config) (cfg_label config)
                   (match fetch_ohlcv symbol (cfg_period config) (cfg_interval config) with
                    | None | Some [] => "数据获取失败"
                    | Some _ => "重采样后数据不足"
                    end))
    | Some df =>
        let* results := analyze_all strategies df (cfg_lookback config)
                                    (timeframe_kwargs config) in
        Returns (TimeframeOk (cfg_name config) (cfg_label config) (length df)
                             results (Some (_consensus results)))
    end.
Proof.
  unfold analyze_timeframe, analysed_frame, timeframe_kwargs.
  destruct (fetch_ohlcv symbol (cfg_period config) (cfg_interval config)) as [[|d df]|];
    try reflexivity.
  destruct (cfg_resample config) as [rule|]; [|reflexivity].
  destruct (_resample (d :: df) rule) as [resampled|]; [|reflexivity].
  destruct (length resampled <? 20)%nat; reflexivity.
Qed.

Lemma timeframe_kwargs_window (config : TimeframeConfig) (w : nat) :
  kwargs_get_int (timeframe_kwargs config) "pivot_window" w = w.
Proof.
  unfold kwargs_get_int, timeframe_kwargs.
  rewrite lookup_insert_ne by discriminate.
  rewrite lookup_singleton_ne by discriminate. reflexivity.
Qed.

Lemma analyze_timeframe_returns `{E : External} (symbol : string) (strategies : list Strategy)
    (config : TimeframeConfig) :
  indicators_defined E -> Forall window_ok strategies -> (2 <= cfg_lookback config)%nat ->
  exists tf, analyze_timeframe symbol strategies config = Returns tf.
Proof.
  intros Hind Hok Hlb. rewrite analyze_timeframe_unfold.
  destruct (analysed_frame symbol config) as [df|]; [|eauto].
  destruct (analyze_all_returns strategies df (cfg_lookback config) (timeframe_kwargs config) Hind)
    as [results Hres].
  - eapply List.Forall_impl; [|exact Hok]. intros s Hs.
    destruct s; simpl in *; auto; try lia.
    rewrite timeframe_kwargs_window. split; [lia | exact Hs].
  - cbv zeta. rewrite Hres. simpl. eauto.
Qed.

Lemma analyze_timeframes_returns `{E : External} (symbol : string) (strategies : list Strategy)
    (configs : list TimeframeConfig) :
  indicators_defined E -> Forall window_ok strategies ->
  Forall (fun c => (2 <= cfg_lookback c)%nat) configs ->
  exists tfs, analyze_timeframes symbol strategies configs = Returns tfs.
Proof.
  intros Hind Hok. induction 1 as [|c rest Hc _ [tfs IH]]; simpl.
  - eauto.
  - destruct (analyze_timeframe_returns symbol strategies c Hind Hok Hc) as [tf ->].
    rewrite IH. simpl. eauto.
Qed.

(** X24.  Provided the indicator classes return a series over the index
    of their input, the report is returned, whatever the data source
    delivers, when every pivot window is at least one bar and every
    configured look-back at least two bars.  This holds for the default
    strategies over the default configurations. *)
Theorem report_returns `{E : External} (symbol : string) (strategies : list Strategy)
    (timeframes : option (list TimeframeConfig)) :
  indicators_defined E ->
  (Forall window_ok strategies ->
   Forall (fun c => (2 <= cfg_lookback c)%nat) (report_configs timeframes) ->
   exists report, multi_timeframe_report symbol strategies timeframes = Returns report) /\
  (forall defaults unknown,
     get_strategies None ∅ = Returns (defaults, unknown) ->
     exists report, multi_timeframe_report symbol defaults None = Returns report).
Proof.
  intros Hind.
  assert (Hgen : forall strats tfs,
            Forall window_ok strats ->
            Forall (fun c => (2 <= cfg_lookback c)%nat) (report_configs tfs) ->
            exists report, multi_timeframe_report symbol strats tfs = Returns report).
  { intros strats tfs Hok Hcfg. unfold multi_timeframe_report. fold (report_configs tfs).
    destruct (analyze_timeframes_returns symbol strats _ Hind Hok Hcfg) as [tfs' ->].
    simpl. eauto. }
  split; [apply Hgen|].
  intros defaults unknown Hget.
  assert (Hdef : get_strategies None ∅
                 = Returns ([LinearRegressionStrategy 25 (1 # 2); BollingerBandStrategy 20 2;
                             DonchianChannelStrategy 20; TrendlineStrategy 5], []))
    by (vm_compute; reflexivity).
  rewrite Hdef in Hget. injection Hget as <- _.
  apply Hgen.
  - apply List.Forall_forall. intros s Hs. simpl in Hs.
    repeat (destruct Hs as [<-|Hs]; [simpl; try exact I; lia|]). contradiction.
  - apply List.Forall_forall. intros c Hc. simpl in Hc.
    repeat (destruct Hc as [<-|Hc]; [simpl; lia|]). contradiction.
Qed.

Lemma report_returns_witness :
  exists report,
    @multi_timeframe_report example_feed "GC=F"
      [LinearRegressionStrategy 25 (1 # 2); TrendlineStrategy 5] None = Returns report.
Proof.
  assert (Hind : indicators_defined example_feed) by exact example_external_defined.
  apply (proj1 (@report_returns example_feed "GC=F"
                  [LinearRegressionStrategy 25 (1 # 2); TrendlineStrategy 5] None Hind)).
  - apply List.Forall_forall. intros s Hs. simpl in Hs.
    repeat (destruct Hs as [<-|Hs]; [simpl; try exact I; lia|]). contradiction.
  - apply List.Forall_forall. intros c Hc. simpl in Hc.
    repeat (destruct Hc as [<-|Hc]; [simpl; lia|]). contradiction.
Defined.

Lemma analyze_timeframes_no_data `{External} (symbol : string) (strategies : list Strategy)
    (configs : list TimeframeConfig) :
  (forall period interval,
     fetch_ohlcv symbol period interval = None \/ fetch_ohlcv symbol period interval = Some []) ->
  analyze_timeframes symbol strategies configs
  = Returns (List.map (fun c => TimeframeError (cfg_name c) (cfg_label c) "数据获取失败") configs).
Proof.
  intros Hfetch. induction configs as [|c rest IH]; simpl; [reflexivity|].
  rewrite IH. unfold analyze_timeframe.
  destruct (Hfetch (cfg_period c) (cfg_interval c)) as [-> | ->]; reflexivity.
Qed.

Lemma generate_summary_all_errors (tfs : list Timeframe) :
  Forall (fun tf => tf_has_error tf = true) tfs ->
  _generate_summary tfs = mkSummary CONCLUSION_NO_DATA [].
Proof.
  intros Hall. unfold _generate_summary.
  replace (List.filter (fun tf => negb (tf_has_error tf)) tfs) with (@nil Timeframe);
    [reflexivity|].
  induction Hall as [|tf rest Htf _ IH]; simpl; [reflexivity|].
  rewrite Htf. simpl. exact IH.
Qed.

(** X20.  When no bars can be retrieved for the symbol, the report is
    still returned: every time-frame is the retrieval error under the name
    of its configuration, and the summary is the insufficient-data
    conclusion with no details. *)
Theorem report_without_data `{External} (symbol : string) (strategies : list Strategy)
    (timeframes : option (list TimeframeConfig)) :
  (forall period interval,
     fetch_ohlcv symbol period interval = None \/ fetch_ohlcv symbol period interval = Some []) ->
  exists report,
    multi_timeframe_report symbol strategies timeframes = Returns report /\
    report_timeframes report
    = List.map (fun c => TimeframeError (cfg_name c) (cfg_label c) "数据获取失败")
               (report_configs timeframes) /\
    summary report = mkSummary CONCLUSION_NO_DATA [].
Proof.
  intros Hfetch. unfold multi_timeframe_report. fold (report_configs timeframes).
  rewrite (analyze_timeframes_no_data symbol strategies _ Hfetch). simpl bind.
  eexists. split; [reflexivity|]. cbn [report_timeframes summary]. split; [reflexivity|].
  apply generate_summary_all_errors.
  apply List.Forall_forall. intros tf Hin. apply in_map_iff in Hin.
  destruct Hin as (c & <- & _). reflexivity.
Qed.

Lemma report_without_data_witness :
  exists report,
    @multi_timeframe_report example_external "GC=F" [TrendlineStrategy 5] None
      = Returns report /\
    summary report = mkSummary CONCLUSION_NO_DATA [].
Proof.
  destruct (@report_without_data example_external "GC=F" [TrendlineStrategy 5] None)
    as (report & Hr & _ & Hs).
  - intros period interval. left. reflexivity.
  - exists report. split; assumption.
Defined.

Lemma analyze_all_short `{External} (strategies : list Strategy)
    (df : DataFrame) (lookback : nat) (kwargs : gmap string Q) :
  Forall (fun s => (length df < min_bars s lookback kwargs)%nat) strategies ->
  analyze_all strategies df lookback kwargs
  = Returns (List.map (fun s => ErrorResult (InsufficientBars (min_bars s lookback kwargs)
                                                              (length df))) strategies).
Proof.
  induction 1 as [|s rest Hs _ IH]; simpl; [reflexivity|].
  rewrite (analyze_short s df lookback kwargs Hs), IH. reflexivity.
Qed.

Lemma consensus_all_errors (rs : list Result) :
  Forall (fun r => has_error r = true) rs ->
  _consensus rs = mkConsensus NO_VALID_DATA 0 0 0.
Proof.
  intros Hall. unfold _consensus.
  replace (valid_results rs) with (@nil ChannelResult); [reflexivity|].
  induction Hall as [|[e|r] rest Hr _ IH]; simpl; [reflexivity|exact IH|discriminate Hr].
Qed.

(** X21.  A frame that is shorter than the minimum of every strategy
    does not make an error time-frame: each strategy result is the
    insufficient-bars error, the verdict is the no-valid-data label with
    no Up and no Down, and the time-frame enters the summary leaning
    neither way. *)
Theorem thin_frame_no_verdict `{External} (symbol : string) (strategies : list Strategy)
    (config : TimeframeConfig) (df : DataFrame) :
  analysed_frame symbol config = Some df ->
  Forall (fun s => (length df < min_bars s (cfg_lookback config) (timeframe_kwargs config))%nat)
         strategies ->
  exists results,
    let tf := TimeframeOk (cfg_name config) (cfg_label config) (length df) results
                          (Some (mkConsensus NO_VALID_DATA 0 0 0)) in
    analyze_timeframe symbol strategies config = Returns tf /\
    Forall (fun r => has_error r = true) results /\
    tf_has_error tf = false /\ leans_bullish tf = false /\ leans_bearish tf = false.
Proof.
  intros Hframe Hshort.
  eexists. cbv zeta. split; [|split; [|repeat split]].
  - rewrite analyze_timeframe_unfold, Hframe. cbv zeta.
    rewrite (analyze_all_short strategies df _ _ Hshort). cbn [bind].
    rewrite consensus_all_errors; [reflexivity|].
    apply List.Forall_forall. intros r Hin. apply in_map_iff in Hin.
    destruct Hin as (s & <- & _). reflexivity.
  - apply List.Forall_forall. intros r Hin. apply in_map_iff in Hin.
    destruct Hin as (s & <- & _). reflexivity.
Qed.

Lemma thin_frame_no_verdict_witness :
  exists results,
    @analyze_timeframe example_feed "GC=F"
      [LinearRegressionStrategy 25 (1 # 2); BollingerBandStrategy 20 2]
      (mkTimeframeConfig "1H" "日内" "1h" "2mo" 240 (Some 20%nat) (Some 60%nat) None)
    = Returns (TimeframeOk "1H" "日内" 12 results (Some (mkConsensus NO_VALID_DATA 0 0 0))).
Proof.
  destruct (@thin_frame_no_verdict example_feed "GC=F"
              [LinearRegressionStrategy 25 (1 # 2); BollingerBandStrategy 20 2]
              (mkTimeframeConfig "1H" "日内" "1h" "2mo" 240 (Some 20%nat) (Some 60%nat) None)
              (rising_bars 1900 12))
    as (results & Hr & _).
  - reflexivity.
  - repeat constructor; vm_compute; lia.
  - exists results. exact Hr.
Defined.


(** X22.  For a configuration with a resampling interval, fewer than 20
    retrieved bars always give an error time-frame, whatever the
    strategies: the resampled frame is no longer than the source. *)
Theorem short_source_timeframe `{External} (symbol : string) (strategies : list Strategy)
    (config : TimeframeConfig) (rule : Z) (df : DataFrame) :
  cfg_resample config = Some rule ->
  fetch_ohlcv symbol (cfg_period config) (cfg_interval config) = Some df ->
  (length df < 20)%nat ->
  analyze_timeframe symbol strategies config
  = Returns (TimeframeError (cfg_name config) (cfg_label config)
               (if (length df =? 0)%nat then "数据获取失败" else "重采样后数据不足")).
Proof.
  intros Hrule Hfetch Hlen. unfold analyze_timeframe. rewrite Hfetch, Hrule.
  destruct df as [|d df]; [reflexivity|].
  cbn [length Nat.eqb].
  destruct (_resample (d :: df) rule) as [resampled|] eqn:Hres; [|reflexivity].
  pose proof (resample_length_le _ _ _ Hres) as Hle.
  destruct (Nat.ltb_spec (length resampled) 20) as [_|Hge]; [reflexivity|lia].
Qed.

Lemma short_source_timeframe_witness :
  @analyze_timeframe example_feed "GC=F" [TrendlineStrategy 0]
    (mkTimeframeConfig "4H" "波段" "1h" "6mo" 180 (Some 20%nat) (Some 60%nat) (Some 14400%Z))
  = Returns (TimeframeError "4H" "波段" "重采样后数据不足").
Proof.
  apply (@short_source_timeframe example_feed "GC=F" [TrendlineStrategy 0]
           (mkTimeframeConfig "4H" "波段" "1h" "6mo" 180 (Some 20%nat) (Some 60%nat)
                              (Some 14400%Z))
           14400 (rising_bars 1900 12)).
  - reflexivity.
  - reflexivity.
  - vm_compute. lia.
Defined.

Lemma analyze_all_raises `{External} (strategies : list Strategy)
    (df : DataFrame) (lookback : nat) (kwargs : gmap string Q) (e : exc) :
  analyze_all strategies df lookback kwargs = Raises e ->
  exists s, In s strategies /\ analyze s df lookback kwargs = Raises e.
Proof.
  induction strategies as [|s rest IH]; simpl; [discriminate|].
  destruct (analyze s df lookback kwargs) as [res|e'] eqn:Hs; simpl.
  - destruct (analyze_all rest df lookback kwargs) as [results|e''] eqn:Hrest; simpl;
      [discriminate|].
    intros He. injection He as ->.
    destruct (IH eq_refl) as (s' & Hin & Hs'). exists s'. split; [right; exact Hin|exact Hs'].
  - intros He. injection He as ->. exists s. split; [left; reflexivity|exact Hs].
Qed.

Lemma analyze_timeframe_raises `{External} (symbol : string) (strategies : list Strategy)
    (config : TimeframeConfig) (e : exc) :
  analyze_timeframe symbol strategies config = Raises e ->
  exists df s,
    analysed_frame symbol config = Some df /\ In s strategies /\
    analyze s df (cfg_lookback config) (timeframe_kwargs config) = Raises e.
Proof.
  rewrite analyze_timeframe_unfold.
  destruct (analysed_frame symbol config) as [df|]; [|discriminate].
  cbv zeta.
  destruct (analyze_all strategies df (cfg_lookback config) (timeframe_kwargs config))
    as [results|e'] eqn:Hall; simpl; [discriminate|].
  intros He. injection He as ->.
  destruct (analyze_all_raises _ _ _ _ _ Hall) as (s & Hin & Hs).
  exists df, s. auto.
Qed.

Lemma analyze_timeframes_raises `{External} (symbol : string) (strategies : list Strategy)
    (configs : list TimeframeConfig) (e : exc) :
  analyze_timeframes symbol strategies configs = Raises e ->
  exists c, In c configs /\ analyze_timeframe symbol strategies c = Raises e.
Proof.
  induction configs as [|c rest IH]; simpl; [discriminate|].
  destruct (analyze_timeframe symbol strategies c) as [tf|e'] eqn:Hc; simpl.
  - destruct (analyze_timeframes symbol strategies rest) as [tfs|e''] eqn:Hrest; simpl;
      [discriminate|].
    intros He. injection He as ->.
    destruct (IH eq_refl) as (c' & Hin & Hc'). exists c'. split; [right; exact Hin|exact Hc'].
  - intros He. injection He as ->. exists c. split; [left; reflexivity|exact Hc].
Qed.

(** X25.  The report raises only what a strategy raises: if
    [multi_timeframe_report] raises an exception, then [analyze] of one of
    the strategies raises it on the frame analysed for one of the
    configurations, and that frame passes the length test of the
    strategy. *)
Theorem report_raises_from_strategy `{External} (symbol : string) (strategies : list Strategy)
    (timeframes : option (list TimeframeConfig)) (e : exc) :
  multi_timeframe_report symbol strategies timeframes = Raises e ->
  exists c df s,
    In c (report_configs timeframes) /\ analysed_frame symbol c = Some df /\
    In s strategies /\
    (min_bars s (cfg_lookback c) (timeframe_kwargs c) <= length df)%nat /\
    analyze s df (cfg_lookback c) (timeframe_kwargs c) = Raises e.
Proof.
  unfold multi_timeframe_report. fold (report_configs timeframes).
  destruct (analyze_timeframes symbol strategies (report_configs timeframes))
    as [tfs|e'] eqn:Htfs; simpl; [discriminate|].
  intros He. injection He as ->.
  destruct (analyze_timeframes_raises _ _ _ _ Htfs) as (c & Hc & Hraise).
  destruct (analyze_timeframe_raises _ _ _ _ Hraise) as (df & s & Hframe & Hs & Hse).
  exists c, df, s. repeat (split; [assumption|]). split; [|exact Hse].
  destruct (Nat.lt_ge_cases (length df) (min_bars s (cfg_lookback c) (timeframe_kwargs c)))
    as [Hshort|Hlong]; [|exact Hlong].
  rewrite (analyze_short s df _ _ Hshort) in Hse. discriminate Hse.
Qed.

Lemma report_raises_from_strategy_witness :
  exists c df s,
    In c [mkTimeframeConfig "1H" "日内" "1h" "2mo" 6 None None None] /\
    @analysed_frame example_feed "GC=F" c = Some df /\
    In s [BollingerBandStrategy 20 2; TrendlineStrategy 0] /\
    @analyze example_feed s df (cfg_lookback c) (timeframe_kwargs c) = Raises ValueError.
Proof.
  destruct (@report_raises_from_strategy example_feed "GC=F"
              [BollingerBandStrategy 20 2; TrendlineStrategy 0]
              (Some [mkTimeframeConfig "1H" "日内" "1h" "2mo" 6 None None None]) ValueError)
    as (c & df & s & Hc & Hdf & Hs & _ & He).
  - vm_compute. reflexivity.
  - exists c, df, s. repeat split; assumption.
Defined.

Lemma valid_results_long_enough `{External} (strategies : list Strategy)
    (df : DataFrame) (lookback : nat) (kwargs : gmap string Q) (results : list Result) :
  Forall2 (fun s r => analyze s df lookback kwargs = Returns r) strategies results ->
  length results = length strategies /\
  length (valid_results results)
  = length (List.filter (fun s => (min_bars s lookback kwargs <=? length df)%nat) strategies).
Proof.
  induction 1 as [|s r ss rs Hs _ [IHl IHv]]; [split; reflexivity|].
  split; [simpl; congruence|].
  cbn [List.filter].
  destruct (Nat.leb_spec (min_bars s lookback kwargs) (length df)) as [Hlong|Hshort].
  - destruct r as [e|cr].
    + exfalso. exact (analyze_long s df lookback kwargs e Hlong Hs).
    + simpl. congruence.
  - rewrite (analyze_short s df lookback kwargs Hshort) in Hs. injection Hs as <-.
    simpl. exact IHv.
Qed.

(** X26.  In a time-frame that is not an error the bar count is the
    length of the analysed frame, there is one result per strategy, and
    the total of the verdict is the number of strategies for whose
    minimum the frame is long enough; Up and Down together never exceed
    it. *)
Theorem timeframe_total `{External} (symbol : string) (strategies : list Strategy)
    (config : TimeframeConfig) (n l : string) (bars : nat) (results : list Result)
    (c : Consensus) :
  analyze_timeframe symbol strategies config = Returns (TimeframeOk n l bars results (Some c)) ->
  exists df,
    analysed_frame symbol config = Some df /\
    bars = length df /\
    length results = length strategies /\
    total c = length (List.filter
                        (fun s => (min_bars s (cfg_lookback config) (timeframe_kwargs config)
                                   <=? length df)%nat) strategies) /\
    (up c + down c <= total c)%nat.
Proof.
  rewrite analyze_timeframe_unfold.
  destruct (analysed_frame symbol config) as [df|]; [|discriminate].
  cbv zeta. intros Hr. run_binds Hr.
  subst.
  match goal with
  | Ha : analyze_all _ _ _ _ = Returns _ |- _ => apply analyze_all_spec in Ha; rename Ha into Hall
  end.
  destruct (valid_results_long_enough _ _ _ _ _ Hall) as [Hlen Hvalid].
  exists df. split; [reflexivity|]. split; [reflexivity|]. split; [exact Hlen|].
  match goal with
  | |- context [_consensus ?rs] => destruct (consensus_fields rs) as (Hu & Hd & Ht)
  end.
  split; [rewrite Ht; exact Hvalid|].
  rewrite Hu, Hd, Ht. apply count_up_down.
Qed.

Lemma timeframe_total_witness :
  exists results c,
    @analyze_timeframe example_feed "GC=F" [BollingerBandStrategy 20 2; TrendlineStrategy 1]
      (mkTimeframeConfig "1H" "日内" "1h" "2mo" 6 None None None)
    = Returns (TimeframeOk "1H" "日内" 12 results (Some c)) /\
    total c = 1%nat.
Proof.
  assert (E : exists results c,
    @analyze_timeframe example_feed "GC=F" [BollingerBandStrategy 20 2; TrendlineStrategy 1]
      (mkTimeframeConfig "1H" "日内" "1h" "2mo" 6 None None None)
    = Returns (TimeframeOk "1H" "日内" 12 results (Some c)))
    by (vm_compute; eexists; eexists; reflexivity).
  destruct E as (results & c & E). exists results, c. split; [exact E|].
  destruct (@timeframe_total example_feed _ _ _ _ _ _ _ _ E) as (df & Hdf & _ & _ & Ht & _).
  vm_compute in Hdf. injection Hdf as <-. rewrite Ht. reflexivity.
Defined.
